(** * Dedi-Bot: the instance lifecycle orchestrator of [index.js]

    A shallow embedding of the in-memory registry ([instanceState]), the
    self-destruct timers, the provider-access layer, the provisioning
    pipeline, the two reconciliation pollers and the panel-update lock,
    followed by the properties proved about them.

    Conventions.
    - A JavaScript object used as a record is a finite map from property
      names to values ([gmap string value]); object spread is map union.
    - JavaScript numbers that occur here are integral millisecond counts
      and small counters, far below 2^53: they are modelled by [Z].
    - Everything the process exchanges with the outside (the Vultr SDK,
      the metadata service, Discord, sleeping) goes through one state and
      exception monad; the outside world is an arbitrary deterministic
      strategy, a function of the calls made so far.
    - Every [console.error] line is recorded, by its fixed text without
      emoji and interpolated values; [console.log] and [console.warn]
      lines, which only narrate progress, are left out, except where one is
      all that a handler does.
    - A poller re-arms itself with [setTimeout(pollStatus, ms)]; a tick is
      modelled as a function that returns whether it did so, and the chain
      of ticks as a loop with fuel.
    - Code between two [await]s runs without interruption; the functions
      below are run one at a time, not interleaved with each other (the
      panel-update lock, whose purpose is interleaving, has a model of its
      own). *)

From Stdlib Require Import ZArith Lia Ascii String List Bool.
From stdpp Require Import gmap strings pretty list fin_maps.

Local Open Scope string_scope.

(* ===================================================================== *)
(** * JavaScript values stored in the registry *)
(* ===================================================================== *)

(** The [selfDestructTimer] object literal of [initializeSelfDestructTimer]. *)
Record timer := Timer {
  expiresAt : Z;
  initialDuration : Z;
  extendedCount : Z;
  warningsSent : list string
}.

(** Values of the properties of a tracked instance. [VDate ms] is the ISO
    string [new Date(ms).toISOString()], [VCreator] the object
    [{ id, username }]. *)
Inductive value :=
| VUndefined
| VNull
| VStr (s : string)
| VNum (n : Z)
| VDate (ms : Z)
| VCreator (id username : string)
| VTimer (t : timer).

(** JavaScript truthiness. *)
Definition truthy (v : value) : bool :=
  match v with
  | VUndefined | VNull => false
  | VStr s => negb (String.eqb s "")
  | VNum n => negb (n =? 0)%Z
  | VDate _ | VCreator _ _ | VTimer _ => true
  end.

(** [a || b] *)
Definition js_or (a b : value) : value := if truthy a then a else b.

Abbreviation record := (gmap string value).

(** Property read [o.k]: [undefined] when the property is absent. *)
Definition prop (o : record) (k : string) : value := default VUndefined (o !! k).

(** Object spread [{ ...a, ...b }]: the properties of [b] win. *)
Definition spread (a b : record) : record := b ∪ a.

(** [i.id === instanceId] for a string [instanceId]. *)
Definition has_id (instanceId : string) (i : record) : bool :=
  match i !! "id" with
  | Some (VStr s) => String.eqb s instanceId
  | _ => false
  end.

(** [i.status === s] for a string literal [s]. *)
Definition status_is (s : string) (i : record) : bool :=
  match i !! "status" with
  | Some (VStr x) => String.eqb x s
  | _ => false
  end.

(** [Array.prototype.findIndex]; [None] stands for -1. *)
Fixpoint findIndex {A} (p : A -> bool) (l : list A) : option nat :=
  match l with
  | [] => None
  | x :: l' => if p x then Some 0%nat else S <$> findIndex p l'
  end.

(** [Array.prototype.find]; [None] stands for [undefined]. *)
Fixpoint find {A} (p : A -> bool) (l : list A) : option A :=
  match l with
  | [] => None
  | x :: l' => if p x then Some x else find p l'
  end.

(* ===================================================================== *)
(** * The in-memory registry: [instanceState] *)
(* ===================================================================== *)

Module instanceState.

(** The seven properties every call of [trackInstance] writes. *)
Definition instanceData (now : Z) (instanceId userId username : string)
    (status : value) (metadata : record) : record :=
  <["id" := VStr instanceId]>
  (<["creator" := VCreator userId username]>
  (<["createdAt" := VDate now]>
  (<["status" := js_or status (VStr "creating")]>
  (<["ip" := js_or (prop metadata "ip") VNull]>
  (<["name" := js_or (prop metadata "name") (VStr (username ++ "'s Server"))]>
  (<["lastUpdated" := VDate now]> ∅)))))).

(** The names of these seven properties. *)
Definition tracked_keys : list string :=
  ["id"; "creator"; "createdAt"; "status"; "ip"; "name"; "lastUpdated"].

(** [trackInstance(instanceId, userId, username, status, metadata = {})]
    at clock [now]; returns [instanceData] and the new array. *)
Definition trackInstance (now : Z) (instanceId userId username : string)
    (status : value) (metadata : record) (instances : list record)
    : record * list record :=
  let existingIndex := findIndex (has_id instanceId) instances in
  let data := instanceData now instanceId userId username status metadata in
  match existingIndex with
  | Some idx =>
      (data, <[idx := spread (default ∅ (instances !! idx)) data]> instances)
  | None => (data, (instances ++ [data])%list)
  end.

(** [updateInstance(instanceId, status, metadata = {})]; the result is
    the stored record, [None] for [null]. *)
Definition updateInstance (now : Z) (instanceId : string) (status : value)
    (metadata : record) (instances : list record)
    : option record * list record :=
  match findIndex (has_id instanceId) instances with
  | Some idx =>
      let old := default ∅ (instances !! idx) in
      let new :=
        spread (<["lastUpdated" := VDate now]> (<["status" := status]> old))
               metadata in
      (Some new, <[idx := new]> instances)
  | None => (None, instances)
  end.

(** [getActiveInstances()] *)
Definition getActiveInstances (instances : list record) : list record :=
  List.filter
    (fun i => negb (status_is "terminated" i) && negb (status_is "destroyed" i))
    instances.

(** [getInstance(instanceId)] *)
Definition getInstance (instanceId : string) (instances : list record)
    : option record :=
  find (has_id instanceId) instances.

End instanceState.

(* ===================================================================== *)
(** * The outside world *)
(* ===================================================================== *)

(** A thrown JavaScript error: [error.message], [error.response?.status]
    and [error.response?.data?.error || error.response?.data?.message]. *)
Record jserror := JsError {
  message : string;
  response_status : option Z;
  response_data_error : option string
}.

(** An awaited promise either resolves or rejects. *)
Inductive outcome (A : Type) :=
| Resolved (a : A)
| Rejected (e : jserror).
Arguments Resolved {A} a.
Arguments Rejected {A} e.

(** Objects of the Vultr API. An absent, [null] or [undefined] property is
    [None]. *)
Module Vultr.
Record instance := Instance {
  id : string;
  label : option string;
  status : option string;
  power_status : option string;
  main_ip : option string;
  snapshot_id : option string;
  firewall_group_id : option string;
  features : list string
}.

Record snapshot := Snapshot {
  snapshot_ident : string;          (* [snap.id] *)
  description : option string;
  date_created : Z                  (* [new Date(snap.date_created)], in ms *)
}.

(** What [vultr.instances.createInstance] resolves with; [json] is
    [JSON.stringify] of the response (of the instance for
    [CreatedInstance]). *)
Inductive create_response :=
| EmptyResponse                               (* falsy, or no own keys *)
| NoInstance (json : string)                  (* [!response.instance] *)
| CreatedInstance (i : instance) (json : string).
End Vultr.

(** Argument of [vultr.instances.updateInstance]. *)
Inductive update :=
| firewall_group_id (id : string)
| ddos_protection.

(** The messages the bot sends through Discord, by their opening words. *)
Inductive notice :=
| StartupLimitExceeded        (* "Server ... exceeded 30-minute startup limit" *)
| NotAvailableForManagement   (* "This server is not available for management." *)
| ServerReady (ip : string) (elapsedMinutes : Z)  (* "Server ... is now READY" *)
| ReadyDM (ip : string) (elapsedMinutes : Z)      (* "Your Server is Ready!" *)
| RestoringFromSnapshot (elapsedMinutes : Z)      (* "Restoring from snapshot..." *)
| CreationProgress (elapsedMinutes : Z)           (* "Server ... creation in ..." *)
| UnableToMonitor             (* "Unable to monitor server ... (API errors)" *)
| DestructionTimeout          (* "Destruction timeout after 15 minutes" *)
| Destroyed                   (* "Server ... DESTROYED!" *)
| Destroying (attempts elapsedMinutes : Z)        (* "Destroying ... Attempt n" *)
| SelfDestructed              (* "Server Self-Destructed" *)
| SelfDestructWarning (minutesRemaining : Z)      (* "Self-Destruct Warning" *)
| NoActiveTimer               (* "This server does not have an active timer." *)
| CoinInserted (newExpiresAt : Z)                 (* "Coin Inserted!" *)
| CoinError.                  (* "There was an error inserting the coin." *)

(** Everything the process does to the outside, in the order it happens. *)
Inductive call :=
| GetInstance (instanceId : string)       (* vultr.instances.getInstance *)
| DeleteInstance (instanceId : string)    (* vultr.instances.deleteInstance *)
| UpdateInstance (instanceId : string) (u : update)
| CreateInstance (snapshot_id label region plan : string)
| StartInstance (instanceId : string)     (* vultr.instances.startInstance *)
| ListInstances
| ListSnapshots
| MetadataInstanceId        (* fetch('http://169.254.169.254/v1/instanceid') *)
| DirectCreate              (* fetch('https://api.vultr.com/v2/instances', POST) *)
| FollowUp (n : notice)     (* interaction.followUp *)
| EditReply (n : notice)    (* interaction.editReply *)
| UsersFetch (userId : string)            (* client.users.fetch *)
| UserSend (n : notice)     (* user.send *)
| Sleep (ms : Z)            (* await new Promise(r => setTimeout(r, ms)) *)
| SetTimeoutUpdatePanel (ms : Z)          (* setTimeout(() => updatePanel(), ms) *)
| SetTimeoutPollStatus (ms : Z)           (* setTimeout(pollStatus, ms) *)
| ConsoleError (line : string)            (* console.error *)
| ConsoleLog (line : string).             (* console.log, where a handler does nothing else *)

(** The outside world: what each call answers, given the calls made so
    far, and how long it takes. *)
Record World := {
  getInstance_reply : list call -> string -> outcome (option Vultr.instance);
    (* [response.instance] *)
  deleteInstance_reply : list call -> string -> outcome unit;
  updateInstance_reply : list call -> string -> update -> outcome unit;
  createInstance_reply : list call -> outcome Vultr.create_response;
  listInstances_reply : list call -> outcome (list Vultr.instance);
    (* [response.instances || []] *)
  listSnapshots_reply : list call -> outcome (list Vultr.snapshot);
    (* [response.snapshots || []] *)
  metadata_reply : list call -> option string;
    (* [Some text] when [response.ok]; [None] when not ok or [fetch] threw *)
  directCreate_reply : list call -> outcome (bool * Z * string);
    (* [response.ok], [response.status], [await response.text()] *)
  discord_reply : list call -> outcome unit;
    (* followUp / editReply / user.send *)
  usersFetch_reply : list call -> outcome bool;
    (* whether the fetched user is truthy *)
  latency : list call -> N
    (* milliseconds that pass during the call *)
}.

(** [process.env] *)
Record Env := {
  EXCLUDE_INSTANCE_ID : option string;
  EXCLUDE_SNAPSHOT_ID : option string;
  VULTR_FIREWALL_GROUP_ID : option string;
  VULTR_REGION : option string;
  VULTR_PLAN : option string;
  SELF_DESTRUCT_INITIAL_MINUTES : Z;   (* parseInt(...) || 180 *)
  SELF_DESTRUCT_COIN_MINUTES : Z       (* parseInt(...) || 180 *)
}.

(** [parseInt(process.env.X) || 180]: [None] is [NaN]. *)
Definition minutes_setting (parsed : option Z) : Z :=
  match parsed with
  | Some n => if (n =? 0)%Z then 180%Z else n
  | None => 180%Z
  end.

(** The mutable state of the process. *)
Record state := State {
  instances : list record;                   (* instanceState.instances *)
  currentServerInstanceId : option string;   (* the cached id, [null] at start *)
  history : list call;                       (* calls so far, oldest first *)
  clock : Z                                  (* Date.now() *)
}.

(** ** Reading a tracked instance

    Every record of the registry is built by [trackInstance]: its [id] is a
    string and its [creator] an object. Under [selfDestructTimer] the
    program only ever stores a timer object or [null]. *)

(** [trackedInstance.id] *)
Definition id_of (r : record) : string :=
  match prop r "id" with
  | VStr s => s
  | _ => ""
  end.

(** [trackedInstance.creator.id]; [None] when [creator] is not an object
    (the read then throws a [TypeError]). *)
Definition creator_id (r : record) : option string :=
  match prop r "creator" with
  | VCreator id _ => Some id
  | _ => None
  end.

(** [trackedInstance.selfDestructTimer], [None] when it is falsy. *)
Definition timer_of (r : record) : option timer :=
  match prop r "selfDestructTimer" with
  | VTimer t => Some t
  | _ => None
  end.

(** ** Strings *)

(** Truthiness of a string that may be [undefined] or [null]. *)
Definition string_truthy (o : option string) : bool :=
  match o with
  | Some s => negb (String.eqb s "")
  | None => false
  end.

(** [x || null] *)
Definition or_null (o : option string) : option string :=
  if string_truthy o then o else None.

(** [x || fallback] *)
Definition or_string (o : option string) (fallback : string) : string :=
  match o with
  | Some s => if String.eqb s "" then fallback else s
  | None => fallback
  end.

(** A string property of an API object as a registry value. *)
Definition opt_value (o : option string) : value :=
  match o with
  | Some s => VStr s
  | None => VUndefined
  end.

(** A string stands for the UTF-8 encoding of the JavaScript string, byte
    by byte, as in a string literal of this file. The code points that
    [String.prototype.trim] strips are ECMAScript's WhiteSpace and
    LineTerminator: U+0009 to U+000D and U+0020 (one byte each), U+00A0
    (two bytes), and U+1680, U+2000 to U+200A, U+2028, U+2029, U+202F,
    U+205F, U+3000 and U+FEFF (three bytes each). *)
Definition is_space (c : ascii) : bool :=
  match nat_of_ascii c with
  | 9%nat | 10%nat | 11%nat | 12%nat | 13%nat | 32%nat => true
  | _ => false
  end.

(** The two bytes [c1 c2] encode U+00A0. *)
Definition is_space2 (c1 c2 : ascii) : bool :=
  match nat_of_ascii c1, nat_of_ascii c2 with
  | 194%nat, 160%nat => true
  | _, _ => false
  end.

(** The three bytes [c1 c2 c3] encode one of the white-space code points
    above U+07FF. *)
Definition is_space3 (c1 c2 c3 : ascii) : bool :=
  match nat_of_ascii c1, nat_of_ascii c2, nat_of_ascii c3 with
  | 225%nat, 154%nat, 128%nat => true                      (* U+1680 *)
  | 226%nat, 128%nat, n =>
      (128 <=? n)%nat && (n <=? 138)%nat                   (* U+2000 - U+200A *)
      || (n =? 168)%nat || (n =? 169)%nat                  (* U+2028, U+2029 *)
      || (n =? 175)%nat                                    (* U+202F *)
  | 226%nat, 129%nat, 159%nat => true                      (* U+205F *)
  | 227%nat, 128%nat, 128%nat => true                      (* U+3000 *)
  | 239%nat, 187%nat, 191%nat => true                      (* U+FEFF *)
  | _, _, _ => false
  end.

(** White space stripped from the front of [s]; with [backwards], [s] is
    a string read from its end, each character's bytes in reverse. *)
Fixpoint strip (backwards : bool) (s : string) : string :=
  match s with
  | EmptyString => s
  | String c1 s1 =>
      if is_space c1 then strip backwards s1
      else
        match s1 with
        | EmptyString => s
        | String c2 s2 =>
            if (if backwards then is_space2 c2 c1 else is_space2 c1 c2)
            then strip backwards s2
            else
              match s2 with
              | EmptyString => s
              | String c3 s3 =>
                  if (if backwards then is_space3 c3 c2 c1
                      else is_space3 c1 c2 c3)
                  then strip backwards s3
                  else s
              end
        end
  end.

(** [String.prototype.trimStart] *)
Definition trimStart (s : string) : string := strip false s.

(** [String.prototype.trimEnd] *)
Definition trimEnd (s : string) : string :=
  String.rev (strip true (String.rev s)).

(** [String.prototype.trim] *)
Definition trim (s : string) : string := trimEnd (trimStart s).

(** [hay.includes(needle)] *)
Fixpoint includes (needle hay : string) : bool :=
  String.prefix needle hay ||
  match hay with
  | EmptyString => false
  | String _ rest => includes needle rest
  end.

Definition is_hex_digit (c : ascii) : bool :=
  let n := nat_of_ascii c in
  ((48 <=? n) && (n <=? 57) || (97 <=? n) && (n <=? 102) ||
   (65 <=? n) && (n <=? 70))%nat.

Fixpoint uuid_chars (pos : nat) (cs : list ascii) : bool :=
  match cs with
  | [] => Nat.eqb pos 36
  | c :: cs' =>
      (if Nat.eqb pos 8 || Nat.eqb pos 13 || Nat.eqb pos 18 || Nat.eqb pos 23
       then Ascii.eqb c "-" else is_hex_digit c)
      && uuid_chars (S pos) cs'
  end.

(** [/^[0-9a-f]{8}-[0-9a-f]{4}-[0-9a-f]{4}-[0-9a-f]{4}-[0-9a-f]{12}$/i.test(s)] *)
Definition uuidRegex_test (s : string) : bool :=
  uuid_chars 0 (list_ascii_of_string s).

(** The double-quote character. *)
Definition dquote : string := String (ascii_of_nat 34) EmptyString.

(** A [TypeError] raised by reading property [p] of [undefined]. *)
Definition TypeError (p : string) : jserror :=
  JsError ("Cannot read properties of undefined (reading '" ++ p ++ "')") None None.

(** [error.response?.status === n] *)
Definition status_eq (e : jserror) (n : Z) : bool :=
  bool_decide (response_status e = Some n).

(** How a poller tick ends: it returns for good, or it has called
    [setTimeout(pollStatus, ms)] as its last action. *)
Inductive tick :=
| Stop
| Again (ms : Z).

(** ** The monad of asynchronous code *)

Definition M (A : Type) : Type := state -> outcome A * state.

Definition ret {A} (a : A) : M A := fun s => (Resolved a, s).

Definition bind {A B} (m : M A) (k : A -> M B) : M B :=
  fun s =>
    match m s with
    | (Resolved a, s') => k a s'
    | (Rejected e, s') => (Rejected e, s')
    end.

Notation "x <~ m ;; k" := (bind m (fun x => k))
  (at level 100, m at next level, right associativity).
Notation "m ;;; k" := (bind m (fun _ => k))
  (at level 100, right associativity).

(** [throw e] *)
Definition throw {A} (e : jserror) : M A := fun s => (Rejected e, s).

(** [throw new Error(msg)] *)
Definition throw_Error {A} (msg : string) : M A := throw (JsError msg None None).

(** [try { m } catch (error) { handler error }] *)
Definition try_catch {A} (m : M A) (handler : jserror -> M A) : M A :=
  fun s =>
    match m s with
    | (Resolved a, s') => (Resolved a, s')
    | (Rejected e, s') => handler e s'
    end.

(** [Date.now()] *)
Definition Date_now : M Z := fun s => (Resolved (clock s), s).

Definition get_instances : M (list record) := fun s => (Resolved (instances s), s).

Definition set_instances (l : list record) : M unit :=
  fun s => (Resolved tt, State l (currentServerInstanceId s) (history s) (clock s)).

Definition get_currentServerInstanceId : M (option string) :=
  fun s => (Resolved (currentServerInstanceId s), s).

Definition set_currentServerInstanceId (v : option string) : M unit :=
  fun s => (Resolved tt, State (instances s) v (history s) (clock s)).

(** A fire-and-forget effect: recorded, takes no time. *)
Definition emit (c : call) : M unit :=
  fun s =>
    (Resolved tt,
     State (instances s) (currentServerInstanceId s) (history s ++ [c])%list (clock s)).

Section Bot.

Context (world : World) (env : Env).

(** An awaited call: the reply is read off the world, the call is
    recorded and the clock advances by [extra] plus the call's latency. *)
Definition await {A} (c : call) (extra : Z) (reply : list call -> outcome A) : M A :=
  fun s =>
    (reply (history s),
     State (instances s) (currentServerInstanceId s) (history s ++ [c])%list
           (clock s + extra + Z.of_N (latency world (history s)))).

(** [await new Promise(resolve => setTimeout(resolve, ms))] *)
Definition sleep (ms : Z) : M unit :=
  await (Sleep ms) ms (fun _ => Resolved tt).

(** Registry operations at the current clock. *)
Definition trackInstance (instanceId userId username : string)
    (status : value) (metadata : record) : M record :=
  fun s =>
    let '(data, l) :=
      instanceState.trackInstance (clock s) instanceId userId username status
                                  metadata (instances s) in
    (Resolved data, State l (currentServerInstanceId s) (history s) (clock s)).

Definition updateInstance (instanceId : string) (status : value)
    (metadata : record) : M (option record) :=
  fun s =>
    let '(r, l) :=
      instanceState.updateInstance (clock s) instanceId status metadata
                                   (instances s) in
    (Resolved r, State l (currentServerInstanceId s) (history s) (clock s)).

(* ------------------------------------------------------------------- *)
(** ** Self-destruct timers *)
(* ------------------------------------------------------------------- *)

(** [initializeSelfDestructTimer(instanceId)] *)
Definition initializeSelfDestructTimer (instanceId : string) : M unit :=
  l <~ get_instances ;;
  match instanceState.getInstance instanceId l with
  | None => ret tt
  | Some trackedInstance =>
      if truthy (prop trackedInstance "selfDestructTimer") then ret tt
      else
        now <~ Date_now ;;
        let expiresAt := (now + SELF_DESTRUCT_INITIAL_MINUTES env * 60 * 1000)%Z in
        updateInstance instanceId (prop trackedInstance "status")
          {[ "selfDestructTimer" :=
               VTimer (Timer expiresAt
                             (SELF_DESTRUCT_INITIAL_MINUTES env * 60 * 1000)%Z
                             0 []) ]} ;;;
        ret tt
  end.

(* ------------------------------------------------------------------- *)
(** ** The provider-access layer *)
(* ------------------------------------------------------------------- *)

(** [getCurrentServerInstanceId()] *)
Definition getCurrentServerInstanceId : M (option string) :=
  r <~ await MetadataInstanceId 0 (fun h => Resolved (metadata_reply world h)) ;;
  match r with
  | Some instanceId => ret (Some (trim instanceId))
  | None => ret (or_null (EXCLUDE_INSTANCE_ID env))
  end.

(** [isCurrentServer(instanceId)] *)
Definition isCurrentServer (instanceId : string) : M bool :=
  cached <~ get_currentServerInstanceId ;;
  (if string_truthy cached then ret tt
   else (v <~ getCurrentServerInstanceId ;; set_currentServerInstanceId v)) ;;;
  current <~ get_currentServerInstanceId ;;
  if bool_decide (current = Some instanceId) then ret true
  else if bool_decide (EXCLUDE_INSTANCE_ID env = Some instanceId) then ret true
  else ret false.

(** [getInstance(instanceId)]; [None] is the [null] (or [undefined])
    result. *)
Definition getInstance (instanceId : string) : M (option Vultr.instance) :=
  try_catch
    (instance <~ await (GetInstance instanceId) 0
                   (fun h => getInstance_reply world h instanceId) ;;
     isCurrent <~ isCurrentServer instanceId ;;
     if isCurrent then
       match instance with
       | None => throw (TypeError "label")      (* [instance.label] *)
       | Some _ => ret None
       end
     else
       let excludeSnapshotId := EXCLUDE_SNAPSHOT_ID env in
       if string_truthy excludeSnapshotId then
         match instance with
         | None => throw (TypeError "snapshot_id")
         | Some i =>
             if bool_decide (Vultr.snapshot_id i = excludeSnapshotId)
             then ret None else ret (Some i)
         end
       else ret instance)
    (fun error => emit (ConsoleError "Error getting instance:") ;;; throw error).

(** The [for ... of] loop of [listInstances] that drops the current
    server. *)
Fixpoint listInstances_filterCurrent (instances : list Vultr.instance)
    : M (list Vultr.instance) :=
  match instances with
  | [] => ret []
  | instance :: rest =>
      isCurrent <~ isCurrentServer (Vultr.id instance) ;;
      filtered <~ listInstances_filterCurrent rest ;;
      ret (if isCurrent then filtered else instance :: filtered)
  end.

(** [listInstances()] *)
Definition listInstances : M (list Vultr.instance) :=
  try_catch
    (instances <~ await ListInstances 0 (listInstances_reply world) ;;
     instances <~ listInstances_filterCurrent instances ;;
     let excludeSnapshotId := EXCLUDE_SNAPSHOT_ID env in
     if string_truthy excludeSnapshotId then
       ret (List.filter
              (fun instance =>
                 negb (bool_decide (Vultr.snapshot_id instance = excludeSnapshotId)))
              instances)
     else ret instances)
    (fun error => emit (ConsoleError "Error listing instances:") ;;; throw error).

(* ------------------------------------------------------------------- *)
(** ** Discord helpers *)
(* ------------------------------------------------------------------- *)

(** [sendAutoCleanupFollowUp(interaction, content)]; the timer that later
    deletes the message does not touch the state modelled here. *)
Definition sendAutoCleanupFollowUp (content : notice) : M unit :=
  try_catch
    (await (FollowUp content) 0 (discord_reply world))
    (fun error =>
       emit (ConsoleError "Error sending auto-cleanup follow-up:") ;;;
       throw error).

(** [sendServerCreationDM(user, serverDetails)]: never throws. *)
Definition sendServerCreationDM (ip : string) (elapsedMinutes : Z) : M unit :=
  try_catch
    (await (UserSend (ReadyDM ip elapsedMinutes)) 0 (discord_reply world))
    (fun error => emit (ConsoleError "Failed to send DM")).

(* ------------------------------------------------------------------- *)
(** ** The provisioning pipeline *)
(* ------------------------------------------------------------------- *)

(** [snapshots.sort((a, b) => new Date(b.date_created) - new Date(a.date_created))]:
    a stable sort, newest first. *)
Fixpoint insert_newest_first (x : Vultr.snapshot) (l : list Vultr.snapshot)
    : list Vultr.snapshot :=
  match l with
  | [] => [x]
  | y :: l' =>
      if (Vultr.date_created y <=? Vultr.date_created x)%Z
      then x :: y :: l'
      else y :: insert_newest_first x l'
  end.

Definition sort_newest_first (l : list Vultr.snapshot) : list Vultr.snapshot :=
  foldr insert_newest_first [] l.

(** [getSnapshots()] *)
Definition getSnapshots : M (list Vultr.snapshot) :=
  try_catch
    (snapshots <~ await ListSnapshots 0 (listSnapshots_reply world) ;;
     ret (sort_newest_first snapshots))
    (fun error =>
       emit (ConsoleError "Error getting snapshots - Full error:") ;;;
       emit (ConsoleError "Error response data:") ;;;
       emit (ConsoleError "Error status:") ;;;
       (if status_eq error 401 then emit (ConsoleError "API KEY ERROR")
        else if status_eq error 403 then
          emit (ConsoleError "API PERMISSION ERROR") ;;;
          emit (ConsoleError "Add this server's IP address to your API key settings")
        else ret tt) ;;;
       throw error).

Definition maxRetries : Z := 10.

(** [region || process.env.VULTR_REGION || "dfw"] *)
Definition region_or_default (region : string) : string :=
  if String.eqb region "" then or_string (VULTR_REGION env) "dfw" else region.

(** The message thrown for a rejected [createInstance] call. *)
Definition createInstance_error_message (apiError : jserror)
    (snapshotId region : string) : string :=
  let errorMsg :=
    match or_null (response_data_error apiError) with
    | Some m => m
    | None => if String.eqb (message apiError) "" then "Unknown error"
              else message apiError
    end in
  if status_eq apiError 400 then
    "Vultr API validation error (400): " ++ errorMsg ++
    ". Check: 1) Snapshot ID exists, 2) Plan is available in region, 3) Region is valid"
  else if status_eq apiError 401 then
    "Vultr API authentication failed (401). Check your VULTR_API_KEY is correct and has proper permissions."
  else if status_eq apiError 403 then
    "Vultr API access denied (403). Check: 1) API key has " ++ dquote ++
    "Instances" ++ dquote ++ " permission, 2) Server IP is in allowed IP list"
  else if status_eq apiError 404 then
    "Vultr API resource not found (404): " ++ errorMsg ++
    ". Check: 1) Snapshot ID " ++ dquote ++ snapshotId ++ dquote ++
    " exists, 2) Region " ++ dquote ++ region_or_default region ++ dquote ++
    " is valid"
  else
    "Vultr API error (" ++
    match response_status apiError with
    | Some n => if (n =? 0)%Z then "unknown" else pretty n
    | None => "unknown"
    end ++ "): " ++ errorMsg.

(** One iteration of the firewall loop, after [retryCount++]; the result
    is the new [firewallAttached]. *)
Definition firewall_attempt (instanceId firewallGroupId : string)
    (retryCount : Z) : M bool :=
  try_catch
    (await (UpdateInstance instanceId (firewall_group_id firewallGroupId)) 0
           (fun h => updateInstance_reply world h instanceId
                       (firewall_group_id firewallGroupId)) ;;;
     sleep 3000 ;;;
     verifyInstance <~ await (GetInstance instanceId) 0
                         (fun h => getInstance_reply world h instanceId) ;;
     let actualFirewallId := verifyInstance ≫= Vultr.firewall_group_id in
     if bool_decide (actualFirewallId = Some firewallGroupId) then ret true
     else
       emit (ConsoleError "FIREWALL VERIFICATION FAILED!") ;;;
       sleep 5000 ;;;
       ret false)
    (fun attachError =>
       emit (ConsoleError "Firewall attach attempt failed:") ;;;
       (if (retryCount <? maxRetries)%Z then sleep 10000 else ret tt) ;;;
       ret false).

(** [while (!firewallAttached && retryCount < maxRetries) { ... }]; the
    result is the final [firewallAttached]. [fuel] bounds the number of
    iterations; [Z.to_nat maxRetries] is always enough. *)
Fixpoint firewall_loop (fuel : nat) (instanceId firewallGroupId : string)
    (firewallAttached : bool) (retryCount : Z) : M bool :=
  if negb firewallAttached && (retryCount <? maxRetries)%Z then
    match fuel with
    | O => ret firewallAttached
    | S fuel' =>
        let retryCount := (retryCount + 1)%Z in
        attached <~ firewall_attempt instanceId firewallGroupId retryCount ;;
        firewall_loop fuel' instanceId firewallGroupId attached retryCount
    end
  else ret firewallAttached.

Definition SECURITY_FAILURE : string :=
  "SECURITY FAILURE: Firewall could not be attached after " ++ pretty maxRetries
  ++ " attempts. Instance was destroyed for security. Please try again.".

(** Lines 1093-1176 of [createInstanceFromSnapshot]: attach and verify the
    firewall, destroy the instance when that fails, then try DDOS
    protection. *)
Definition secure_instance (instance : Vultr.instance)
    (firewallGroupId : string) : M Vultr.instance :=
  let instanceId := Vultr.id instance in
  firewallAttached <~
    firewall_loop (Z.to_nat maxRetries) instanceId firewallGroupId false 0 ;;
  (if negb firewallAttached then
     emit (ConsoleError "CRITICAL: FIREWALL FAILED TO ATTACH") ;;;
     emit (ConsoleError "DESTROYING UNPROTECTED INSTANCE FOR SECURITY!") ;;;
     try_catch
       (await (DeleteInstance instanceId) 0
              (fun h => deleteInstance_reply world h instanceId))
       (fun destroyError =>
          emit (ConsoleError "Failed to destroy unprotected instance:")) ;;;
     throw_Error SECURITY_FAILURE
   else ret tt) ;;;
  try_catch
    (await (UpdateInstance instanceId ddos_protection) 0
           (fun h => updateInstance_reply world h instanceId ddos_protection) ;;;
     sleep 2000 ;;;
     ddosCheck <~ await (GetInstance instanceId) 0
                    (fun h => getInstance_reply world h instanceId) ;;
     ret tt)
    (fun ddosError => ret tt) ;;;
  ret instance.

(** The [try] block of [createInstanceFromSnapshot] up to the creation of
    the instance: validation, the [createInstance] call and the checks of
    its response. Returns [response.instance] and the firewall group. *)
Definition create_validated (snapshotId label region : string)
    : M (Vultr.instance * string) :=
  let firewallGroupId := VULTR_FIREWALL_GROUP_ID env in
  match or_null firewallGroupId with
  | None =>
      throw_Error "VULTR_FIREWALL_GROUP_ID is required but not set in environment variables. Firewall is mandatory."
  | Some firewallGroupId =>
      if negb (uuidRegex_test firewallGroupId) then
        throw_Error ("Invalid firewall_group_id format: " ++ dquote ++
                     firewallGroupId ++ dquote ++
                     ". Expected UUID format (e.g., " ++ dquote ++
                     "1c4c6504-5094-4de1-a0bc-f7e885580921" ++ dquote ++ ")")
      else if String.eqb snapshotId "" || negb (uuidRegex_test snapshotId) then
        throw_Error ("Invalid snapshot_id format: " ++ dquote ++ snapshotId ++
                     dquote ++ ". Expected UUID format.")
      else
        snapshots <~ getSnapshots ;;
        if negb (existsb (fun snap => String.eqb (Vultr.snapshot_ident snap) snapshotId)
                         snapshots) then
          throw_Error ("Snapshot " ++ snapshotId ++
                       " not found. Available snapshots: " ++
                       or_string
                         (Some (String.concat ", "
                            (List.map
                               (fun s => Vultr.snapshot_ident s ++ " (" ++
                                         or_string (Vultr.description s) "Unnamed"
                                         ++ ")")
                               snapshots)))
                         "none")
        else
          response <~
            try_catch
              (await (CreateInstance snapshotId label (region_or_default region)
                                     (or_string (VULTR_PLAN env) "vc2-1c-1gb")) 0
                     (createInstance_reply world))
              (fun apiError =>
                 emit (ConsoleError "Vultr API Error Details:") ;;;
                 emit (ConsoleError "- Error message:") ;;;
                 emit (ConsoleError "- Error status:") ;;;
                 emit (ConsoleError "- Error status text:") ;;;
                 emit (ConsoleError "- Error data:") ;;;
                 emit (ConsoleError "- Error headers:") ;;;
                 throw_Error (createInstance_error_message apiError snapshotId region)) ;;
          match response with
          | Vultr.EmptyResponse =>
              emit (ConsoleError "WARNING: Vultr API returned empty response for instance creation.") ;;;
              emit (ConsoleError "This usually indicates:") ;;;
              emit (ConsoleError "1. API key does not have Instances permission enabled") ;;;
              emit (ConsoleError "2. This server's IP address is not in the API key's allowed IP list") ;;;
              emit (ConsoleError "3. Snapshot ID is invalid or doesn't exist") ;;;
              emit (ConsoleError "4. Plan/region combination is invalid") ;;;
              emit (ConsoleError "Please check: Vultr Dashboard, API, Your API Key, Settings") ;;;
              try_catch
                (directResponse <~ await DirectCreate 0 (directCreate_reply world) ;;
                 let '(ok, status, directData) := directResponse in
                 if negb ok then
                   throw_Error ("Direct API call failed (" ++ pretty status ++
                                "): " ++ directData)
                 else ret tt)
                (fun directError =>
                   emit (ConsoleError "Direct HTTP call error:") ;;;
                   throw_Error ("Vultr API returned empty response. Direct API call also failed: "
                                ++ message directError)) ;;;
              throw_Error "Vultr API returned empty response. Check API key permissions and snapshot/plan validity."
          | Vultr.NoInstance json =>
              emit (ConsoleError "Invalid response structure.") ;;;
              throw_Error ("Invalid API response: expected response.instance but got: "
                           ++ json)
          | Vultr.CreatedInstance instance json =>
              if String.eqb (Vultr.id instance) "" then
                emit (ConsoleError "Instance created but missing ID.") ;;;
                throw_Error ("Instance created but missing ID in response: " ++ json)
              else ret (instance, firewallGroupId)
          end
  end.

(** [createInstanceFromSnapshot(snapshotId, label, region)] *)
Definition createInstanceFromSnapshot (snapshotId label region : string)
    : M Vultr.instance :=
  try_catch
    (created <~ create_validated snapshotId label region ;;
     secure_instance (fst created) (snd created))
    (fun error =>
       emit (ConsoleError "Error creating instance from snapshot:") ;;;
       if includes "VULTR_FIREWALL_GROUP_ID" (message error) ||
          includes "Invalid" (message error) ||
          includes "Vultr API" (message error) ||
          includes "Failed to attach" (message error) ||
          includes "Snapshot" (message error)
       then throw error
       else throw_Error ("Failed to create instance: " ++ message error)).

(* ------------------------------------------------------------------- *)
(** ** The status reconciliation poller *)
(* ------------------------------------------------------------------- *)

(** "Server is ready when: status=active, power_status=running, has real
    IP" (the condition of the first [if] of [pollStatus]). *)
Definition server_is_ready (instance : Vultr.instance) : bool :=
  bool_decide (Vultr.status instance = Some "active") &&
  bool_decide (Vultr.power_status instance = Some "running") &&
  string_truthy (Vultr.main_ip instance) &&
  negb (bool_decide (Vultr.main_ip instance = Some "0.0.0.0")) &&
  negb (bool_decide (Vultr.main_ip instance = Some "")).

(** The condition of the [else if]: being restored from a snapshot. *)
Definition server_is_restoring (instance : Vultr.instance) : bool :=
  bool_decide (Vultr.status instance = Some "active") &&
  bool_decide (Vultr.power_status instance = Some "stopped").

(** [pollStatus] of [startInstanceStatusPolling], started at [startTime]. *)
Definition startInstanceStatusPolling_pollStatus (instanceId : string)
    (sendDM : bool) (startTime : Z) : M tick :=
  let maxWaitTime := (30 * 60 * 1000)%Z in
  now <~ Date_now ;;
  let elapsedMinutes := ((now - startTime) / 60000)%Z in
  if (now - startTime >? maxWaitTime)%Z then
    sendAutoCleanupFollowUp StartupLimitExceeded ;;;
    ret Stop
  else
    try_catch
      (instance <~ getInstance instanceId ;;
       match instance with
       | None =>
           sendAutoCleanupFollowUp NotAvailableForManagement ;;;
           ret Stop
       | Some instance =>
           updateInstance instanceId (opt_value (Vultr.power_status instance))
             {[ "ip" := opt_value (Vultr.main_ip instance) ]} ;;;
           if server_is_ready instance then
             let ip := default "" (Vultr.main_ip instance) in
             (if sendDM then
                try_catch (sendServerCreationDM ip elapsedMinutes)
                          (fun error =>
                             emit (ConsoleError "Failed to send creation DM:"))
              else ret tt) ;;;
             initializeSelfDestructTimer instanceId ;;;
             sendAutoCleanupFollowUp (ServerReady ip elapsedMinutes) ;;;
             ret Stop
           else if server_is_restoring instance then
             sendAutoCleanupFollowUp (RestoringFromSnapshot elapsedMinutes) ;;;
             ret (Again 45000)
           else
             sendAutoCleanupFollowUp (CreationProgress elapsedMinutes) ;;;
             ret (Again 45000)
       end)
      (fun error =>
         emit (ConsoleError "Error polling instance:") ;;;
         now <~ Date_now ;;
         if (now - startTime <? maxWaitTime)%Z then ret (Again 45000)
         else
           sendAutoCleanupFollowUp UnableToMonitor ;;;
           ret Stop).

(* ------------------------------------------------------------------- *)
(** ** The destruction reconciliation poller *)
(* ------------------------------------------------------------------- *)

(** [pollStatus] of [startInstanceDestructionPolling]; [attempts] is the
    counter after [attempts++]. *)
Definition startInstanceDestructionPolling_pollStatus (instanceId : string)
    (startTime : Z) (attempts : Z) : M tick :=
  let maxWaitTime := (15 * 60 * 1000)%Z in
  now <~ Date_now ;;
  let elapsedMinutes := ((now - startTime) / 60000)%Z in
  if (now - startTime >? maxWaitTime)%Z then
    sendAutoCleanupFollowUp DestructionTimeout ;;;
    ret Stop
  else
    try_catch
      (instance <~ getInstance instanceId ;;
       match instance with
       | None =>
           updateInstance instanceId (VStr "destroyed")
             {[ "selfDestructTimer" := VNull ]} ;;;
           sendAutoCleanupFollowUp Destroyed ;;;
           ret Stop
       | Some instance =>
           try_catch
             (await (DeleteInstance instanceId) 0
                    (fun h => deleteInstance_reply world h instanceId))
             (fun deleteErr =>
                if negb (status_eq deleteErr 400)
                then emit (ConsoleLog "Delete error:")
                else ret tt) ;;;
           sendAutoCleanupFollowUp (Destroying attempts elapsedMinutes) ;;;
           ret (Again 10000)
       end)
      (fun error =>
         if status_eq error 404 || status_eq error 403 then
           updateInstance instanceId (VStr "destroyed")
             {[ "selfDestructTimer" := VNull ]} ;;;
           sendAutoCleanupFollowUp Destroyed ;;;
           ret Stop
         else
           emit (ConsoleError "Destruction error:") ;;;
           ret (Again 10000)).

(** The chain of [setTimeout(pollStatus, ms)] calls: the timer fires [ms]
    milliseconds later (or later still) and runs the next tick. The
    result is the number of ticks after which polling stopped, or [None]
    when [fuel] ticks were not enough. A tick that rejects ends the
    chain. *)
Fixpoint poll_chain (fuel : nat) (pollStatus : Z -> M tick) (attempts : Z)
    (delay : Z) : M (option Z) :=
  match fuel with
  | O => ret None
  | S fuel' =>
      await (SetTimeoutPollStatus delay) delay (fun _ => Resolved tt) ;;;
      t <~ pollStatus (attempts + 1)%Z ;;
      match t with
      | Stop => ret (Some (attempts + 1)%Z)
      | Again ms => poll_chain fuel' pollStatus (attempts + 1)%Z ms
      end
  end.

(** [startInstanceDestructionPolling(instanceId, ...)] run to the end of
    its timer chain. *)
Definition startInstanceDestructionPolling (fuel : nat) (instanceId : string)
    : M (option Z) :=
  startTime <~ Date_now ;;
  poll_chain fuel (startInstanceDestructionPolling_pollStatus instanceId startTime)
             0 2000.

(** [startInstanceStatusPolling(instanceId, ...)] run to the end of its
    timer chain. *)
Definition startInstanceStatusPolling (fuel : nat) (instanceId : string)
    (sendDM : bool) : M (option Z) :=
  startTime <~ Date_now ;;
  poll_chain fuel
    (fun _ => startInstanceStatusPolling_pollStatus instanceId sendDM startTime)
    0 10000.

(* ------------------------------------------------------------------- *)
(** ** The self-destruct timer engine *)
(* ------------------------------------------------------------------- *)

(** [sendSelfDestructWarning(instanceId, serverName, minutesRemaining,
    creatorId)]: never throws. *)
Definition sendSelfDestructWarning (instanceId : string)
    (minutesRemaining : Z) (creatorId : string) : M unit :=
  try_catch
    (user <~ await (UsersFetch creatorId) 0 (usersFetch_reply world) ;;
     if negb user then ret tt
     else
       l <~ get_instances ;;
       match instanceState.getInstance instanceId l ≫= timer_of with
       | None => ret tt                      (* "Timer was cleared" *)
       | Some _ =>
           await (UserSend (SelfDestructWarning minutesRemaining)) 0
                 (discord_reply world)
       end)
    (fun error => emit (ConsoleError "Failed to send warning DM:")).

(** The body of the [for ... of] loop of [checkTimers] for one element
    [trackedInstance] of the snapshot [activeInstances]. *)
Definition checkTimers_instance (trackedInstance : record) : M unit :=
  match timer_of trackedInstance with
  | None => ret tt                                          (* [continue] *)
  | Some timer =>
      let id := id_of trackedInstance in
      now <~ Date_now ;;
      let remainingMs := (expiresAt timer - now)%Z in
      let remainingMinutes := (remainingMs / 60000)%Z in
      if (remainingMs <=? 0)%Z then
        try_catch
          (vultrInstance <~ getInstance id ;;
           match vultrInstance with
           | None =>
               updateInstance id (VStr "destroyed")
                 {[ "selfDestructTimer" := VNull ]} ;;;
               ret tt
           | Some _ =>
               await (DeleteInstance id) 0
                     (fun h => deleteInstance_reply world h id) ;;;
               updateInstance id (VStr "destroyed")
                 {[ "selfDestructTimer" := VNull ]} ;;;
               try_catch
                 (match creator_id trackedInstance with
                  | None => throw (TypeError "id")
                  | Some creatorId =>
                      user <~ await (UsersFetch creatorId) 0
                                (usersFetch_reply world) ;;
                      if user then
                        await (UserSend SelfDestructed) 0 (discord_reply world)
                      else ret tt
                  end)
                 (fun dmError =>
                    emit (ConsoleError "Failed to send self-destruct DM:")) ;;;
               emit (SetTimeoutUpdatePanel 2000)
           end)
          (fun destroyError => emit (ConsoleError "Error destroying instance:"))
      else
        let sent := warningsSent timer in
        if (remainingMinutes <=? 10)%Z && (remainingMinutes >? 5)%Z &&
           negb (existsb (String.eqb "10min") sent) then
          match creator_id trackedInstance with
          | None => throw (TypeError "id")
          | Some creatorId =>
              sendSelfDestructWarning id 10 creatorId ;;;
              updateInstance id (prop trackedInstance "status")
                {[ "selfDestructTimer" :=
                     VTimer (Timer (expiresAt timer) (initialDuration timer)
                                   (extendedCount timer)
                                   (sent ++ ["10min"])%list) ]} ;;;
              ret tt
          end
        else if (remainingMinutes <=? 5)%Z &&
                negb (existsb (String.eqb "5min") sent) then
          match creator_id trackedInstance with
          | None => throw (TypeError "id")
          | Some creatorId =>
              sendSelfDestructWarning id 5 creatorId ;;;
              updateInstance id (prop trackedInstance "status")
                {[ "selfDestructTimer" :=
                     VTimer (Timer (expiresAt timer) (initialDuration timer)
                                   (extendedCount timer)
                                   (sent ++ ["5min"])%list) ]} ;;;
              ret tt
          end
        else ret tt
  end.

(** The [for ... of] loop over the snapshot of active instances. *)
Fixpoint checkTimers_loop (activeInstances : list record) : M unit :=
  match activeInstances with
  | [] => ret tt
  | trackedInstance :: rest =>
      checkTimers_instance trackedInstance ;;;
      checkTimers_loop rest
  end.

(** [checkTimers()]: one sweep. *)
Definition checkTimers : M unit :=
  try_catch
    (l <~ get_instances ;;
     checkTimers_loop (instanceState.getActiveInstances l))
    (fun error => emit (ConsoleError "Error in self-destruct polling:")).

(** The extension of a timer by one coin, as both coin handlers write it:
    [timer.expiresAt = newExpiresAt; timer.extendedCount =
    (timer.extendedCount || 0) + 1]. *)
Definition insert_coin (t : timer) : timer :=
  let newExpiresAt :=
    (expiresAt t + SELF_DESTRUCT_COIN_MINUTES env * 60 * 1000)%Z in
  Timer newExpiresAt (initialDuration t)
        ((if (extendedCount t =? 0)%Z then 0 else extendedCount t) + 1)%Z
        (warningsSent t).

(** The ['insert_coin_server'] case of the select-menu handler, after
    [deferUpdate]. *)
Definition insert_coin_server (coinInstanceId : string) : M unit :=
  l <~ get_instances ;;
  match instanceState.getInstance coinInstanceId l with
  | None => await (EditReply NoActiveTimer) 0 (discord_reply world)
  | Some trackedInstance =>
      match timer_of trackedInstance with
      | None => await (EditReply NoActiveTimer) 0 (discord_reply world)
      | Some timer =>
          try_catch
            (let timer := insert_coin timer in
             updateInstance coinInstanceId (prop trackedInstance "status")
               {[ "selfDestructTimer" := VTimer timer ]} ;;;
             await (EditReply (CoinInserted (expiresAt timer))) 0
                   (discord_reply world) ;;;
             emit (SetTimeoutUpdatePanel 1000))
            (fun error =>
               emit (ConsoleError "Error handling insert coin:") ;;;
               await (EditReply CoinError) 0 (discord_reply world))
      end
  end.

(** The [coin_] button handler. *)
Definition coin_button (coinInstanceId : string) : M unit :=
  l <~ get_instances ;;
  match instanceState.getInstance coinInstanceId l with
  | None => await (EditReply NoActiveTimer) 0 (discord_reply world)
  | Some trackedInstance =>
      match timer_of trackedInstance with
      | None => await (EditReply NoActiveTimer) 0 (discord_reply world)
      | Some timer =>
          try_catch
            (let timer := insert_coin timer in
             updateInstance coinInstanceId (prop trackedInstance "status")
               {[ "selfDestructTimer" := VTimer timer ]} ;;;
             await (EditReply (CoinInserted (expiresAt timer))) 0
                   (discord_reply world) ;;;
             emit (SetTimeoutUpdatePanel 1000))
            (fun error =>
               emit (ConsoleError "Error handling coin button:") ;;;
               try_catch (await (EditReply CoinError) 0 (discord_reply world))
                         (fun _ => ret tt))
      end
  end.

End Bot.

(* ===================================================================== *)
(** * The panel-update lock of [updatePanel] *)
(* ===================================================================== *)

(** [updatePanel] is an asynchronous function: between two [await]s its
    code runs without interruption, so the calls that are under way
    interleave only at the points below. The state keeps the two
    module-level flags and counts the activations of [updatePanel] at each
    suspension point; what a render writes to Discord plays no role. *)
Module Panel.

Record state := State {
  panelUpdateInProgress : bool;
  pendingPanelUpdate : bool;
  rendering : nat;   (* activations inside the [try] block *)
  waiting : nat;     (* activations with an interaction, in the 100 ms wait *)
  queued : nat;      (* [setTimeout(() => updatePanel(), 100)] not yet fired *)
  renders : nat      (* renders started so far *)
}.

Inductive event :=
| Call (hasInteraction : bool)  (* [updatePanel(interaction, ...)] is called *)
| Wake      (* the 100 ms wait of a blocked call with an interaction ends *)
| Finish    (* a render leaves its [try] block: the [finally] block runs *)
| Fire.     (* a queued timer fires and calls [updatePanel()] *)

(** [panelUpdateInProgress = true; pendingPanelUpdate = false;] and the
    render starts. *)
Definition acquire (s : state) : state :=
  State true false (S (rendering s)) (waiting s) (queued s) (S (renders s)).

(** A call of [updatePanel] up to its first suspension point. *)
Definition enter (hasInteraction : bool) (s : state) : state :=
  if panelUpdateInProgress s then
    if negb hasInteraction then
      (* [pendingPanelUpdate = true; return null;] *)
      State (panelUpdateInProgress s) true (rendering s) (waiting s)
            (queued s) (renders s)
    else
      (* [await new Promise(resolve => setTimeout(resolve, 100));] *)
      State (panelUpdateInProgress s) (pendingPanelUpdate s) (rendering s)
            (S (waiting s)) (queued s) (renders s)
  else acquire s.

(** After the wait: "Panel update already in progress, skipping", or the
    lock is taken. *)
Definition resume (s : state) : state :=
  let s' := State (panelUpdateInProgress s) (pendingPanelUpdate s)
                  (rendering s) (pred (waiting s)) (queued s) (renders s) in
  if panelUpdateInProgress s then s' else acquire s'.

(** The [finally] block. *)
Definition finally (s : state) : state :=
  State false (pendingPanelUpdate s) (pred (rendering s)) (waiting s)
        (if pendingPanelUpdate s then S (queued s) else queued s)
        (renders s).

(** One event; [None] when nothing is there for it to happen to. *)
Definition step (e : event) (s : state) : option state :=
  match e with
  | Call hasInteraction => Some (enter hasInteraction s)
  | Wake => if Nat.eqb (waiting s) 0 then None else Some (resume s)
  | Finish => if Nat.eqb (rendering s) 0 then None else Some (finally s)
  | Fire =>
      if Nat.eqb (queued s) 0 then None
      else Some (enter false
                   (State (panelUpdateInProgress s) (pendingPanelUpdate s)
                          (rendering s) (waiting s) (pred (queued s))
                          (renders s)))
  end.

Fixpoint run (es : list event) (s : state) : option state :=
  match es with
  | [] => Some s
  | e :: es' =>
      match step e s with
      | Some s' => run es' s'
      | None => None
      end
  end.

(** The process at start: both flags [false], nothing under way. *)
Definition initial : state := State false false 0 0 0 0.

(** Nothing is under way and nothing is scheduled. *)
Definition quiescent (s : state) : bool :=
  Nat.eqb (rendering s) 0 && Nat.eqb (waiting s) 0 && Nat.eqb (queued s) 0.

(** Let everything that is under way run to its end with no further
    call: renders finish, waits end, queued timers fire. [None] when
    [fuel] events were not enough. *)
Fixpoint settle (fuel : nat) (s : state) : option state :=
  if quiescent s then Some s
  else
    match fuel with
    | O => None
    | S fuel' =>
        let e := if negb (Nat.eqb (waiting s) 0) then Wake
                 else if negb (Nat.eqb (rendering s) 0) then Finish
                 else Fire in
        match step e s with
        | Some s' => settle fuel' s'
        | None => None
        end
    end.

(** A render is in progress and nothing else is under way. *)
Definition in_progress (renders : nat) : state := State true false 1 0 0 renders.

(** The number of renders that run after the render in progress, when
    the calls [burst] arrive during it. *)
Definition additional_renders (fuel : nat) (burst : list event) : option nat :=
  match run burst (in_progress 0) with
  | Some s => renders <$> settle fuel s
  | None => None
  end.

End Panel.

(* ===================================================================== *)
(** * Notions used in the statements *)
(* ===================================================================== *)

(** The state after an awaited call. *)
Definition after world (c : call) (extra : Z) (s : state) : state :=
  State (instances s) (currentServerInstanceId s) (history s ++ [c])%list
        (clock s + extra + Z.of_N (latency world (history s))).

(** The state after an emitted event. *)
Definition noted (c : call) (s : state) : state :=
  State (instances s) (currentServerInstanceId s) (history s ++ [c])%list (clock s).

(** The state in which the pipeline asks the provider to delete the
    unprotected instance, [s] being the state at the end of the firewall
    loop. *)
Definition at_destroy (s : state) : state :=
  noted (ConsoleError "DESTROYING UNPROTECTED INSTANCE FOR SECURITY!")
        (noted (ConsoleError "CRITICAL: FIREWALL FAILED TO ATTACH") s).

(** The registry after [updateInstance(id, 'destroyed', { selfDestructTimer:
    null })] at clock [now]. *)
Definition marked_destroyed (now : Z) (instanceId : string)
    (instances : list record) : list record :=
  snd (instanceState.updateInstance now instanceId (VStr "destroyed")
         {[ "selfDestructTimer" := VNull ]} instances).

(** The id [isCurrentServer] compares with when it is called in state [s]:
    the cached id, or, when nothing is cached yet, what
    [getCurrentServerInstanceId] detects at that moment (the answer of the
    metadata service, else [EXCLUDE_INSTANCE_ID]). *)
Definition detected_server world env (s : state) : option string :=
  if string_truthy (currentServerInstanceId s) then currentServerInstanceId s
  else
    match metadata_reply world (history s) with
    | Some text => Some (trim text)
    | None => or_null (EXCLUDE_INSTANCE_ID env)
    end.

(** The state after [isCurrentServer]: unchanged when an id is cached,
    else after one call of the metadata service, with its answer cached. *)
Definition detect world env (s : state) : state :=
  if string_truthy (currentServerInstanceId s) then s
  else State (instances s) (detected_server world env s)
             (history s ++ [MetadataInstanceId])%list
             (clock s + 0 + Z.of_N (latency world (history s))).


(** "Ready" as the specification words it. *)
Definition ready_conditions (i : Vultr.instance) : Prop :=
  Vultr.status i = Some "active" /\
  Vultr.power_status i = Some "running" /\
  exists ip, Vultr.main_ip i = Some ip /\ ip <> "" /\ ip <> "0.0.0.0".

(** The calls a tick of the status poller may make for [instanceId]. *)
Definition status_poll_call (instanceId : string) (c : call) : Prop :=
  match c with
  | GetInstance id => id = instanceId
  | MetadataInstanceId | FollowUp _ | UserSend _ | ConsoleError _ => True
  | _ => False
  end.

(** The calls [createInstanceFromSnapshot] makes before the instance
    exists. *)
Definition creation_call (c : call) : Prop :=
  match c with
  | ListSnapshots | CreateInstance _ _ _ _ | DirectCreate | ConsoleError _ => True
  | _ => False
  end.

(** Anything but a delete. *)
Definition not_a_delete (c : call) : Prop :=
  match c with
  | DeleteInstance _ => False
  | _ => True
  end.

(** The delete calls of a stretch of history. *)
Definition deletes (tr : list call) : list call :=
  List.filter (fun c => match c with DeleteInstance _ => true | _ => false end) tr.

(** The firewall attachment requests of a stretch of history. *)
Definition firewall_requests (tr : list call) : list call :=
  List.filter
    (fun c => match c with UpdateInstance _ (firewall_group_id _) => true | _ => false end)
    tr.

(** [calls_only P m]: running [m] appends calls to the history, each of
    them satisfying [P], and never turns the clock back. *)
Definition calls_only {A} (P : call -> Prop) (m : M A) : Prop :=
  forall s, exists tr,
    history (snd (m s)) = (history s ++ tr)%list /\
    Forall P tr /\
    (clock s <= clock (snd (m s)))%Z.

(** The registry after a coin: the instance is found with the extended
    timer. *)
Definition coin_inserted env (instanceId : string) (t : timer)
    (instances' : list record) : Prop :=
  exists r' t',
    instanceState.getInstance instanceId instances' = Some r' /\
    timer_of r' = Some t' /\
    expiresAt t' = (expiresAt t + SELF_DESTRUCT_COIN_MINUTES env * 60 * 1000)%Z /\
    extendedCount t' = (extendedCount t + 1)%Z /\
    warningsSent t' = warningsSent t /\
    ((0 < SELF_DESTRUCT_COIN_MINUTES env)%Z -> (expiresAt t < expiresAt t')%Z).

(** An instance without an active timer: not tracked, or tracked with no
    timer. *)
Definition no_active_timer (instanceId : string) (instances : list record) : Prop :=
  instanceState.getInstance instanceId instances ≫= timer_of = None.

(** The lock flag tells whether a render is under way. *)
Definition lock_consistent (s : Panel.state) : Prop :=
  Panel.rendering s = if Panel.panelUpdateInProgress s then 1%nat else 0%nat.

(** In the tick of the destruction poller that takes state [s] to state
    [s'], a delete is sent for [instanceId], and the provider refuses it
    with the HTTP status [status]. *)
Definition delete_refused world (instanceId : string) (status : Z)
    (s s' : state) : Prop :=
  exists tr0 tr e,
    history s' = ((history s ++ tr0) ++ DeleteInstance instanceId :: tr)%list /\
    deleteInstance_reply world (history s ++ tr0) instanceId = Rejected e /\
    response_status e = Some status.

(** The tick that takes [s] to [s'] begins with the lookup of
    [instanceId], and the provider answers it with an error of HTTP status
    [status]. *)
Definition lookup_refused world (instanceId : string) (status : Z)
    (s s' : state) : Prop :=
  exists tr e,
    history s' = (history s ++ GetInstance instanceId :: tr)%list /\
    getInstance_reply world (history s) instanceId = Rejected e /\
    response_status e = Some status.

(** The record of [instanceId] says that the instance is destroyed, and
    holds no timer. *)
Definition recorded_destroyed (instanceId : string) (instances : list record)
    : Prop :=
  exists r,
    instanceState.getInstance instanceId instances = Some r /\
    r !! "status" = Some (VStr "destroyed") /\
    timer_of r = None.

(* ===================================================================== *)
(** * Sample worlds *)
(* ===================================================================== *)

Module Sample.

Definition firewall : string := "1c4c6504-5094-4de1-a0bc-f7e885580921".

Definition snapshot : string := "0a1b2c3d-4e5f-4a6b-8c7d-9e0f1a2b3c4d".

(** A test server as the provider reports it. *)
Definition server (status power_status main_ip : string)
    (firewall_group_id : option string) : Vultr.instance :=
  Vultr.Instance "i-1" (Some "Test") (Some status) (Some power_status)
                 (Some main_ip) (Some snapshot) firewall_group_id [].

(** A provider that always answers with the instance [i], accepts every
    command at once, and a Discord that delivers everything; no metadata
    service. *)
Definition world_reporting (i : Vultr.instance) : World :=
  {| getInstance_reply := fun _ _ => Resolved (Some i);
     deleteInstance_reply := fun _ _ => Resolved tt;
     updateInstance_reply := fun _ _ _ => Resolved tt;
     createInstance_reply := fun _ => Resolved (Vultr.CreatedInstance i "{}");
     listInstances_reply := fun _ => Resolved [i];
     listSnapshots_reply := fun _ => Resolved [Vultr.Snapshot snapshot None 0];
     metadata_reply := fun _ => None;
     directCreate_reply := fun _ => Resolved (true, 200%Z, "{}");
     discord_reply := fun _ => Resolved tt;
     usersFetch_reply := fun _ => Resolved true;
     latency := fun _ => 0%N |}.

(** The provider of Scenario D: the instance exists until two deletes have
    been refused with 400, then it is gone (404). *)
Definition world_busy_then_gone : World :=
  {| getInstance_reply := fun h _ =>
       if (length (deletes h) <? 2)%nat
       then Resolved (Some (server "active" "running" "203.0.113.7" (Some firewall)))
       else Rejected (JsError "Not Found" (Some 404%Z) None);
     deleteInstance_reply := fun _ _ =>
       Rejected (JsError "Bad Request" (Some 400%Z) None);
     updateInstance_reply := fun _ _ _ => Resolved tt;
     createInstance_reply := fun _ => Resolved Vultr.EmptyResponse;
     listInstances_reply := fun _ => Resolved [];
     listSnapshots_reply := fun _ => Resolved [];
     metadata_reply := fun _ => None;
     directCreate_reply := fun _ => Resolved (true, 200%Z, "{}");
     discord_reply := fun _ => Resolved tt;
     usersFetch_reply := fun _ => Resolved true;
     latency := fun _ => 0%N |}.

(** The environment with only the mandatory firewall group set. *)
Definition env : Env :=
  {| EXCLUDE_INSTANCE_ID := None;
     EXCLUDE_SNAPSHOT_ID := None;
     VULTR_FIREWALL_GROUP_ID := Some firewall;
     VULTR_REGION := None;
     VULTR_PLAN := None;
     SELF_DESTRUCT_INITIAL_MINUTES := minutes_setting None;
     SELF_DESTRUCT_COIN_MINUTES := minutes_setting None |}.

(** The bot's own host is ["host"], and so is the excluded id. *)
Definition env_protecting_host : Env :=
  {| EXCLUDE_INSTANCE_ID := Some "host";
     EXCLUDE_SNAPSHOT_ID := None;
     VULTR_FIREWALL_GROUP_ID := Some firewall;
     VULTR_REGION := None;
     VULTR_PLAN := None;
     SELF_DESTRUCT_INITIAL_MINUTES := minutes_setting None;
     SELF_DESTRUCT_COIN_MINUTES := minutes_setting None |}.

(** The process right after start. *)
Definition start : state := State [] None [] 0.

(** The instance ["i-1"], tracked for user alice at time 0. *)
Definition tracked : record :=
  instanceState.instanceData 0 "i-1" "42" "alice" (VStr "running") ∅.

(** A timer that expires at time 1000, its 10-minute warning sent. *)
Definition sample_timer : timer := Timer 1000 10800000 0 ["10min"].

Definition tracked_with_timer : record :=
  <["selfDestructTimer" := VTimer sample_timer]> tracked.

(** At time [now], with ["i-1"] tracked and its timer set; the current
    server has been detected as ["host"]. *)
Definition running (now : Z) : state :=
  State [tracked_with_timer] (Some "host") [] now.

End Sample.

(* ===================================================================== *)
(** * Further operations of the bot *)
(* ===================================================================== *)

(** A record whose [id] is a string, as [trackInstance] builds it. *)
Definition has_string_id (r : record) : Prop :=
  exists s, r !! "id" = Some (VStr s).

(** The registry holds one record per instance: every record has a string
    [id], and no two records share one. *)
Definition distinct_ids (instances : list record) : Prop :=
  Forall has_string_id instances /\ NoDup (id_of <$> instances).

(** [s.padStart(targetLength, '0')] *)
Definition padStart (targetLength : nat) (s : string) : string :=
  String.concat "" (repeat "0" (targetLength - String.length s)) ++ s.

(** [formatRemainingTime(expiresAt)] at clock [now]. *)
Definition formatRemainingTime (expiresAt now : Z) : string :=
  let remainingMs := (expiresAt - now)%Z in
  if (remainingMs <=? 0)%Z then "0:00"
  else
    let totalSeconds := (remainingMs / 1000)%Z in
    let hours := (totalSeconds / 3600)%Z in
    let minutes := ((totalSeconds mod 3600) / 60)%Z in
    let seconds := (totalSeconds mod 60)%Z in
    if (hours >? 0)%Z then
      pretty hours ++ ":" ++ padStart 2 (pretty minutes) ++ ":" ++
      padStart 2 (pretty seconds)
    else pretty minutes ++ ":" ++ padStart 2 (pretty seconds).

(** The snapshots of a list come newest first. *)
Fixpoint newest_first (l : list Vultr.snapshot) : Prop :=
  match l with
  | [] => True
  | x :: l' =>
      Forall (fun y => (Vultr.date_created y <= Vultr.date_created x)%Z) l' /\
      newest_first l'
  end.

(** The error [new Error(msg)]. *)
Definition js_Error (msg : string) : jserror := JsError msg None None.

(** The state in which [createInstanceFromSnapshot] leaves through its
    outer [catch], [s] being the state in which the error was thrown. *)
Definition creation_failed (s : state) : state :=
  noted (ConsoleError "Error creating instance from snapshot:") s.

(** The six [console.error] lines for a rejected [createInstance] call. *)
Definition api_error_details : list call :=
  [ConsoleError "Vultr API Error Details:"; ConsoleError "- Error message:";
   ConsoleError "- Error status:"; ConsoleError "- Error status text:";
   ConsoleError "- Error data:"; ConsoleError "- Error headers:"].

(** Whether a timer chain has come to its end: it has, unless the fuel ran
    out first. *)
Definition polling_stopped (o : outcome (option Z)) : bool :=
  match o with
  | Resolved None => false
  | _ => true
  end.

(** The calls by which the sweep warns a creator. *)
Definition warning_call (c : call) : Prop :=
  match c with
  | UsersFetch _ | UserSend (SelfDestructWarning _) | ConsoleError _ => True
  | _ => False
  end.

(** The registry after the sweep has recorded the warning [w] for the
    tracked instance [r] with timer [t], at clock [now]. *)
Definition warning_recorded (now : Z) (r : record) (t : timer) (w : string)
    (instances : list record) : list record :=
  snd (instanceState.updateInstance now (id_of r) (prop r "status")
         {[ "selfDestructTimer" :=
              VTimer (Timer (expiresAt t) (initialDuration t) (extendedCount t)
                            (warningsSent t ++ [w])) ]}
         instances).

(** The registry after a coin for an instance whose timer was [t]: the
    extended timer still lists the warnings already sent, and a sweep that
    finds the instance inside a warning window whose warning is on that list
    does nothing. *)
Definition warnings_stay_sent world env (instanceId : string) (t : timer)
    (instances' : list record) : Prop :=
  exists r1 t1,
    instanceState.getInstance instanceId instances' = Some r1 /\
    timer_of r1 = Some t1 /\
    expiresAt t1 = (expiresAt t + SELF_DESTRUCT_COIN_MINUTES env * 60 * 1000)%Z /\
    warningsSent t1 = warningsSent t /\
    forall s2,
      (clock s2 < expiresAt t1)%Z ->
      ((5 < (expiresAt t1 - clock s2) / 60000 <= 10)%Z ->
       In "10min" (warningsSent t) ->
       checkTimers_instance world env r1 s2 = (Resolved tt, s2)) /\
      (((expiresAt t1 - clock s2) / 60000 <= 5)%Z ->
       In "5min" (warningsSent t) ->
       checkTimers_instance world env r1 s2 = (Resolved tt, s2)).

Section Operations.

Context (world : World) (env : Env).

(** The [try] block inside the [while] loop of [waitForInstanceStatus]:
    [Some b] when the function returns [b] from it, [None] when the loop
    goes on to its 15-second wait. *)
Definition waitForInstanceStatus_check (instanceId targetPowerStatus : string)
    : M (option bool) :=
  try_catch
    (instance <~ getInstance world env instanceId ;;
     match instance with
     | None => ret (Some false)         (* "Can't wait for excluded instance" *)
     | Some instance =>
         if bool_decide (Vultr.power_status instance = Some targetPowerStatus)
         then ret (Some true)
         else ret None
     end)
    (fun error =>
       emit (ConsoleError "Error checking instance status for:") ;;;
       ret None).

(** [while (Date.now() - startTime < timeout) { ... }] followed by
    [return false]; the result is [None] when [fuel] turns were not
    enough. *)
Fixpoint waitForInstanceStatus_loop (fuel : nat)
    (instanceId targetPowerStatus : string) (timeout startTime : Z)
    : M (option bool) :=
  now <~ Date_now ;;
  if (now - startTime <? timeout)%Z then
    match fuel with
    | O => ret None
    | S fuel' =>
        returned <~ waitForInstanceStatus_check instanceId targetPowerStatus ;;
        match returned with
        | Some b => ret (Some b)
        | None =>
            sleep world 15000 ;;;
            waitForInstanceStatus_loop fuel' instanceId targetPowerStatus timeout
                                       startTime
        end
    end
  else ret (Some false).

(** [waitForInstanceStatus(instanceId, targetPowerStatus, timeout)] *)
Definition waitForInstanceStatus (fuel : nat)
    (instanceId targetPowerStatus : string) (timeout : Z) : M (option bool) :=
  startTime <~ Date_now ;;
  waitForInstanceStatus_loop fuel instanceId targetPowerStatus timeout startTime.

End Operations.

(** The provider has reported [instanceId] with power status [target] in
    answer to one of the lookups of the stretch of history [tr] that
    follows [h]. *)
Definition reported_power_status world (instanceId target : string)
    (h tr : list call) : Prop :=
  exists tr1 tr2 i,
    tr = (tr1 ++ GetInstance instanceId :: tr2)%list /\
    getInstance_reply world (h ++ tr1) instanceId = Resolved (Some i) /\
    Vultr.power_status i = Some target.

(** [array.forEach(f)] for a callback that does not touch the array. *)
Fixpoint forEach {A} (f : A -> M unit) (l : list A) : M unit :=
  match l with
  | [] => ret tt
  | x :: l' => f x ;;; forEach f l'
  end.

Section Commands.

Context (world : World) (env : Env).

(** The callback of [vultrInstances.forEach] in [listCommand.execute]:
    update the instance when it is among the active ones, track it as
    ['unknown'] otherwise. *)
Definition listCommand_syncInstance (activeInstances : list record)
    (vultrInstance : Vultr.instance) : M unit :=
  match find (has_id (Vultr.id vultrInstance)) activeInstances with
  | Some trackedInstance =>
      updateInstance (Vultr.id vultrInstance)
        (opt_value (Vultr.power_status vultrInstance))
        {[ "ip" := opt_value (Vultr.main_ip vultrInstance) ]} ;;;
      ret tt
  | None =>
      trackInstance (Vultr.id vultrInstance) "unknown" "Unknown"
        (opt_value (Vultr.power_status vultrInstance))
        (<["ip" := opt_value (Vultr.main_ip vultrInstance)]>
           {[ "name" := VStr (or_string (Vultr.label vultrInstance)
                                        "Unknown Server") ]}) ;;;
      ret tt
  end.

(** The callback of [activeInstances.forEach]: "Mark tracked instances
    that don't exist in Vultr as terminated". [trackedInstance.id] is read
    with [id_of]: it is a string in every record that [trackInstance]
    builds. *)
Definition listCommand_markMissing (vultrInstances : list Vultr.instance)
    (trackedInstance : record) : M unit :=
  match find (fun i => String.eqb (Vultr.id i) (id_of trackedInstance))
             vultrInstances with
  | Some vultrInstance => ret tt
  | None =>
      updateInstance (id_of trackedInstance) (VStr "terminated") ∅ ;;;
      ret tt
  end.

(** The inner [try] of [listCommand.execute]: the registry is brought in
    line with the provider's list; a failure is logged and the command
    goes on with the local data. *)
Definition listCommand_sync : M unit :=
  try_catch
    (vultrInstances <~ listInstances world env ;;
     l <~ get_instances ;;
     let activeInstances := instanceState.getActiveInstances l in
     forEach (listCommand_syncInstance activeInstances) vultrInstances ;;;
     forEach (listCommand_markMissing vultrInstances) activeInstances)
    (fun error => emit (ConsoleError "Error syncing with Vultr API:")).

End Commands.

(** The registry after the first loop of the sync has handled
    [vultrInstance] at clock [now]. *)
Definition synced (now : Z) (activeInstances : list record)
    (vultrInstance : Vultr.instance) (instances : list record) : list record :=
  match find (has_id (Vultr.id vultrInstance)) activeInstances with
  | Some _ =>
      snd (instanceState.updateInstance now (Vultr.id vultrInstance)
             (opt_value (Vultr.power_status vultrInstance))
             {[ "ip" := opt_value (Vultr.main_ip vultrInstance) ]} instances)
  | None =>
      snd (instanceState.trackInstance now (Vultr.id vultrInstance) "unknown"
             "Unknown" (opt_value (Vultr.power_status vultrInstance))
             (<["ip" := opt_value (Vultr.main_ip vultrInstance)]>
                {[ "name" := VStr (or_string (Vultr.label vultrInstance)
                                             "Unknown Server") ]})
             instances)
  end.

(** The registry after the second loop has handled [trackedInstance]. *)
Definition marked_missing (now : Z) (vultrInstances : list Vultr.instance)
    (trackedInstance : record) (instances : list record) : list record :=
  match find (fun i => String.eqb (Vultr.id i) (id_of trackedInstance))
             vultrInstances with
  | Some _ => instances
  | None =>
      snd (instanceState.updateInstance now (id_of trackedInstance)
             (VStr "terminated") ∅ instances)
  end.

(** The registry after a sync with the provider's list [vultrInstances]. *)
Definition reconciled (now : Z) (vultrInstances : list Vultr.instance)
    (instances : list record) : list record :=
  let activeInstances := instanceState.getActiveInstances instances in
  fold_left (fun l r => marked_missing now vultrInstances r l) activeInstances
    (fold_left (fun l vi => synced now activeInstances vi l) vultrInstances
               instances).



(** The instance is tracked for the creator ['unknown']. *)
Definition tracked_as_unknown (instanceId : string) (instances : list record)
    : Prop :=
  exists r, instanceState.getInstance instanceId instances = Some r /\
            prop r "creator" = VCreator "unknown" "Unknown".

(** The record is not among the active ones. *)
Definition inactive (r : record) : Prop :=
  status_is "terminated" r = true \/ status_is "destroyed" r = true.

(** An upper bound on the events still to come once no new call
    arrives: every wait ends, the render finishes, every queued timer
    fires and the render it starts finishes. *)
Definition panel_work (s : Panel.state) : nat :=
  2 * Panel.waiting s + 2 * Panel.queued s +
  Panel.rendering s * (if Panel.pendingPanelUpdate s then 3 else 1).

(** An upper bound on the renders still to start. *)
Definition panel_renders_due (s : Panel.state) : nat :=
  Panel.waiting s + Panel.queued s +
  (if Panel.pendingPanelUpdate s then Panel.rendering s else 0).

(** The object [{ running, stopped, total }] of [getServerStats]. *)
Record stats := Stats {
  running : nat;
  stopped : nat;
  total : nat
}.

(** [i.power_status === s] *)
Definition power_status_is (s : string) (i : Vultr.instance) : bool :=
  bool_decide (Vultr.power_status i = Some s).

Section Panel_helpers.

Context (world : World) (env : Env).

(** [getServerStats()] *)
Definition getServerStats : M stats :=
  try_catch
    (instances <~ listInstances world env ;;
     let running := length (List.filter (power_status_is "running") instances) in
     let stopped := length (List.filter (power_status_is "stopped") instances) in
     let total := length instances in
     ret (Stats running stopped total))
    (fun error =>
       emit (ConsoleError "Error getting server stats:") ;;;
       ret (Stats 0 0 0)).

(** [getAllInstancesForCost()] *)
Definition getAllInstancesForCost : M (list Vultr.instance) :=
  try_catch
    (instances <~ await world ListInstances 0 (listInstances_reply world) ;;
     listInstances_filterCurrent world env instances)
    (fun error =>
       emit (ConsoleError "Error getting all instances for cost calculation:") ;;;
       ret []).

End Panel_helpers.

(* ===================================================================== *)
(** * More sample worlds *)
(* ===================================================================== *)

Module Scenario.

(** A provider whose API key is refused when an instance is created; it
    has the one snapshot [Sample.snapshot]. *)
Definition world_unauthorized : World :=
  {| getInstance_reply := fun _ _ => Resolved None;
     deleteInstance_reply := fun _ _ => Resolved tt;
     updateInstance_reply := fun _ _ _ => Resolved tt;
     createInstance_reply := fun _ =>
       Rejected (JsError "Unauthorized" (Some 401%Z) None);
     listInstances_reply := fun _ => Resolved [];
     listSnapshots_reply := fun _ =>
       Resolved [Vultr.Snapshot Sample.snapshot None 0];
     metadata_reply := fun _ => None;
     directCreate_reply := fun _ => Resolved (true, 200%Z, "{}");
     discord_reply := fun _ => Resolved tt;
     usersFetch_reply := fun _ => Resolved true;
     latency := fun _ => 0%N |}.





(** The provider that reports the test server ["i-1"], running. *)
Definition world_serving : World :=
  Sample.world_reporting (Sample.server "active" "running" "203.0.113.7" None).

(** ["i-1"] with ten minutes left on its timer at time 0, no warning sent
    yet. *)
Definition tracked_ending : record :=
  <["selfDestructTimer" := VTimer (Timer 600000 10800000 0 [])]> Sample.tracked.

Definition ending : state := State [tracked_ending] (Some "host") [] 0.


(** The record of ["i-1"] after its owner has destroyed it. *)
Definition destroyed : record :=
  instanceState.instanceData 0 "i-1" "42" "alice" (VStr "destroyed") ∅.

(** After two refused deletes of ["i-1"], one minute after start. *)
Definition after_two_deletes : state :=
  State [Sample.tracked] (Some "host")
        [DeleteInstance "i-1"; DeleteInstance "i-1"] 60000.

End Scenario.

(* ===================================================================== *)
(** * Facts about lists and the registry *)
(* ===================================================================== *)

Lemma findIndex_Some {A} (p : A -> bool) l idx :
  findIndex p l = Some idx ->
  exists x, l !! idx = Some x /\ p x = true /\ find p l = Some x.
Proof.
  revert idx. induction l as [|a l IH]; intros idx; simpl; [discriminate|].
  destruct (p a) eqn:Hp.
  - intros [= <-]. exists a. auto.
  - destruct (findIndex p l) as [j|] eqn:Hj; simpl; [|discriminate].
    intros [= <-]. destruct (IH j eq_refl) as (x & Hx & Hpx & Hf).
    exists x. auto.
Qed.

Lemma findIndex_None {A} (p : A -> bool) l :
  findIndex p l = None -> find p l = None.
Proof.
  induction l as [|a l IH]; simpl; [done|].
  destruct (p a); [discriminate|].
  destruct (findIndex p l); simpl; [discriminate|auto].
Qed.

Lemma find_Some_findIndex {A} (p : A -> bool) l x :
  find p l = Some x -> exists idx, findIndex p l = Some idx /\ l !! idx = Some x.
Proof.
  induction l as [|a l IH]; simpl; [discriminate|].
  destruct (p a) eqn:Hp.
  - intros [= <-]. exists 0%nat. auto.
  - intros Hf. destruct (IH Hf) as (j & -> & Hj). exists (S j). auto.
Qed.

Lemma find_insert_first {A} (p : A -> bool) l idx y :
  findIndex p l = Some idx -> p y = true ->
  find p (<[idx := y]> l) = Some y.
Proof.
  revert idx. induction l as [|a l IH]; intros idx; simpl; [discriminate|].
  destruct (p a) eqn:Hp.
  - intros [= <-] Hy. simpl. by rewrite Hy.
  - destruct (findIndex p l) as [j|] eqn:Hj; simpl; [|discriminate].
    intros [= <-] Hy. simpl. rewrite Hp. by apply IH.
Qed.

Lemma find_has_id instanceId l r :
  find (has_id instanceId) l = Some r -> has_id instanceId r = true.
Proof.
  induction l as [|a l IH]; simpl; [discriminate|].
  destruct (has_id instanceId a) eqn:Ha; [by intros [= <-]|auto].
Qed.

Lemma instanceData_lookup_other now instanceId userId username status metadata k :
  k ∉ instanceState.tracked_keys ->
  instanceState.instanceData now instanceId userId username status metadata !! k
  = None.
Proof.
  intros Hk. unfold instanceState.instanceData.
  repeat (rewrite lookup_insert_ne;
          [|intros <-; apply Hk; unfold instanceState.tracked_keys; set_solver]).
  apply lookup_empty.
Qed.

Lemma instanceData_lookup_tracked now instanceId userId username status metadata k :
  k ∈ instanceState.tracked_keys ->
  is_Some (instanceState.instanceData now instanceId userId username status
                                      metadata !! k).
Proof.
  unfold instanceState.tracked_keys, instanceState.instanceData.
  rewrite !elem_of_cons. rewrite elem_of_nil. intros Hk.
  destruct Hk as [->|[->|[->|[->|[->|[->|[->|[]]]]]]]];
    repeat (first [rewrite lookup_insert_eq; eauto; fail
                  | rewrite lookup_insert_ne; [|done]]).
Qed.

(* ===================================================================== *)
(** * The registry: merge-update *)
(* ===================================================================== *)

(** C4, as stated, does not hold. An instance tracked with the address
    203.0.113.7 is tracked again with empty metadata: [metadata] has no
    [ip], yet the [ip] of the stored record changes to [null]. *)
Lemma trackInstance_resets_ip :
  exists (old new : record),
    old = instanceState.instanceData 0 "i-1" "42" "alice" (VStr "running")
            {[ "ip" := VStr "203.0.113.7" ]} /\
    findIndex (has_id "i-1") [old] = Some 0%nat /\
    snd (instanceState.trackInstance 1 "i-1" "42" "alice" (VStr "running") ∅ [old])
      !! 0%nat = Some new /\
    (∅ : record) !! "ip" = None /\
    old !! "ip" = Some (VStr "203.0.113.7") /\
    new !! "ip" = Some VNull.
Proof.
  eexists _, _. split; [reflexivity|].
  split; [reflexivity|].
  split; [reflexivity|].
  split; [apply lookup_empty|].
  split; vm_compute; reflexivity.
Qed.

(** C4 (amended). On an id that is already tracked, [trackInstance]
    replaces the record in place by the spread of the old record and
    [instanceData]: the seven properties it always writes are overwritten
    ([status] falls back to "creating", [ip] to [null], [name] to
    "<username>'s Server", [createdAt] and [lastUpdated] are the current
    time), every other property of the old record (such as
    [selfDestructTimer]) is kept, and no other record changes. *)
Theorem trackInstance_merge_update now instanceId userId username status
    (metadata : record) (instances : list record) idx (old : record) :
  findIndex (has_id instanceId) instances = Some idx ->
  instances !! idx = Some old ->
  exists new,
    instanceState.trackInstance now instanceId userId username status metadata
                                instances
    = (instanceState.instanceData now instanceId userId username status metadata,
       <[idx := new]> instances) /\
    (forall k, k ∉ instanceState.tracked_keys -> new !! k = old !! k) /\
    new !! "id" = Some (VStr instanceId) /\
    new !! "creator" = Some (VCreator userId username) /\
    new !! "createdAt" = Some (VDate now) /\
    new !! "status" = Some (js_or status (VStr "creating")) /\
    new !! "ip" = Some (js_or (prop metadata "ip") VNull) /\
    new !! "name"
    = Some (js_or (prop metadata "name") (VStr (username ++ "'s Server"))) /\
    new !! "lastUpdated" = Some (VDate now) /\
    (forall j, j <> idx ->
       (<[idx := new]> instances : list record) !! j = instances !! j).
Proof.
  intros Hidx Hold.
  exists (spread old (instanceState.instanceData now instanceId userId username
                        status metadata)).
  unfold instanceState.trackInstance. rewrite Hidx, Hold. simpl.
  split; [reflexivity|].
  split.
  { intros k Hk. unfold spread. rewrite lookup_union.
    rewrite instanceData_lookup_other by done.
    by destruct (old !! k). }
  unfold spread, instanceState.instanceData.
  repeat split;
    try (rewrite lookup_union;
         repeat (first [rewrite lookup_insert_eq | rewrite lookup_insert_ne by done]);
         simpl; by destruct (old !! _)).
  intros j Hj. by apply list_lookup_insert_ne.
Qed.

Lemma trackInstance_merge_update_witness :
  exists new,
    instanceState.trackInstance 1 "i-1" "42" "alice" (VStr "running") ∅
      [instanceState.instanceData 0 "i-1" "42" "alice" (VStr "running") ∅]
    = (instanceState.instanceData 1 "i-1" "42" "alice" (VStr "running") ∅,
       [new]) /\
    new !! "ip" = Some VNull.
Proof.
  destruct (trackInstance_merge_update 1 "i-1" "42" "alice" (VStr "running") ∅
              [instanceState.instanceData 0 "i-1" "42" "alice" (VStr "running") ∅]
              0%nat
              (instanceState.instanceData 0 "i-1" "42" "alice" (VStr "running") ∅)
              eq_refl eq_refl)
    as (new & Heq & _ & _ & _ & _ & _ & Hip & _).
  exists new. split; [exact Heq | exact Hip].
Defined.

(* ===================================================================== *)
(** * Facts about [updateInstance] *)
(* ===================================================================== *)

Lemma timer_of_truthy (r : record) t :
  timer_of r = Some t -> truthy (prop r "selfDestructTimer") = true.
Proof.
  unfold timer_of. destruct (prop r "selfDestructTimer"); try discriminate.
  reflexivity.
Qed.

Lemma timer_of_prop (r : record) t :
  timer_of r = Some t -> prop r "selfDestructTimer" = VTimer t.
Proof.
  unfold timer_of. destruct (prop r "selfDestructTimer"); try discriminate.
  by intros [= ->].
Qed.

Lemma lookup_spread (a b : record) k :
  spread a b !! k = match b !! k with Some v => Some v | None => a !! k end.
Proof.
  unfold spread. rewrite lookup_union.
  destruct (b !! k), (a !! k); reflexivity.
Qed.

Lemma has_id_update instanceId (old metadata : record) status now :
  metadata !! "id" = None ->
  has_id instanceId old = true ->
  has_id instanceId
    (spread (<["lastUpdated" := VDate now]> (<["status" := status]> old)) metadata)
  = true.
Proof.
  intros Hm Hid. unfold has_id, spread in *.
  rewrite lookup_union, Hm.
  rewrite !lookup_insert_ne by done.
  destruct (old !! "id") as [v|]; [|discriminate]. exact Hid.
Qed.

(** After [updateInstance] with a [selfDestructTimer] in [metadata], the
    registry finds a record with exactly that value, whose other
    properties, except [status] and [lastUpdated], are those of the old
    record. *)
Lemma updateInstance_timer now instanceId status v (instances : list record) old :
  instanceState.getInstance instanceId instances = Some old ->
  exists new instances',
    instanceState.updateInstance now instanceId status
      {[ "selfDestructTimer" := v ]} instances = (Some new, instances') /\
    instanceState.getInstance instanceId instances' = Some new /\
    length instances' = length instances /\
    new !! "selfDestructTimer" = Some v /\
    new !! "status" = Some status /\
    new !! "lastUpdated" = Some (VDate now) /\
    (forall k, k <> "selfDestructTimer" -> k <> "status" -> k <> "lastUpdated" ->
               new !! k = old !! k).
Proof.
  intros Hget. unfold instanceState.getInstance in *.
  destruct (find_Some_findIndex _ _ _ Hget) as (idx & Hidx & Hlk).
  unfold instanceState.updateInstance. rewrite Hidx, Hlk. simpl.
  eexists _, _. split; [reflexivity|].
  split.
  { apply find_insert_first; [done|]. apply has_id_update.
    - by rewrite lookup_singleton_ne.
    - eapply find_has_id; eauto. }
  split; [apply length_insert|].
  split; [by rewrite lookup_spread, lookup_singleton_eq|].
  split; [by rewrite lookup_spread, lookup_singleton_ne, lookup_insert_ne, lookup_insert_eq|].
  split; [by rewrite lookup_spread, lookup_singleton_ne, lookup_insert_eq|].
  intros k H1 H2 H3.
  rewrite lookup_spread, lookup_singleton_ne by done.
  by rewrite !lookup_insert_ne by done.
Qed.

Lemma updateInstance_untracked now instanceId status metadata
    (instances : list record) :
  instanceState.getInstance instanceId instances = None ->
  instanceState.updateInstance now instanceId status metadata instances
  = (None, instances).
Proof.
  unfold instanceState.getInstance, instanceState.updateInstance.
  destruct (findIndex (has_id instanceId) instances) as [idx|] eqn:Hidx; [|done].
  destruct (findIndex_Some _ _ _ Hidx) as (x & _ & _ & Hf). congruence.
Qed.

(* ===================================================================== *)
(** * Self-destruct timers: initialization *)
(* ===================================================================== *)

(** C7. When the tracked instance already has a timer, a call of
    [initializeSelfDestructTimer] changes nothing at all: the registry,
    and with it [expiresAt], [extendedCount] and [warningsSent] of the
    timer, is the one before the call. *)
Theorem initializeSelfDestructTimer_existing_timer env instanceId s r t :
  instanceState.getInstance instanceId (instances s) = Some r ->
  timer_of r = Some t ->
  initializeSelfDestructTimer env instanceId s = (Resolved tt, s).
Proof.
  intros Hget Ht. unfold initializeSelfDestructTimer, bind, get_instances.
  rewrite Hget. rewrite (timer_of_truthy _ _ Ht). reflexivity.
Qed.

(** The first call creates the timer from the clock. *)
Lemma initializeSelfDestructTimer_creates env instanceId s r :
  instanceState.getInstance instanceId (instances s) = Some r ->
  truthy (prop r "selfDestructTimer") = false ->
  exists s' r',
    initializeSelfDestructTimer env instanceId s = (Resolved tt, s') /\
    instanceState.getInstance instanceId (instances s') = Some r' /\
    timer_of r' =
      Some (Timer (clock s + SELF_DESTRUCT_INITIAL_MINUTES env * 60 * 1000)
                  (SELF_DESTRUCT_INITIAL_MINUTES env * 60 * 1000) 0 []) /\
    history s' = history s /\ clock s' = clock s /\
    currentServerInstanceId s' = currentServerInstanceId s.
Proof.
  intros Hget Hf.
  unfold initializeSelfDestructTimer, bind, get_instances, Date_now, updateInstance, ret.
  rewrite Hget, Hf.
  destruct (updateInstance_timer (clock s) instanceId (prop r "status")
              (VTimer (Timer (clock s + SELF_DESTRUCT_INITIAL_MINUTES env * 60 * 1000)
                             (SELF_DESTRUCT_INITIAL_MINUTES env * 60 * 1000) 0 []))
              (instances s) r Hget)
    as (new & l' & Hupd & Hget' & _ & Htimer & _).
  rewrite Hupd. simpl. eexists _, new. split; [reflexivity|]. simpl.
  split; [exact Hget'|].
  split; [|done].
  unfold timer_of, prop. by rewrite Htimer.
Qed.

Lemma initializeSelfDestructTimer_truthy env instanceId s r :
  instanceState.getInstance instanceId (instances s) = Some r ->
  truthy (prop r "selfDestructTimer") = true ->
  initializeSelfDestructTimer env instanceId s = (Resolved tt, s).
Proof.
  intros Hget Ht. unfold initializeSelfDestructTimer, bind, get_instances.
  by rewrite Hget, Ht.
Qed.

Lemma initializeSelfDestructTimer_untracked env instanceId s :
  instanceState.getInstance instanceId (instances s) = None ->
  initializeSelfDestructTimer env instanceId s = (Resolved tt, s).
Proof.
  intros Hget. unfold initializeSelfDestructTimer, bind, get_instances.
  by rewrite Hget.
Qed.

(** A timer is set at most once: whatever the first call did, a second
    call at any later clock reading leaves the state as it finds it. *)
Lemma initializeSelfDestructTimer_idempotent env instanceId s later :
  let s1 := snd (initializeSelfDestructTimer env instanceId s) in
  let s1' := State (instances s1) (currentServerInstanceId s1) (history s1) later in
  initializeSelfDestructTimer env instanceId s1' = (Resolved tt, s1').
Proof.
  intros s1 s1'. subst s1' s1.
  destruct (instanceState.getInstance instanceId (instances s)) as [r|] eqn:Hget.
  - destruct (truthy (prop r "selfDestructTimer")) eqn:Ht.
    + rewrite (initializeSelfDestructTimer_truthy env instanceId s r Hget Ht).
      simpl. by eapply initializeSelfDestructTimer_truthy.
    + destruct (initializeSelfDestructTimer_creates env instanceId s r Hget Ht)
        as (s' & r' & -> & Hget' & Htimer & _).
      simpl. eapply initializeSelfDestructTimer_truthy; simpl; eauto.
      by eapply timer_of_truthy.
  - rewrite (initializeSelfDestructTimer_untracked env instanceId s Hget).
    simpl. by apply initializeSelfDestructTimer_untracked.
Qed.

(* ===================================================================== *)
(** * Self-destruct timers: extension *)
(* ===================================================================== *)

Lemma insert_coin_fields env t :
  expiresAt (insert_coin env t)
  = (expiresAt t + SELF_DESTRUCT_COIN_MINUTES env * 60 * 1000)%Z /\
  extendedCount (insert_coin env t) = (extendedCount t + 1)%Z /\
  warningsSent (insert_coin env t) = warningsSent t /\
  initialDuration (insert_coin env t) = initialDuration t.
Proof.
  unfold insert_coin. simpl. repeat split.
  destruct (extendedCount t =? 0)%Z eqn:E; [|reflexivity].
  apply Z.eqb_eq in E. by rewrite E.
Qed.

(** What both coin handlers do to the registry when the instance has a
    timer, whatever Discord answers. *)
Lemma insert_coin_server_registry world env coinInstanceId s r t :
  instanceState.getInstance coinInstanceId (instances s) = Some r ->
  timer_of r = Some t ->
  instances (snd (insert_coin_server world env coinInstanceId s))
  = snd (instanceState.updateInstance (clock s) coinInstanceId (prop r "status")
           {[ "selfDestructTimer" := VTimer (insert_coin env t) ]} (instances s)).
Proof.
  intros Hget Ht.
  unfold insert_coin_server, bind, get_instances, try_catch, updateInstance,
    await, emit, ret.
  rewrite Hget, Ht. simpl.
  destruct (instanceState.updateInstance _ _ _ _ _) as [o l'] eqn:Hupd. simpl.
  repeat (simpl; try reflexivity;
          match goal with
          | |- context [match discord_reply ?w ?h with _ => _ end] =>
              destruct (discord_reply w h)
          end).
Qed.

Lemma coin_button_registry world env coinInstanceId s r t :
  instanceState.getInstance coinInstanceId (instances s) = Some r ->
  timer_of r = Some t ->
  instances (snd (coin_button world env coinInstanceId s))
  = snd (instanceState.updateInstance (clock s) coinInstanceId (prop r "status")
           {[ "selfDestructTimer" := VTimer (insert_coin env t) ]} (instances s)).
Proof.
  intros Hget Ht.
  unfold coin_button, bind, get_instances, try_catch, updateInstance,
    await, emit, ret.
  rewrite Hget, Ht. simpl.
  destruct (instanceState.updateInstance _ _ _ _ _) as [o l'] eqn:Hupd. simpl.
  repeat (simpl; try reflexivity;
          match goal with
          | |- context [match discord_reply ?w ?h with _ => _ end] =>
              destruct (discord_reply w h)
          end).
Qed.

Lemma updateInstance_coin_inserted env now coinInstanceId status
    (instances : list record) r t :
  instanceState.getInstance coinInstanceId instances = Some r ->
  coin_inserted env coinInstanceId t
    (snd (instanceState.updateInstance now coinInstanceId status
            {[ "selfDestructTimer" := VTimer (insert_coin env t) ]} instances)).
Proof.
  intros Hget.
  destruct (updateInstance_timer now coinInstanceId status
              (VTimer (insert_coin env t)) instances r Hget)
    as (new & l' & -> & Hget' & _ & Htimer & _).
  simpl. exists new, (insert_coin env t).
  destruct (insert_coin_fields env t) as (He & Hc & Hw & _).
  split; [done|]. split; [unfold timer_of, prop; by rewrite Htimer|].
  rewrite He, Hc, Hw. repeat split; lia.
Qed.

(** C8. Both coin handlers (the select-menu case [insert_coin_server] and
    the [coin_] button): when the instance has a timer, the stored timer
    afterwards has [expiresAt] larger by SELF_DESTRUCT_COIN_MINUTES minutes
    (strictly larger, the setting being positive as its default 180 is),
    [extendedCount] larger by one and the same [warningsSent]; when it has
    none, the handler answers "This server does not have an active timer."
    and the registry is untouched. *)
Theorem insert_coin_extends_timer world env coinInstanceId s :
  (forall r t,
     instanceState.getInstance coinInstanceId (instances s) = Some r ->
     timer_of r = Some t ->
     coin_inserted env coinInstanceId t
       (instances (snd (insert_coin_server world env coinInstanceId s))) /\
     coin_inserted env coinInstanceId t
       (instances (snd (coin_button world env coinInstanceId s)))) /\
  (no_active_timer coinInstanceId (instances s) ->
     instances (snd (insert_coin_server world env coinInstanceId s)) = instances s /\
     history (snd (insert_coin_server world env coinInstanceId s))
     = (history s ++ [EditReply NoActiveTimer])%list /\
     instances (snd (coin_button world env coinInstanceId s)) = instances s /\
     history (snd (coin_button world env coinInstanceId s))
     = (history s ++ [EditReply NoActiveTimer])%list).
Proof.
  split.
  - intros r t Hget Ht.
    rewrite (insert_coin_server_registry world env _ _ _ _ Hget Ht).
    rewrite (coin_button_registry world env _ _ _ _ Hget Ht).
    split; by eapply updateInstance_coin_inserted.
  - unfold no_active_timer. intros Hno.
    unfold insert_coin_server, coin_button, bind, get_instances, await.
    destruct (instanceState.getInstance coinInstanceId (instances s)) as [r|];
      simpl in Hno; [rewrite Hno|]; simpl; done.
Qed.

(* ===================================================================== *)
(** * What a computation does to the history and the clock *)
(* ===================================================================== *)

Lemma calls_only_ret {A} P (a : A) : calls_only P (ret a).
Proof. intros s. exists []. simpl. rewrite app_nil_r. repeat split; [constructor|lia]. Qed.

Lemma calls_only_throw {A} P e : calls_only P (@throw A e).
Proof. intros s. exists []. simpl. rewrite app_nil_r. repeat split; [constructor|lia]. Qed.

Lemma calls_only_throw_Error {A} P msg : calls_only P (@throw_Error A msg).
Proof. apply calls_only_throw. Qed.

Lemma calls_only_bind {A B} P (m : M A) (k : A -> M B) :
  calls_only P m -> (forall a, calls_only P (k a)) -> calls_only P (bind m k).
Proof.
  intros Hm Hk s. unfold bind.
  destruct (Hm s) as (tr1 & H1 & F1 & C1).
  destruct (m s) as [[a|e] s1]; simpl in *.
  - destruct (Hk a s1) as (tr2 & H2 & F2 & C2).
    exists (tr1 ++ tr2)%list. rewrite H2, H1, app_assoc.
    repeat split; [by apply Forall_app|lia].
  - exists tr1. auto.
Qed.

Lemma calls_only_try_catch {A} P (m : M A) (h : jserror -> M A) :
  calls_only P m -> (forall e, calls_only P (h e)) -> calls_only P (try_catch m h).
Proof.
  intros Hm Hh s. unfold try_catch.
  destruct (Hm s) as (tr1 & H1 & F1 & C1).
  destruct (m s) as [[a|e] s1]; simpl in *.
  - exists tr1. auto.
  - destruct (Hh e s1) as (tr2 & H2 & F2 & C2).
    exists (tr1 ++ tr2)%list. rewrite H2, H1, app_assoc.
    repeat split; [by apply Forall_app|lia].
Qed.

Lemma calls_only_await {A} P world c extra (reply : list call -> outcome A) :
  P c -> (0 <= extra)%Z -> calls_only P (await world c extra reply).
Proof.
  intros Hc He s. exists [c]. unfold await. simpl.
  repeat split; [by repeat constructor|lia].
Qed.

Lemma calls_only_sleep P world ms :
  P (Sleep ms) -> (0 <= ms)%Z -> calls_only P (sleep world ms).
Proof. intros. by apply calls_only_await. Qed.

Lemma calls_only_emit P c : P c -> calls_only P (emit c).
Proof.
  intros Hc s. exists [c]. unfold emit. simpl.
  repeat split; [by repeat constructor|lia].
Qed.

Lemma calls_only_silent {A} P (m : M A) :
  (forall s, history (snd (m s)) = history s /\ clock (snd (m s)) = clock s) ->
  calls_only P m.
Proof.
  intros H s. destruct (H s) as [Hh Hc]. exists [].
  rewrite Hh, Hc, app_nil_r. repeat split; [constructor|lia].
Qed.

Lemma calls_only_Date_now P : calls_only P Date_now.
Proof. by apply calls_only_silent. Qed.

Lemma calls_only_get_instances P : calls_only P get_instances.
Proof. by apply calls_only_silent. Qed.

Lemma calls_only_set_instances P l : calls_only P (set_instances l).
Proof. by apply calls_only_silent. Qed.

Lemma calls_only_get_currentServerInstanceId P :
  calls_only P get_currentServerInstanceId.
Proof. by apply calls_only_silent. Qed.

Lemma calls_only_set_currentServerInstanceId P v :
  calls_only P (set_currentServerInstanceId v).
Proof. by apply calls_only_silent. Qed.

Lemma calls_only_updateInstance P instanceId status metadata :
  calls_only P (updateInstance instanceId status metadata).
Proof.
  apply calls_only_silent. intros s. unfold updateInstance.
  by destruct (instanceState.updateInstance _ _ _ _ _).
Qed.

Lemma calls_only_trackInstance P instanceId userId username status metadata :
  calls_only P (trackInstance instanceId userId username status metadata).
Proof.
  apply calls_only_silent. intros s. unfold trackInstance.
  by destruct (instanceState.trackInstance _ _ _ _ _ _ _).
Qed.

Lemma calls_only_weaken {A} (P Q : call -> Prop) (m : M A) :
  (forall c, P c -> Q c) -> calls_only P m -> calls_only Q m.
Proof.
  intros HPQ Hm s. destruct (Hm s) as (tr & H & F & C).
  exists tr. repeat split; [done| |done].
  eapply Forall_impl; eauto.
Qed.

(** Breaks a computation down along its structure. Awaited calls and
    emitted events leave the goal that the call satisfies the predicate. *)
Ltac calls_only_step :=
  lazymatch goal with
  | |- calls_only _ (bind _ _) => apply calls_only_bind; [|intros ?]
  | |- calls_only _ (try_catch _ _) => apply calls_only_try_catch; [|intros ?]
  | |- calls_only _ (ret _) => apply calls_only_ret
  | |- calls_only _ (throw _) => apply calls_only_throw
  | |- calls_only _ (throw_Error _) => apply calls_only_throw_Error
  | |- calls_only _ (await _ _ _ _) => apply calls_only_await; [|lia]
  | |- calls_only _ (sleep _ _) => apply calls_only_sleep; [|lia]
  | |- calls_only _ (emit _) => apply calls_only_emit
  | |- calls_only _ Date_now => apply calls_only_Date_now
  | |- calls_only _ get_instances => apply calls_only_get_instances
  | |- calls_only _ (set_instances _) => apply calls_only_set_instances
  | |- calls_only _ get_currentServerInstanceId =>
      apply calls_only_get_currentServerInstanceId
  | |- calls_only _ (set_currentServerInstanceId _) =>
      apply calls_only_set_currentServerInstanceId
  | |- calls_only _ (updateInstance _ _ _) => apply calls_only_updateInstance
  | |- calls_only _ (trackInstance _ _ _ _ _) => apply calls_only_trackInstance
  | |- calls_only _ (match ?x with _ => _ end) => destruct x
  | |- calls_only _ (if ?b then _ else _) => destruct b
  | |- calls_only _ (let '(_, _) := ?x in _) => destruct x
  end.

Ltac calls_only_auto := repeat (calls_only_step; simpl); try done.

(* ===================================================================== *)
(** * Equations of the monad *)
(* ===================================================================== *)

Lemma bind_resolved {A B} (m : M A) (k : A -> M B) s a s1 :
  m s = (Resolved a, s1) -> bind m k s = k a s1.
Proof. intros H. unfold bind. by rewrite H. Qed.

Lemma bind_rejected {A B} (m : M A) (k : A -> M B) s e s1 :
  m s = (Rejected e, s1) -> bind m k s = (Rejected e, s1).
Proof. intros H. unfold bind. by rewrite H. Qed.

Lemma try_catch_resolved {A} (m : M A) h s a s1 :
  m s = (Resolved a, s1) -> try_catch m h s = (Resolved a, s1).
Proof. intros H. unfold try_catch. by rewrite H. Qed.

Lemma try_catch_rejected {A} (m : M A) h s e s1 :
  m s = (Rejected e, s1) -> try_catch m h s = h e s1.
Proof. intros H. unfold try_catch. by rewrite H. Qed.

Lemma await_eq {A} world c extra (reply : list call -> outcome A) s :
  await world c extra reply s = (reply (history s), after world c extra s).
Proof. reflexivity. Qed.

Lemma emit_eq c s : emit c s = (Resolved tt, noted c s).
Proof. reflexivity. Qed.

Lemma sendAutoCleanupFollowUp_eq world content s :
  sendAutoCleanupFollowUp world content s =
  match discord_reply world (history s) with
  | Resolved u => (Resolved u, after world (FollowUp content) 0 s)
  | Rejected e =>
      (Rejected e,
       noted (ConsoleError "Error sending auto-cleanup follow-up:")
             (after world (FollowUp content) 0 s))
  end.
Proof.
  unfold sendAutoCleanupFollowUp, try_catch, bind. rewrite await_eq.
  destruct (discord_reply world (history s)); reflexivity.
Qed.

Lemma sendServerCreationDM_eq world ip elapsedMinutes s :
  sendServerCreationDM world ip elapsedMinutes s =
  match discord_reply world (history s) with
  | Resolved u => (Resolved u, after world (UserSend (ReadyDM ip elapsedMinutes)) 0 s)
  | Rejected e =>
      (Resolved tt,
       noted (ConsoleError "Failed to send DM")
             (after world (UserSend (ReadyDM ip elapsedMinutes)) 0 s))
  end.
Proof.
  unfold sendServerCreationDM, try_catch. rewrite await_eq.
  destruct (discord_reply world (history s)); reflexivity.
Qed.

Lemma updateInstance_eq instanceId status metadata s :
  updateInstance instanceId status metadata s =
  (Resolved (fst (instanceState.updateInstance (clock s) instanceId status
                    metadata (instances s))),
   State (snd (instanceState.updateInstance (clock s) instanceId status metadata
                 (instances s)))
         (currentServerInstanceId s) (history s) (clock s)).
Proof.
  unfold updateInstance. by destruct (instanceState.updateInstance _ _ _ _ _).
Qed.

Lemma initializeSelfDestructTimer_silent env instanceId s :
  exists l,
    initializeSelfDestructTimer env instanceId s
    = (Resolved tt, State l (currentServerInstanceId s) (history s) (clock s)).
Proof.
  unfold initializeSelfDestructTimer, bind, get_instances, Date_now, ret.
  destruct (instanceState.getInstance instanceId (instances s)) as [r|].
  - destruct (truthy (prop r "selfDestructTimer")).
    + exists (instances s). by destruct s.
    + rewrite updateInstance_eq. eauto.
  - exists (instances s). by destruct s.
Qed.

Lemma calls_only_initializeSelfDestructTimer P env instanceId :
  calls_only P (initializeSelfDestructTimer env instanceId).
Proof.
  apply calls_only_silent. intros s.
  destruct (initializeSelfDestructTimer_silent env instanceId s) as [l ->]. done.
Qed.

(* ===================================================================== *)
(** * The provider-access layer: self-protection *)
(* ===================================================================== *)

Lemma isCurrentServer_eq world env instanceId s :
  isCurrentServer world env instanceId s =
  (Resolved (bool_decide (detected_server world env s = Some instanceId)
             || bool_decide (EXCLUDE_INSTANCE_ID env = Some instanceId)),
   detect world env s).
Proof.
  unfold detect, detected_server, isCurrentServer, getCurrentServerInstanceId.
  unfold bind, get_currentServerInstanceId, set_currentServerInstanceId, ret, await.
  simpl.
  destruct (string_truthy (currentServerInstanceId s)) eqn:Hc; simpl.
  - destruct (bool_decide (currentServerInstanceId s = Some instanceId)); simpl;
      [reflexivity|].
    by destruct (bool_decide (EXCLUDE_INSTANCE_ID env = Some instanceId)).
  - destruct (metadata_reply world (history s)) as [text|]; simpl.
    + destruct (bool_decide (Some (trim text) = Some instanceId)); simpl;
        [reflexivity|].
      by destruct (bool_decide (EXCLUDE_INSTANCE_ID env = Some instanceId)).
    + destruct (bool_decide (or_null (EXCLUDE_INSTANCE_ID env) = Some instanceId));
        simpl; [reflexivity|].
      by destruct (bool_decide (EXCLUDE_INSTANCE_ID env = Some instanceId)).
Qed.

Lemma detect_instances world env s :
  instances (detect world env s) = instances s.
Proof. unfold detect. by destruct (string_truthy _). Qed.

Lemma detect_cached world env s :
  string_truthy (currentServerInstanceId s) = true -> detect world env s = s.
Proof. unfold detect. by intros ->. Qed.

Lemma detected_server_cached world env s :
  string_truthy (currentServerInstanceId s) = true ->
  detected_server world env s = currentServerInstanceId s.
Proof. unfold detected_server. by intros ->. Qed.

(** The result of [getInstance], read off the reply of the provider. *)
Lemma getInstance_eq world env instanceId s :
  let s1 := after world (GetInstance instanceId) 0 s in
  let s2 := detect world env s1 in
  let failed e s := (@Rejected (option Vultr.instance) e,
                     noted (ConsoleError "Error getting instance:") s) in
  getInstance world env instanceId s =
  match getInstance_reply world (history s) instanceId with
  | Rejected e => failed e s1
  | Resolved instance =>
      if bool_decide (detected_server world env s1 = Some instanceId)
         || bool_decide (EXCLUDE_INSTANCE_ID env = Some instanceId)
      then match instance with
           | None => failed (TypeError "label") s2
           | Some _ => (Resolved None, s2)
           end
      else if string_truthy (EXCLUDE_SNAPSHOT_ID env) then
        match instance with
        | None => failed (TypeError "snapshot_id") s2
        | Some i =>
            if bool_decide (Vultr.snapshot_id i = EXCLUDE_SNAPSHOT_ID env)
            then (Resolved None, s2) else (Resolved (Some i), s2)
        end
      else (Resolved instance, s2)
  end.
Proof.
  intros s1 s2 failed. unfold getInstance, try_catch, bind at 1. rewrite await_eq.
  fold s1.
  destruct (getInstance_reply world (history s) instanceId) as [instance|e];
    [|reflexivity].
  unfold bind at 1. rewrite isCurrentServer_eq. fold s2.
  destruct (bool_decide (detected_server world env s1 = Some instanceId)
            || bool_decide (EXCLUDE_INSTANCE_ID env = Some instanceId)).
  - destruct instance; reflexivity.
  - destruct (string_truthy (EXCLUDE_SNAPSHOT_ID env)); [|reflexivity].
    destruct instance as [i|]; [|reflexivity].
    by destruct (bool_decide (Vultr.snapshot_id i = EXCLUDE_SNAPSHOT_ID env)).
Qed.

(** [getInstance] never touches the registry. *)
Lemma getInstance_instances world env instanceId s :
  instances (snd (getInstance world env instanceId s)) = instances s.
Proof.
  pose proof (getInstance_eq world env instanceId s) as H. cbv zeta in H.
  rewrite H.
  repeat match goal with
         | |- context [match ?x with _ => _ end] => destruct x
         end; simpl; rewrite ?detect_instances; reflexivity.
Qed.

Lemma calls_only_isCurrentServer P world env instanceId :
  P MetadataInstanceId -> calls_only P (isCurrentServer world env instanceId).
Proof.
  intros HP. unfold isCurrentServer, getCurrentServerInstanceId.
  calls_only_auto.
Qed.

Lemma calls_only_getInstance P world env instanceId :
  P MetadataInstanceId -> P (GetInstance instanceId) ->
  P (ConsoleError "Error getting instance:") ->
  calls_only P (getInstance world env instanceId).
Proof.
  intros H1 H2 H3. unfold getInstance.
  apply calls_only_try_catch; [|intros; calls_only_auto].
  apply calls_only_bind; [calls_only_auto|intros instance].
  apply calls_only_bind; [by apply calls_only_isCurrentServer|intros isCurrent].
  calls_only_auto.
Qed.

Lemma detected_server_detect world env s :
  string_truthy (detected_server world env s) = true ->
  detected_server world env (detect world env s) = detected_server world env s.
Proof.
  intros Hd. unfold detect.
  destruct (string_truthy (currentServerInstanceId s)) eqn:Hc; [reflexivity|].
  unfold detected_server at 1. simpl. by rewrite Hd.
Qed.

(** The loop of [listInstances] keeps an instance only if it is neither the
    excluded id nor, once a current server is detected, that server. *)
Lemma listInstances_filterCurrent_keeps world env l s :
  exists out s',
    listInstances_filterCurrent world env l s = (Resolved out, s') /\
    forall i, In i out ->
      In i l /\
      EXCLUDE_INSTANCE_ID env <> Some (Vultr.id i) /\
      (string_truthy (detected_server world env s) = true ->
       detected_server world env s <> Some (Vultr.id i)).
Proof.
  revert s. induction l as [|i rest IH]; intros s.
  - exists [], s. split; [reflexivity|]. intros i [].
  - simpl. unfold bind at 1. rewrite isCurrentServer_eq.
    destruct (IH (detect world env s)) as (out & s' & Hrest & Hout).
    unfold bind at 1. rewrite Hrest. unfold ret.
    eexists _, s'. split; [reflexivity|].
    assert (Hkeep : forall j, In j out ->
              In j (i :: rest) /\
              EXCLUDE_INSTANCE_ID env ≠ Some (Vultr.id j) /\
              (string_truthy (detected_server world env s) = true ->
               detected_server world env s ≠ Some (Vultr.id j))).
    { intros j Hj. destruct (Hout j Hj) as (Hin & Hex & Hdet).
      split; [by right|]. split; [done|].
      intros Ht. rewrite <- (detected_server_detect world env s Ht).
      apply Hdet. by rewrite detected_server_detect. }
    destruct (bool_decide (detected_server world env s = Some (Vultr.id i)))
      eqn:Hd; simpl; [exact Hkeep|].
    destruct (bool_decide (EXCLUDE_INSTANCE_ID env = Some (Vultr.id i)))
      eqn:He; simpl; [exact Hkeep|].
    intros j [<-|Hj]; [|by apply Hkeep].
    apply bool_decide_eq_false in Hd, He.
    split; [by left|]. split; done.
Qed.



(* ===================================================================== *)
(** * Running the code step by step *)
(* ===================================================================== *)

Arguments bind {A B} m k s /.
Arguments try_catch {A} m handler s /.
Arguments ret {A} a s /.
Arguments throw {A} e s /.
Arguments throw_Error {A} msg s /.
Arguments Date_now s /.
Arguments get_instances s /.

(** One step of symbolic execution: an equation of a helper is applied, a
    reply of the outside world or a clock test is split into its cases, or
    the monad's plumbing is reduced. *)
Ltac exec_step :=
  first
    [ rewrite sendAutoCleanupFollowUp_eq
    | rewrite sendServerCreationDM_eq
    | rewrite updateInstance_eq
    | rewrite await_eq
    | rewrite emit_eq
    | match goal with
      | |- context [initializeSelfDestructTimer ?e ?i ?s] =>
          let l := fresh "l" in
          let H := fresh "H" in
          destruct (initializeSelfDestructTimer_silent e i s) as [l H];
          rewrite H; clear H
      | |- context [match discord_reply ?w ?h with _ => _ end] =>
          destruct (discord_reply w h) as [[]|?]
      | |- context [if (?a <? ?b)%Z then _ else _] => destruct (Z.ltb_spec a b)
      end
    | progress cbn [bind try_catch ret throw throw_Error Date_now get_instances
                    fst snd] ].

Ltac exec := repeat exec_step.

(** The same, for code that talks to the provider directly: every reply
    is split into its cases. *)
Ltac run_step :=
  first
    [ rewrite await_eq
    | rewrite emit_eq
    | rewrite updateInstance_eq
    | progress cbn [bind try_catch ret throw throw_Error Date_now get_instances
                    negb]
    | match goal with
      | |- context [match deleteInstance_reply ?w ?h ?i with _ => _ end] =>
          destruct (deleteInstance_reply w h i) as [[]|?]
      | |- context [match updateInstance_reply ?w ?h ?i ?u with _ => _ end] =>
          destruct (updateInstance_reply w h i u) as [[]|?]
      | |- context [match getInstance_reply ?w ?h ?i with _ => _ end] =>
          destruct (getInstance_reply w h i)
      | |- context [match usersFetch_reply ?w ?h with _ => _ end] =>
          destruct (usersFetch_reply w h) as [[|]|?]
      | |- context [match discord_reply ?w ?h with _ => _ end] =>
          destruct (discord_reply w h) as [[]|?]
      | |- context [match creator_id ?r with _ => _ end] => destruct (creator_id r)
      end ].

Ltac run := repeat run_step.

Ltac exec_state :=
  cbn [history clock after noted fst snd instances currentServerInstanceId] in *.

Lemma calls_only_sendAutoCleanupFollowUp (P : call -> Prop) world content :
  P (FollowUp content) -> P (ConsoleError "Error sending auto-cleanup follow-up:") ->
  calls_only P (sendAutoCleanupFollowUp world content).
Proof. intros. unfold sendAutoCleanupFollowUp. calls_only_auto. Qed.

Lemma calls_only_sendServerCreationDM (P : call -> Prop) world ip elapsedMinutes :
  P (UserSend (ReadyDM ip elapsedMinutes)) -> P (ConsoleError "Failed to send DM") ->
  calls_only P (sendServerCreationDM world ip elapsedMinutes).
Proof. intros. unfold sendServerCreationDM. calls_only_auto. Qed.

(* ===================================================================== *)
(** * The status reconciliation poller *)
(* ===================================================================== *)

Lemma server_is_ready_spec i : server_is_ready i = true <-> ready_conditions i.
Proof.
  unfold server_is_ready, ready_conditions.
  rewrite !andb_true_iff, !negb_true_iff, !bool_decide_eq_true, !bool_decide_eq_false.
  unfold string_truthy. split.
  - intros ((((Hs & Hp) & Ht) & H0) & He).
    destruct (Vultr.main_ip i) as [ip|]; [|discriminate].
    repeat split; auto. exists ip. repeat split; congruence.
  - intros (Hs & Hp & ip & Hip & Hne & H0). rewrite Hip.
    repeat split; auto; try congruence.
    apply negb_true_iff. by apply String.eqb_neq.
Qed.

Lemma server_is_restoring_spec i :
  server_is_restoring i = true <->
  Vultr.status i = Some "active" /\ Vultr.power_status i = Some "stopped".
Proof.
  unfold server_is_restoring.
  by rewrite andb_true_iff, !bool_decide_eq_true.
Qed.

(** A stopped instance is not ready. *)
Lemma restoring_not_ready i :
  server_is_restoring i = true -> server_is_ready i = false.
Proof.
  rewrite server_is_restoring_spec. intros [_ Hp].
  destruct (server_is_ready i) eqn:Hr; [|reflexivity].
  apply server_is_ready_spec in Hr as (_ & Hp' & _). congruence.
Qed.

(** Whatever happens, a tick of the status poller talks to the provider
    only through [getInstance]. *)
Lemma calls_only_status_pollStatus world env instanceId sendDM startTime :
  calls_only (status_poll_call instanceId)
    (startInstanceStatusPolling_pollStatus world env instanceId sendDM startTime).
Proof.
  unfold startInstanceStatusPolling_pollStatus.
  apply calls_only_bind; [apply calls_only_Date_now|intros now].
  destruct (_ >? _)%Z.
  { apply calls_only_bind; [|intros; apply calls_only_ret].
    by apply calls_only_sendAutoCleanupFollowUp. }
  apply calls_only_try_catch.
  - apply calls_only_bind; [by apply calls_only_getInstance|intros [instance|]].
    + apply calls_only_bind; [apply calls_only_updateInstance|intros _].
      destruct (server_is_ready instance).
      * apply calls_only_bind.
        { destruct sendDM; [|apply calls_only_ret].
          apply calls_only_try_catch; [|intros; by apply calls_only_emit].
          by apply calls_only_sendServerCreationDM. }
        intros _. apply calls_only_bind;
          [apply calls_only_initializeSelfDestructTimer|intros _].
        apply calls_only_bind; [|intros; apply calls_only_ret].
        by apply calls_only_sendAutoCleanupFollowUp.
      * destruct (server_is_restoring instance);
          (apply calls_only_bind; [|intros; apply calls_only_ret]);
          by apply calls_only_sendAutoCleanupFollowUp.
    + apply calls_only_bind; [|intros; apply calls_only_ret].
      by apply calls_only_sendAutoCleanupFollowUp.
  - intros error. apply calls_only_bind; [by apply calls_only_emit|intros _].
    apply calls_only_bind; [apply calls_only_Date_now|intros now'].
    destruct (_ <? _)%Z; [apply calls_only_ret|].
    apply calls_only_bind; [|intros; apply calls_only_ret].
    by apply calls_only_sendAutoCleanupFollowUp.
Qed.

(** C5. In a tick that is within the 30-minute ceiling and in which
    [getInstance] returns an instance, the poller reports the server ready
    (it sends the "is now READY" message) if and only if, in that one
    response, the lifecycle status is active, the power status is running
    and the address is neither missing, empty nor 0.0.0.0; in every other
    case it schedules the next poll 45 seconds later, as long as the
    ceiling is not reached by the end of the tick. *)
Theorem status_poll_ready_iff world env instanceId sendDM startTime s i s1 :
  (clock s - startTime <= 30 * 60 * 1000)%Z ->
  getInstance world env instanceId s = (Resolved (Some i), s1) ->
  let result :=
    startInstanceStatusPolling_pollStatus world env instanceId sendDM startTime s in
  exists tr,
    history (snd result) = (history s1 ++ tr)%list /\
    ((exists ip mins, In (FollowUp (ServerReady ip mins)) tr) <-> ready_conditions i) /\
    (~ ready_conditions i ->
     (clock (snd result) - startTime < 30 * 60 * 1000)%Z ->
     fst result = Resolved (Again 45000)).
Proof.
  intros Hc Hget result. subst result.
  unfold startInstanceStatusPolling_pollStatus.
  cbn [bind Date_now].
  destruct (Z.gtb_spec (clock s - startTime) (30 * 60 * 1000)); [lia|].
  cbn [bind try_catch]. rewrite Hget.
  setoid_rewrite <- server_is_ready_spec.
  destruct (server_is_ready i) eqn:Hr.
  - destruct sendDM; exec; exec_state.
    all: eexists; (split; [rewrite <- ?app_assoc; reflexivity|]).
    all: split; [|intros []; reflexivity].
    all: split; [reflexivity|intros _; eexists _, _; rewrite ?in_app_iff; simpl; eauto 10].
  - destruct (server_is_restoring i); exec; exec_state.
    all: eexists; (split; [rewrite <- ?app_assoc; reflexivity|]).
    all: split; [|intros _ ?; try reflexivity; try lia].
    all: split; [|discriminate].
    all: intros (? & ? & Hin); simpl in Hin; rewrite ?in_app_iff in Hin;
      simpl in Hin; exfalso; intuition discriminate.
Qed.

(** C6. In a tick that is within the ceiling and in which the provider
    reports the instance active with power status stopped, the poller
    sends no start command (the only provider call of any tick is
    [getInstance]), reports "Restoring from snapshot" and schedules the
    next poll 45 seconds later, as long as the ceiling is not reached by
    the end of the tick. *)
Theorem status_poll_restoring_never_starts world env instanceId sendDM startTime
    s i s1 :
  (clock s - startTime <= 30 * 60 * 1000)%Z ->
  getInstance world env instanceId s = (Resolved (Some i), s1) ->
  Vultr.status i = Some "active" ->
  Vultr.power_status i = Some "stopped" ->
  let result :=
    startInstanceStatusPolling_pollStatus world env instanceId sendDM startTime s in
  (exists tr,
     history (snd result) = (history s ++ tr)%list /\
     Forall (status_poll_call instanceId) tr /\
     forall id, ~ In (StartInstance id) tr) /\
  (exists tr1 mins,
     history (snd result) = (history s1 ++ tr1)%list /\
     In (FollowUp (RestoringFromSnapshot mins)) tr1) /\
  ((clock (snd result) - startTime < 30 * 60 * 1000)%Z ->
   fst result = Resolved (Again 45000)).
Proof.
  intros Hc Hget Hs Hp result.
  assert (Hrest : server_is_restoring i = true)
    by (by apply server_is_restoring_spec).
  pose proof (restoring_not_ready i Hrest) as Hr.
  split.
  { destruct (calls_only_status_pollStatus world env instanceId sendDM startTime s)
      as (tr & Htr & HF & _).
    exists tr. split; [exact Htr|]. split; [exact HF|].
    intros id Hin. rewrite Forall_forall in HF.
    apply (HF _ (proj2 (list_elem_of_In _ _) Hin)). }
  subst result. unfold startInstanceStatusPolling_pollStatus.
  cbn [bind Date_now].
  destruct (Z.gtb_spec (clock s - startTime) (30 * 60 * 1000)); [lia|].
  cbn [bind try_catch]. rewrite Hget, Hr, Hrest.
  exec; exec_state.
  all: split; [|intros ?; try reflexivity; try lia].
  all: eexists _, _; (split; [rewrite <- ?app_assoc; reflexivity|]).
  all: rewrite ?in_app_iff; simpl; eauto 10.
Qed.

(* ===================================================================== *)
(** * The provisioning pipeline *)
(* ===================================================================== *)

Lemma deletes_app tr1 tr2 : deletes (tr1 ++ tr2) = (deletes tr1 ++ deletes tr2)%list.
Proof. apply List.filter_app. Qed.

Lemma firewall_requests_app tr1 tr2 :
  firewall_requests (tr1 ++ tr2)
  = (firewall_requests tr1 ++ firewall_requests tr2)%list.
Proof. apply List.filter_app. Qed.

Lemma creation_calls_no_delete tr :
  Forall creation_call tr -> deletes tr = [] /\ firewall_requests tr = [].
Proof.
  induction 1 as [|c tr Hc _ [IH1 IH2]]; [done|].
  unfold deletes, firewall_requests in *. simpl.
  destruct c; simpl in *; try done.
Qed.

Lemma calls_only_getSnapshots world :
  calls_only creation_call (getSnapshots world).
Proof. unfold getSnapshots. calls_only_auto. Qed.

Lemma calls_only_create_validated world env snapshotId label region :
  calls_only creation_call (create_validated world env snapshotId label region).
Proof.
  unfold create_validated.
  destruct (or_null _); [|apply calls_only_throw_Error].
  destruct (negb _); [apply calls_only_throw_Error|].
  destruct (_ || _); [apply calls_only_throw_Error|].
  apply calls_only_bind; [apply calls_only_getSnapshots|intros snapshots].
  destruct (negb _); [apply calls_only_throw_Error|].
  calls_only_auto.
Qed.

(** One attempt always completes, requests the firewall exactly once and
    deletes nothing. *)
Lemma firewall_attempt_trace world instanceId firewallGroupId retryCount s :
  exists b s' tr,
    firewall_attempt world instanceId firewallGroupId retryCount s
    = (Resolved b, s') /\
    history s' = (history s ++ tr)%list /\
    deletes tr = [] /\
    firewall_requests tr
    = [UpdateInstance instanceId (firewall_group_id firewallGroupId)].
Proof.
  unfold firewall_attempt, sleep.
  repeat first
    [ rewrite await_eq
    | rewrite emit_eq
    | progress cbn [bind try_catch ret]
    | match goal with
      | |- context [match updateInstance_reply ?w ?h ?i ?u with _ => _ end] =>
          destruct (updateInstance_reply w h i u) as [[]|?]
      | |- context [match getInstance_reply ?w ?h ?i with _ => _ end] =>
          destruct (getInstance_reply w h i)
      | |- context [if bool_decide ?P then _ else _] => destruct (bool_decide P)
      | |- context [if (?a <? ?b)%Z then _ else _] => destruct (a <? b)%Z
      end ].
  all: eexists _, _, _; (split; [reflexivity|]); exec_state.
  all: (split; [rewrite <- ?app_assoc; reflexivity|]); done.
Qed.

Lemma firewall_loop_attached world fuel instanceId firewallGroupId retryCount s :
  firewall_loop world fuel instanceId firewallGroupId true retryCount s
  = (Resolved true, s).
Proof. destruct fuel; reflexivity. Qed.

(** The loop always completes. When it ends without a verified firewall it
    has made as many requests as retries were left, and no delete. *)
Lemma firewall_loop_trace world instanceId firewallGroupId fuel retryCount s :
  (0 <= retryCount)%Z ->
  (retryCount + Z.of_nat fuel = maxRetries)%Z ->
  exists b s' tr,
    firewall_loop world fuel instanceId firewallGroupId false retryCount s
    = (Resolved b, s') /\
    history s' = (history s ++ tr)%list /\
    deletes tr = [] /\
    (b = false ->
     firewall_requests tr
     = repeat (UpdateInstance instanceId (firewall_group_id firewallGroupId)) fuel).
Proof.
  revert retryCount s. induction fuel as [|fuel IH]; intros retryCount s H0 Hsum.
  - simpl. destruct (Z.ltb_spec retryCount maxRetries); [lia|].
    exists false, s, []. rewrite app_nil_r. done.
  - cbn [firewall_loop negb andb].
    destruct (Z.ltb_spec retryCount maxRetries); [|lia].
    destruct (firewall_attempt_trace world instanceId firewallGroupId
                (retryCount + 1) s) as (b & s1 & tr1 & Hatt & Hh1 & Hd1 & Hf1).
    cbn [bind]. rewrite Hatt.
    destruct b.
    + rewrite firewall_loop_attached.
      exists true, s1, tr1; repeat split; try done.
    + destruct (IH (retryCount + 1)%Z s1 ltac:(lia) ltac:(lia))
        as (b & s2 & tr2 & Hloop & Hh2 & Hd2 & Hf2).
      exists b, s2, (tr1 ++ tr2)%list. split; [exact Hloop|].
      split; [by rewrite Hh2, Hh1, app_assoc|].
      split; [by rewrite deletes_app, Hd1, Hd2|].
      intros Hb. rewrite firewall_requests_app, Hf1, (Hf2 Hb). reflexivity.
Qed.

Lemma security_failure_is_wrapped :
  includes "VULTR_FIREWALL_GROUP_ID" SECURITY_FAILURE
  || includes "Invalid" SECURITY_FAILURE
  || includes "Vultr API" SECURITY_FAILURE
  || includes "Failed to attach" SECURITY_FAILURE
  || includes "Snapshot" SECURITY_FAILURE = false.
Proof. vm_compute. reflexivity. Qed.

Lemma security_failure_recognizable :
  includes "SECURITY FAILURE" ("Failed to create instance: " ++ SECURITY_FAILURE)
  = true.
Proof. vm_compute. reflexivity. Qed.

(** C1. A provisioning run that has created an instance and whose firewall
    loop ends, after its 10 attempts, without a verified attachment: the
    pipeline asks the provider exactly once to delete that instance (a
    failure of the delete is logged, and nothing is retried) and the whole
    operation fails with the SECURITY FAILURE error; no instance is
    returned. *)
Theorem firewall_failure_destroys_instance world env snapshotId label region
    s i firewallGroupId s1 s2 :
  create_validated world env snapshotId label region s
  = (Resolved (i, firewallGroupId), s1) ->
  firewall_loop world (Z.to_nat maxRetries) (Vultr.id i) firewallGroupId false 0 s1
  = (Resolved false, s2) ->
  let result := createInstanceFromSnapshot world env snapshotId label region s in
  exists e tr,
    fst result = Rejected e /\
    message e = "Failed to create instance: " ++ SECURITY_FAILURE /\
    includes "SECURITY FAILURE" (message e) = true /\
    history (snd result) = (history s ++ tr)%list /\
    firewall_requests tr
    = repeat (UpdateInstance (Vultr.id i) (firewall_group_id firewallGroupId)) 10 /\
    deletes tr = [DeleteInstance (Vultr.id i)] /\
    (forall err,
       deleteInstance_reply world (history (at_destroy s2)) (Vultr.id i)
       = Rejected err ->
       In (ConsoleError "Failed to destroy unprotected instance:") tr).
Proof.
  intros Hcreate Hloop result. subst result.
  destruct (calls_only_create_validated world env snapshotId label region s)
    as (tr0 & Hh0 & HF0 & _).
  rewrite Hcreate in Hh0. simpl in Hh0.
  destruct (creation_calls_no_delete tr0 HF0) as [Hd0 Hf0].
  destruct (firewall_loop_trace world (Vultr.id i) firewallGroupId
              (Z.to_nat maxRetries) 0 s1 ltac:(lia) ltac:(reflexivity))
    as (b & s2' & tr1 & Hloop' & Hh1 & Hd1 & Hf1).
  rewrite Hloop in Hloop'. injection Hloop' as <- <-.
  specialize (Hf1 eq_refl).
  unfold createInstanceFromSnapshot, secure_instance.
  cbn [bind try_catch fst snd]. rewrite Hcreate.
  cbn [bind try_catch fst snd]. rewrite Hloop.
  cbn [bind try_catch negb]. rewrite !emit_eq.
  cbn [bind try_catch]. rewrite await_eq.
  fold (at_destroy s2).
  destruct (deleteInstance_reply world (history (at_destroy s2)) (Vultr.id i))
    as [[]|err] eqn:Hdel;
    cbn [bind try_catch throw throw_Error ret]; rewrite ?emit_eq;
    cbn [bind try_catch throw throw_Error ret message];
    rewrite security_failure_is_wrapped;
    cbn [bind try_catch throw throw_Error ret fst snd];
    eexists _, _; (split; [reflexivity|]); (split; [reflexivity|]);
    (split; [apply security_failure_recognizable|]);
    unfold at_destroy; exec_state; rewrite Hh1, Hh0.
  - split; [rewrite <- ?app_assoc; reflexivity|].
    rewrite !firewall_requests_app, !deletes_app, Hd0, Hf0, Hd1, Hf1.
    split; [reflexivity|]. split; [reflexivity|]. discriminate.
  - split; [rewrite <- ?app_assoc; reflexivity|].
    rewrite !firewall_requests_app, !deletes_app, Hd0, Hf0, Hd1, Hf1.
    split; [reflexivity|]. split; [reflexivity|].
    intros _ _. rewrite !in_app_iff. simpl. tauto.
Qed.

(** When the pipeline does return an instance, its firewall loop ended
    with a verified attachment. *)
Lemma createInstanceFromSnapshot_verified world env snapshotId label region s i :
  fst (createInstanceFromSnapshot world env snapshotId label region s)
  = Resolved i ->
  exists firewallGroupId s1 s2,
    create_validated world env snapshotId label region s
    = (Resolved (i, firewallGroupId), s1) /\
    firewall_loop world (Z.to_nat maxRetries) (Vultr.id i) firewallGroupId false 0 s1
    = (Resolved true, s2).
Proof.
  unfold createInstanceFromSnapshot. cbn [bind try_catch].
  destruct (create_validated world env snapshotId label region s)
    as [[[i' fw]|e] s1] eqn:Hcreate.
  - unfold secure_instance. cbn [bind try_catch fst snd].
    destruct (firewall_loop_trace world (Vultr.id i') fw (Z.to_nat maxRetries) 0 s1
                ltac:(lia) ltac:(reflexivity))
      as (b & s2 & tr1 & Hloop & _).
    rewrite Hloop. destruct b.
    + cbn [bind try_catch negb ret]. rewrite await_eq.
      destruct (updateInstance_reply world _ _ _) as [[]|?];
        cbn [bind try_catch ret]; unfold sleep; rewrite ?await_eq;
        cbn [bind try_catch ret]; rewrite ?await_eq;
        try (destruct (getInstance_reply world _ _)); cbn [bind try_catch ret fst];
        intros [= ->]; eauto.
    + cbn [bind try_catch negb]. rewrite !emit_eq.
      cbn [bind try_catch]. rewrite await_eq.
      destruct (deleteInstance_reply world _ _) as [[]|err];
        cbn [bind try_catch throw throw_Error ret]; rewrite ?emit_eq;
        cbn [bind try_catch throw throw_Error ret message];
        rewrite security_failure_is_wrapped;
        cbn [bind try_catch throw throw_Error ret fst snd]; discriminate.
  - cbn [bind try_catch]. rewrite emit_eq. cbn [bind].
    destruct (_ || _); cbn [throw throw_Error fst]; discriminate.
Qed.

(* ===================================================================== *)
(** * The self-destruct timer engine: expiry *)
(* ===================================================================== *)

(** Marking a tracked instance destroyed: its status becomes "destroyed"
    and its timer is cleared. *)
Lemma marked_destroyed_spec now instanceId (instances : list record) r :
  instanceState.getInstance instanceId instances = Some r ->
  exists r',
    instanceState.getInstance instanceId (marked_destroyed now instanceId instances)
    = Some r' /\
    r' !! "status" = Some (VStr "destroyed") /\
    timer_of r' = None.
Proof.
  intros Hget. unfold marked_destroyed.
  destruct (updateInstance_timer now instanceId (VStr "destroyed") VNull
              instances r Hget)
    as (new & l' & -> & Hget' & _ & Htimer & Hstatus & _).
  exists new. simpl. split; [done|]. split; [done|].
  unfold timer_of, prop. by rewrite Htimer.
Qed.






Lemma getInstance_first_call world env instanceId s :
  exists tr,
    history (snd (getInstance world env instanceId s))
    = (history s ++ GetInstance instanceId :: tr)%list.
Proof.
  pose proof (getInstance_eq world env instanceId s) as H. cbv zeta in H.
  rewrite H. unfold detect.
  repeat match goal with
         | |- context [match ?x with _ => _ end] => destruct x
         end; exec_state; rewrite <- ?app_assoc; simpl; eauto.
Qed.





(** An error of the provider's [getInstance], a 404 for one, is thrown on
    by the bot's [getInstance]. *)
Lemma getInstance_rejected world env instanceId s e :
  getInstance_reply world (history s) instanceId = Rejected e ->
  getInstance world env instanceId s
  = (Rejected e,
     noted (ConsoleError "Error getting instance:")
           (after world (GetInstance instanceId) 0 s)).
Proof.
  intros Hreply.
  pose proof (getInstance_eq world env instanceId s) as H. cbv zeta in H.
  by rewrite H, Hreply.
Qed.

(** What marking does to the registry, for a tracked instance. *)
Lemma marked_destroyed_record now instanceId (instances instances' : list record) :
  instances' = marked_destroyed now instanceId instances ->
  forall r0,
    instanceState.getInstance instanceId instances = Some r0 ->
    exists r',
      instanceState.getInstance instanceId instances' = Some r' /\
      r' !! "status" = Some (VStr "destroyed") /\
      timer_of r' = None.
Proof. intros -> r0 Hr0. by apply marked_destroyed_spec with r0. Qed.


(* ===================================================================== *)
(** * The destruction reconciliation poller *)
(* ===================================================================== *)

Ltac poll_step :=
  first
    [ rewrite sendAutoCleanupFollowUp_eq
    | progress cbn [history clock after noted instances currentServerInstanceId]
    | run_step
    | match goal with
      | |- context [if status_eq ?e ?n then _ else _] => destruct (status_eq e n) eqn:?
      | |- context [if negb (status_eq ?e ?n) then _ else _] => destruct (status_eq e n) eqn:?
      | |- context [status_eq ?e ?n || _] => destruct (status_eq e n) eqn:?
      end
    | progress cbn [orb negb] ].

(** Every rescheduling of the destruction poller is 10 seconds away. *)
Lemma destruction_pollStatus_again world env instanceId startTime attempts s ms :
  fst (startInstanceDestructionPolling_pollStatus world env instanceId startTime
         attempts s) = Resolved (Again ms) ->
  ms = 10000%Z.
Proof.
  unfold startInstanceDestructionPolling_pollStatus.
  cbn [bind Date_now].
  destruct (_ >? _)%Z.
  { repeat poll_step; cbn [fst]; congruence. }
  cbn [bind try_catch].
  destruct (getInstance world env instanceId s) as [[[vi|]|e] s1];
    repeat poll_step; cbn [fst]; congruence.
Qed.

Lemma calls_only_destruction_pollStatus world env instanceId startTime attempts :
  calls_only (fun _ => True)
    (startInstanceDestructionPolling_pollStatus world env instanceId startTime attempts).
Proof.
  unfold startInstanceDestructionPolling_pollStatus.
  apply calls_only_bind; [apply calls_only_Date_now|intros now].
  destruct (_ >? _)%Z.
  { apply calls_only_bind; [|intros; apply calls_only_ret].
    by apply calls_only_sendAutoCleanupFollowUp. }
  apply calls_only_try_catch.
  - apply calls_only_bind; [by apply calls_only_getInstance|intros [instance|]].
    + apply calls_only_bind; [calls_only_auto|intros _].
      apply calls_only_bind; [|intros; apply calls_only_ret].
      by apply calls_only_sendAutoCleanupFollowUp.
    + apply calls_only_bind; [apply calls_only_updateInstance|intros _].
      apply calls_only_bind; [|intros; apply calls_only_ret].
      by apply calls_only_sendAutoCleanupFollowUp.
  - intros error. destruct (_ || _).
    + apply calls_only_bind; [apply calls_only_updateInstance|intros _].
      apply calls_only_bind; [|intros; apply calls_only_ret].
      by apply calls_only_sendAutoCleanupFollowUp.
    + calls_only_auto.
Qed.

(** Past the ceiling a tick only reports the timeout. *)
Lemma destruction_pollStatus_timeout world env instanceId startTime attempts s :
  (clock s - startTime > 15 * 60 * 1000)%Z ->
  exists o s',
    startInstanceDestructionPolling_pollStatus world env instanceId startTime
      attempts s = (o, s') /\
    o <> Resolved (Again 10000) /\
    instances s' = instances s /\
    (discord_reply world (history s) = Resolved tt ->
     o = Resolved Stop /\
     history s' = (history s ++ [FollowUp DestructionTimeout])%list).
Proof.
  intros Hc. unfold startInstanceDestructionPolling_pollStatus.
  cbn [bind Date_now].
  destruct (Z.gtb_spec (clock s - startTime) (15 * 60 * 1000)); [|lia].
  cbn [bind]. rewrite sendAutoCleanupFollowUp_eq.
  destruct (discord_reply world (history s)) as [[]|e]; cbn [bind ret];
    eexists _, _; (split; [reflexivity|]); repeat split; try done.
Qed.

(** The timer chain of the destruction poller ends: no more than 91 ticks
    fit under the 15-minute ceiling. *)
Lemma destruction_chain_ends world env instanceId startTime fuel attempts delay s :
  (0 <= delay)%Z ->
  (15 * 60 * 1000 - (clock s + delay - startTime) < 10000 * (Z.of_nat fuel - 1))%Z ->
  (0 < fuel)%nat ->
  fst (poll_chain world fuel
         (startInstanceDestructionPolling_pollStatus world env instanceId startTime)
         attempts delay s) <> Resolved None.
Proof.
  revert attempts delay s. induction fuel as [|fuel IH]; intros attempts delay s Hd Hq Hf;
    [lia|].
  cbn [poll_chain bind]. rewrite await_eq. cbn [bind].
  set (s0 := after world (SetTimeoutPollStatus delay) delay s).
  assert (Hs0 : (clock s + delay <= clock s0)%Z) by (subst s0; simpl; lia).
  destruct (calls_only_destruction_pollStatus world env instanceId startTime
              (attempts + 1) s0) as (tr & _ & _ & Hclock).
  pose proof (destruction_pollStatus_again world env instanceId startTime
                (attempts + 1) s0) as Hms.
  destruct (Z_gt_le_dec (clock s0 - startTime) (15 * 60 * 1000)) as [Hover|Hunder].
  - destruct (destruction_pollStatus_timeout world env instanceId startTime
                (attempts + 1) s0 Hover) as (o & s' & Heq & Hno & _).
    rewrite Heq in *. cbn [fst] in *.
    destruct o as [[|ms]|e]; cbn [fst]; try discriminate.
    specialize (Hms ms eq_refl). subst ms. by destruct Hno.
  - destruct (startInstanceDestructionPolling_pollStatus world env instanceId
                startTime (attempts + 1) s0) as [[[|ms]|e] s1];
      cbn [fst snd] in *; try discriminate.
    specialize (Hms ms eq_refl). subst ms.
    apply IH; lia.
Qed.


(** A tick in which the lookup fails with 404 or 403. *)
Lemma destruction_pollStatus_gone world env instanceId startTime attempts s e s1 :
  (clock s - startTime <= 15 * 60 * 1000)%Z ->
  getInstance world env instanceId s = (Rejected e, s1) ->
  status_eq e 404 || status_eq e 403 = true ->
  let result :=
    startInstanceDestructionPolling_pollStatus world env instanceId startTime
      attempts s in
  instances (snd result) = marked_destroyed (clock s1) instanceId (instances s) /\
  (forall ms, fst result <> Resolved (Again ms)) /\
  (discord_reply world (history s1) = Resolved tt ->
   fst result = Resolved Stop /\
   history (snd result) = (history s1 ++ [FollowUp Destroyed])%list /\
   (clock s1 <= clock (snd result))%Z).
Proof.
  intros Hc Hget Hgone result. subst result.
  pose proof (getInstance_instances world env instanceId s) as Hinst.
  rewrite Hget in Hinst. simpl in Hinst.
  unfold startInstanceDestructionPolling_pollStatus.
  cbn [bind Date_now].
  destruct (Z.gtb_spec (clock s - startTime) (15 * 60 * 1000)); [lia|].
  cbn [bind try_catch]. rewrite Hget, Hgone.
  unfold marked_destroyed. rewrite <- Hinst.
  repeat poll_step; exec_state; repeat split; try done; try lia.
Qed.

(** A tick in which the instance still exists: the delete is issued again
    and its failure is swallowed. *)
Lemma destruction_pollStatus_busy world env instanceId startTime attempts s vi s1 :
  (clock s - startTime <= 15 * 60 * 1000)%Z ->
  getInstance world env instanceId s = (Resolved (Some vi), s1) ->
  (forall h, discord_reply world h = Resolved tt) ->
  let result :=
    startInstanceDestructionPolling_pollStatus world env instanceId startTime
      attempts s in
  fst result = Resolved (Again 10000) /\
  instances (snd result) = instances s /\
  (clock s1 <= clock (snd result))%Z /\
  (forall e, deleteInstance_reply world (history s1) instanceId = Rejected e ->
             status_eq e 400 = true ->
             snd result
             = after world (FollowUp (Destroying attempts
                                        ((clock s - startTime) / 60000))) 0
                     (after world (DeleteInstance instanceId) 0 s1)).
Proof.
  intros Hc Hget Hdiscord result. subst result.
  pose proof (getInstance_instances world env instanceId s) as Hinst.
  rewrite Hget in Hinst. simpl in Hinst.
  unfold startInstanceDestructionPolling_pollStatus.
  cbn [bind Date_now].
  destruct (Z.gtb_spec (clock s - startTime) (15 * 60 * 1000)); [lia|].
  cbn [bind try_catch]. rewrite Hget.
  cbn [bind try_catch]. rewrite await_eq.
  destruct (deleteInstance_reply world (history s1) instanceId) as [[]|err];
    cbn [bind try_catch ret].
  - rewrite sendAutoCleanupFollowUp_eq, Hdiscord.
    cbn [bind ret fst snd]. exec_state. repeat split; try done; try lia.
  - destruct (status_eq err 400) eqn:H400; cbn [negb ret bind]; rewrite ?emit_eq;
      cbn [bind ret]; rewrite sendAutoCleanupFollowUp_eq, Hdiscord;
      cbn [bind ret fst snd]; exec_state; repeat split; try done; try lia.
    intros e [= <-] H4. congruence.
Qed.

Lemma Forall_not_a_delete_In tr id :
  Forall not_a_delete tr -> ~ In (DeleteInstance id) tr.
Proof.
  intros H Hin. rewrite List.Forall_forall in H. exact (H _ Hin).
Qed.

Lemma app_first_occurrence {A} (x : A) l1 l2 l1' l2' :
  ~ In x l1 -> ~ In x l2 ->
  (l1 ++ x :: l2 = l1' ++ x :: l2')%list -> l1 = l1' /\ l2 = l2'.
Proof.
  revert l1'. induction l1 as [|a l1 IH]; intros [|a' l1'] H1 H2 Heq;
    simpl in *.
  - by injection Heq as ->.
  - injection Heq as <- ->. destruct H2. rewrite in_app_iff. right. by left.
  - injection Heq as -> _. destruct H1. by left.
  - injection Heq as <- Heq.
    destruct (IH l1') as [-> ->]; auto.
Qed.

(** The calls of one tick: none of them is a delete, or the lookup has
    found the instance and exactly one delete follows it. *)
Lemma destruction_pollStatus_trace world env instanceId startTime attempts s :
  (forall h, discord_reply world h = Resolved tt) ->
  let result :=
    startInstanceDestructionPolling_pollStatus world env instanceId startTime
      attempts s in
  (exists tr,
     history (snd result) = (history s ++ tr)%list /\ Forall not_a_delete tr) \/
  (exists vi s1 tr0 rest,
     (clock s - startTime <= 15 * 60 * 1000)%Z /\
     getInstance world env instanceId s = (Resolved (Some vi), s1) /\
     history s1 = (history s ++ tr0)%list /\
     Forall not_a_delete tr0 /\
     history (snd result)
     = (history s1 ++ DeleteInstance instanceId :: rest)%list /\
     Forall not_a_delete rest).
Proof.
  intros Hdiscord result. subst result.
  unfold startInstanceDestructionPolling_pollStatus.
  cbn [bind Date_now].
  destruct (Z.gtb_spec (clock s - startTime) (15 * 60 * 1000)) as [Hover|Hunder].
  { left. cbn [bind]. rewrite sendAutoCleanupFollowUp_eq, Hdiscord.
    cbn [bind ret snd]. exec_state. eexists. split; [reflexivity|].
    by repeat constructor. }
  cbn [bind try_catch].
  destruct (calls_only_getInstance not_a_delete world env instanceId I I I s)
    as (tr0 & Htr0 & Hnd & _).
  destruct (getInstance world env instanceId s) as [[[vi|]|e] s1] eqn:Hget;
    cbn [snd] in Htr0.
  - right. exists vi, s1, tr0.
    cbn [bind try_catch]. rewrite await_eq.
    destruct (deleteInstance_reply world (history s1) instanceId) as [[]|err];
      cbn [bind try_catch ret].
    + rewrite sendAutoCleanupFollowUp_eq, Hdiscord. cbn [bind ret snd]. exec_state.
      eexists. split; [lia|]. split; [reflexivity|]. split; [exact Htr0|].
      split; [exact Hnd|].
      split; [rewrite <- ?app_assoc; reflexivity|by repeat constructor].
    + destruct (status_eq err 400); cbn [negb ret bind]; rewrite ?emit_eq;
        cbn [bind ret]; rewrite sendAutoCleanupFollowUp_eq, Hdiscord;
        cbn [bind ret snd]; exec_state;
        (eexists; split; [lia|]; split; [reflexivity|]; split; [exact Htr0|];
         split; [exact Hnd|];
         split; [rewrite <- ?app_assoc; reflexivity|by repeat constructor]).
  - left. cbn [bind try_catch]. rewrite (updateInstance_eq instanceId (VStr "destroyed") _ s1). cbn [bind].
    rewrite sendAutoCleanupFollowUp_eq. cbn [history]. rewrite Hdiscord.
    cbn [bind ret snd]. exec_state. rewrite Htr0, <- app_assoc.
    eexists. split; [reflexivity|].
    apply Forall_app. split; [done|by repeat constructor].
  - left. cbn [bind try_catch].
    destruct (status_eq e 404 || status_eq e 403); cbn [bind].
    + rewrite (updateInstance_eq instanceId (VStr "destroyed") _ s1). cbn [bind].
      rewrite sendAutoCleanupFollowUp_eq. cbn [history]. rewrite Hdiscord.
      cbn [bind ret snd]. exec_state. rewrite Htr0, <- app_assoc.
      eexists. split; [reflexivity|].
      apply Forall_app. split; [done|by repeat constructor].
    + rewrite emit_eq. cbn [bind ret snd]. exec_state. rewrite Htr0, <- app_assoc.
      eexists. split; [reflexivity|].
      apply Forall_app. split; [done|by repeat constructor].
Qed.

(** A tick in which a delete is sent and refused with 400: the lookup has
    found the instance, the refusal is swallowed and the next tick is
    scheduled. *)
Lemma destruction_pollStatus_refused world env instanceId startTime attempts s :
  (forall h, discord_reply world h = Resolved tt) ->
  let result :=
    startInstanceDestructionPolling_pollStatus world env instanceId startTime
      attempts s in
  delete_refused world instanceId 400 s (snd result) ->
  fst result = Resolved (Again 10000) /\
  instances (snd result) = instances s /\
  exists tr,
    history (snd result) = (history s ++ tr)%list /\
    deletes tr = [DeleteInstance instanceId].
Proof.
  intros Hdiscord result (tr0' & tr' & e & Hhist & Hreply & H400).
  destruct (destruction_pollStatus_trace world env instanceId startTime attempts s
              Hdiscord)
    as [(tr & Htr & Hnd)|(vi & s1 & tr0 & rest & Hc & Hget & Hs1 & Hnd0 & Htr & Hnd)];
    fold result in Htr.
  - exfalso. rewrite Htr, <- app_assoc in Hhist.
    apply app_inv_head in Hhist. subst tr.
    apply (Forall_not_a_delete_In _ instanceId Hnd).
    rewrite in_app_iff. right. by left.
  - rewrite Htr, Hs1 in Hhist.
    rewrite <- !app_assoc in Hhist. apply app_inv_head in Hhist.
    destruct (app_first_occurrence _ _ _ _ _
                (Forall_not_a_delete_In _ instanceId Hnd0)
                (Forall_not_a_delete_In _ instanceId Hnd) Hhist) as [<- <-].
    rewrite <- Hs1 in Hreply.
    destruct (destruction_pollStatus_busy world env instanceId startTime attempts s
                vi s1 Hc Hget Hdiscord) as (Hres & Hinst & _ & _).
    fold result in Hres, Hinst.
    split; [exact Hres|]. split; [exact Hinst|].
    exists (tr0 ++ DeleteInstance instanceId :: rest)%list.
    split; [by rewrite Htr, Hs1, <- app_assoc|].
    rewrite deletes_app. unfold deletes. cbn [List.filter].
    fold (deletes tr0). fold (deletes rest).
    assert (Hno : forall l, Forall not_a_delete l -> deletes l = []).
    { clear. induction 1 as [|c l Hc _ IH]; [reflexivity|].
      unfold deletes in *. cbn [List.filter]. rewrite IH.
      by destruct c. }
    by rewrite (Hno _ Hnd0), (Hno _ Hnd).
Qed.

(** A tick that begins with a lookup which the provider refuses: the
    ceiling has not been reached, and [getInstance] throws the provider's
    error. *)
Lemma destruction_pollStatus_lookup_refused world env instanceId startTime attempts
    status s :
  let result :=
    startInstanceDestructionPolling_pollStatus world env instanceId startTime
      attempts s in
  lookup_refused world instanceId status s (snd result) ->
  exists e,
    (clock s - startTime <= 15 * 60 * 1000)%Z /\
    response_status e = Some status /\
    getInstance world env instanceId s
    = (Rejected e,
       noted (ConsoleError "Error getting instance:")
             (after world (GetInstance instanceId) 0 s)).
Proof.
  intros result (tr & e & Hhist & Hreply & Hstatus).
  exists e. split; [|split; [exact Hstatus|by apply getInstance_rejected]].
  destruct (Z_gt_le_dec (clock s - startTime) (15 * 60 * 1000)) as [Hover|]; [|done].
  exfalso. subst result.
  unfold startInstanceDestructionPolling_pollStatus in Hhist.
  cbn [bind Date_now] in Hhist.
  destruct (Z.gtb_spec (clock s - startTime) (15 * 60 * 1000)); [|lia].
  cbn [bind] in Hhist. rewrite sendAutoCleanupFollowUp_eq in Hhist.
  destruct (discord_reply world (history s)) as [[]|err];
    cbn [bind ret snd] in Hhist; exec_state;
    rewrite <- ?app_assoc in Hhist; apply app_inv_head in Hhist;
    discriminate.
Qed.

(** Scenario D: the provider refuses the delete of the first two ticks
    with 400 and answers the lookup of the third with 404. *)
Lemma destruction_refused_twice_then_gone world env instanceId s fuel :
  (3 <= fuel)%nat ->
  (forall h, discord_reply world h = Resolved tt) ->
  let pollStatus :=
    startInstanceDestructionPolling_pollStatus world env instanceId (clock s) in
  let s1 := after world (SetTimeoutPollStatus 2000) 2000 s in
  let s2 := after world (SetTimeoutPollStatus 10000) 10000
                  (snd (pollStatus 1%Z s1)) in
  let s3 := after world (SetTimeoutPollStatus 10000) 10000
                  (snd (pollStatus 2%Z s2)) in
  delete_refused world instanceId 400 s1 (snd (pollStatus 1%Z s1)) ->
  delete_refused world instanceId 400 s2 (snd (pollStatus 2%Z s2)) ->
  lookup_refused world instanceId 404 s3 (snd (pollStatus 3%Z s3)) ->
  let result := startInstanceDestructionPolling world env fuel instanceId s in
  fst result = Resolved (Some 3%Z) /\
  (forall r0,
     instanceState.getInstance instanceId (instances s) = Some r0 ->
     recorded_destroyed instanceId (instances (snd result))) /\
  exists tr,
    history (snd result) = (history s ++ tr ++ [FollowUp Destroyed])%list /\
    deletes tr = [DeleteInstance instanceId; DeleteInstance instanceId].
Proof.
  intros Hfuel Hdiscord pollStatus s1 s2 s3 H1 H2 H3 result.
  destruct (destruction_pollStatus_refused world env instanceId (clock s) 1 s1
              Hdiscord H1) as (Hr1 & Hi1 & tr1 & Hh1 & Hd1).
  destruct (destruction_pollStatus_refused world env instanceId (clock s) 2 s2
              Hdiscord H2) as (Hr2 & Hi2 & tr2 & Hh2 & Hd2).
  destruct (destruction_pollStatus_lookup_refused world env instanceId (clock s) 3
              404 s3 H3) as (e & Hc3 & H404 & Hget3).
  assert (He : status_eq e 404 || status_eq e 403 = true)
    by (unfold status_eq; by rewrite H404).
  destruct (destruction_pollStatus_gone world env instanceId (clock s) 3 s3 e _
              Hc3 Hget3 He) as (Hi3 & _ & Hok3).
  destruct (Hok3 (Hdiscord _)) as (Hr3 & Hh3 & _).
  fold pollStatus in Hr1, Hi1, Hh1, Hr2, Hi2, Hh2, Hi3, Hr3, Hh3.
  subst result. destruct fuel as [|[|[|fuel]]]; try lia.
  unfold startInstanceDestructionPolling. cbn [bind Date_now].
  fold pollStatus.
  cbn [poll_chain bind]. rewrite await_eq. cbn [bind]. fold s1.
  change (0 + 1)%Z with 1%Z.
  destruct (pollStatus 1%Z s1) as [o1 sA] eqn:E1. cbn [fst snd] in *. subst o1.
  cbn [poll_chain bind]. rewrite await_eq. cbn [bind]. fold s2.
  change (1 + 1)%Z with 2%Z.
  destruct (pollStatus 2%Z s2) as [o2 sB] eqn:E2. cbn [fst snd] in *. subst o2.
  cbn [poll_chain bind]. rewrite await_eq. cbn [bind]. fold s3.
  change (2 + 1)%Z with 3%Z.
  destruct (pollStatus 3%Z s3) as [o3 sC] eqn:E3. cbn [fst snd] in *. subst o3.
  cbn [ret fst snd].
  split; [reflexivity|]. split.
  - intros r0 Hr0. apply (marked_destroyed_record _ _ _ _ Hi3 r0).
    subst s3 s2 s1. exec_state. by rewrite Hi2, Hi1.
  - rewrite Hh3. subst s3. exec_state. rewrite Hh2. subst s2. exec_state.
    rewrite Hh1. subst s1. exec_state.
    exists (SetTimeoutPollStatus 2000 :: tr1 ++
            SetTimeoutPollStatus 10000 :: tr2 ++
            [SetTimeoutPollStatus 10000; GetInstance instanceId;
             ConsoleError "Error getting instance:"])%list.
    split.
    + repeat rewrite <- app_assoc. cbn [app].
      repeat (rewrite <- app_assoc; cbn [app]). reflexivity.
    + change (SetTimeoutPollStatus 2000 :: tr1 ++
              SetTimeoutPollStatus 10000 :: tr2 ++
              [SetTimeoutPollStatus 10000; GetInstance instanceId;
               ConsoleError "Error getting instance:"])%list
        with ([SetTimeoutPollStatus 2000] ++ tr1 ++
              [SetTimeoutPollStatus 10000] ++ tr2 ++
              [SetTimeoutPollStatus 10000; GetInstance instanceId;
               ConsoleError "Error getting instance:"])%list.
      rewrite !deletes_app, Hd1, Hd2. reflexivity.
Qed.

Lemma destruction_polling_ends world env instanceId fuel s :
  (91 <= fuel)%nat ->
  fst (startInstanceDestructionPolling world env fuel instanceId s)
  <> Resolved None.
Proof.
  intros Hfuel. unfold startInstanceDestructionPolling. cbn [bind Date_now].
  apply destruction_chain_ends; lia.
Qed.

(** C9. The destruction poller. Every rescheduling is 10 seconds away;
    past the 15-minute ceiling a tick does not reschedule and leaves the
    registry alone, so that the timer chain ends within 91 ticks. Within
    the ceiling: when the lookup fails with 404 or 403 the record is marked
    destroyed (a tracked instance then has status ['destroyed'] and no
    timer), nothing is rescheduled and, the confirmation message going
    through, the tick ends normally; when the instance still exists and
    the re-issued delete is rejected with 400, nothing is logged, the
    registry is untouched and the next tick is scheduled. In particular,
    when the delete sent in the first tick and the delete sent in the
    second are refused with 400, and the lookup of the third tick is
    answered with 404, polling stops after three ticks without an error,
    with the record marked destroyed, two deletes sent, and the
    "DESTROYED" message as its last action. *)
Theorem destruction_poll_confirms world env instanceId :
  (forall startTime attempts s ms,
     fst (startInstanceDestructionPolling_pollStatus world env instanceId
            startTime attempts s) = Resolved (Again ms) -> ms = 10000%Z) /\
  (forall startTime attempts s,
     (clock s - startTime > 15 * 60 * 1000)%Z ->
     let result :=
       startInstanceDestructionPolling_pollStatus world env instanceId startTime
         attempts s in
     (forall ms, fst result <> Resolved (Again ms)) /\
     instances (snd result) = instances s) /\
  (forall fuel s,
     (91 <= fuel)%nat ->
     fst (startInstanceDestructionPolling world env fuel instanceId s)
     <> Resolved None) /\
  (forall startTime attempts s e s1,
     (clock s - startTime <= 15 * 60 * 1000)%Z ->
     getInstance world env instanceId s = (Rejected e, s1) ->
     response_status e = Some 404%Z \/ response_status e = Some 403%Z ->
     let result :=
       startInstanceDestructionPolling_pollStatus world env instanceId startTime
         attempts s in
     instances (snd result) = marked_destroyed (clock s1) instanceId (instances s) /\
     (forall r0,
        instanceState.getInstance instanceId (instances s) = Some r0 ->
        recorded_destroyed instanceId (instances (snd result))) /\
     (forall ms, fst result <> Resolved (Again ms)) /\
     (discord_reply world (history s1) = Resolved tt ->
      fst result = Resolved Stop /\
      history (snd result) = (history s1 ++ [FollowUp Destroyed])%list)) /\
  (forall startTime attempts s vi s1 e,
     (clock s - startTime <= 15 * 60 * 1000)%Z ->
     getInstance world env instanceId s = (Resolved (Some vi), s1) ->
     (forall h, discord_reply world h = Resolved tt) ->
     deleteInstance_reply world (history s1) instanceId = Rejected e ->
     response_status e = Some 400%Z ->
     let result :=
       startInstanceDestructionPolling_pollStatus world env instanceId startTime
         attempts s in
     fst result = Resolved (Again 10000) /\
     instances (snd result) = instances s /\
     history (snd result)
     = (history s1 ++
        [DeleteInstance instanceId;
         FollowUp (Destroying attempts ((clock s - startTime) / 60000))])%list) /\
  (forall s fuel,
     (3 <= fuel)%nat ->
     (forall h, discord_reply world h = Resolved tt) ->
     let pollStatus :=
       startInstanceDestructionPolling_pollStatus world env instanceId (clock s) in
     let s1 := after world (SetTimeoutPollStatus 2000) 2000 s in
     let s2 := after world (SetTimeoutPollStatus 10000) 10000
                     (snd (pollStatus 1%Z s1)) in
     let s3 := after world (SetTimeoutPollStatus 10000) 10000
                     (snd (pollStatus 2%Z s2)) in
     delete_refused world instanceId 400 s1 (snd (pollStatus 1%Z s1)) ->
     delete_refused world instanceId 400 s2 (snd (pollStatus 2%Z s2)) ->
     lookup_refused world instanceId 404 s3 (snd (pollStatus 3%Z s3)) ->
     let result := startInstanceDestructionPolling world env fuel instanceId s in
     fst result = Resolved (Some 3%Z) /\
     (forall r0,
        instanceState.getInstance instanceId (instances s) = Some r0 ->
        recorded_destroyed instanceId (instances (snd result))) /\
     exists tr,
       history (snd result) = (history s ++ tr ++ [FollowUp Destroyed])%list /\
       deletes tr = [DeleteInstance instanceId; DeleteInstance instanceId]).
Proof.
  split; [intros; by eapply destruction_pollStatus_again|].
  split.
  { intros startTime attempts s Hc result. subst result.
    destruct (destruction_pollStatus_timeout world env instanceId startTime
                attempts s Hc) as (o & s' & Heq & Hno & Hinst & _).
    rewrite Heq. cbn [fst snd]. split; [|exact Hinst].
    intros ms Hms. subst o.
    pose proof (destruction_pollStatus_again world env instanceId startTime
                  attempts s ms) as H.
    rewrite Heq in H. specialize (H eq_refl). subst ms. by apply Hno. }
  split; [intros; by apply destruction_polling_ends|].
  split.
  { intros startTime attempts s e s1 Hc Hget Hstatus result. subst result.
    assert (Hgone : status_eq e 404 || status_eq e 403 = true).
    { unfold status_eq. destruct Hstatus as [-> | ->]; reflexivity. }
    destruct (destruction_pollStatus_gone world env instanceId startTime attempts
                s e s1 Hc Hget Hgone) as (Hinst & Hno & Hok).
    split; [exact Hinst|].
    split; [by apply marked_destroyed_record with (clock s1)|].
    split; [exact Hno|].
    intros Hd. destruct (Hok Hd) as (? & ? & _). by split. }
  split.
  { intros startTime attempts s vi s1 e Hc Hget Hdiscord Hdel H400 result.
    subst result.
    destruct (destruction_pollStatus_busy world env instanceId startTime attempts
                s vi s1 Hc Hget Hdiscord) as (Hres & Hinst & _ & Hst).
    split; [exact Hres|]. split; [exact Hinst|].
    rewrite (Hst e Hdel); [|unfold status_eq; by rewrite H400].
    exec_state. by rewrite <- app_assoc. }
  intros s fuel Hfuel Hdiscord pollStatus s1 s2 s3 H1 H2 H3.
  by apply destruction_refused_twice_then_gone.
Qed.

(* ===================================================================== *)
(** * The panel-update lock *)
(* ===================================================================== *)

Lemma lock_consistent_step e s s' :
  lock_consistent s -> Panel.step e s = Some s' -> lock_consistent s'.
Proof.
  unfold lock_consistent. destruct s as [inProgress pending r w q n].
  destruct e as [hasInteraction| | |]; simpl.
  - intros Hr [= <-]. unfold Panel.enter. simpl.
    destruct inProgress; [destruct hasInteraction|]; simpl; congruence.
  - destruct w; simpl; [discriminate|]. intros Hr [= <-].
    unfold Panel.resume. simpl. destruct inProgress; simpl; congruence.
  - destruct r; simpl; [discriminate|]. intros Hr [= <-]. simpl.
    destruct inProgress; simpl in *; congruence.
  - destruct q; simpl; [discriminate|]. intros Hr [= <-].
    unfold Panel.enter. simpl. destruct inProgress; simpl; congruence.
Qed.

Lemma lock_consistent_run es s s' :
  lock_consistent s -> Panel.run es s = Some s' -> lock_consistent s'.
Proof.
  revert s. induction es as [|e es IH]; intros s Hs; simpl.
  - by intros [= <-].
  - destruct (Panel.step e s) as [s1|] eqn:He; [|discriminate].
    apply IH. by eapply lock_consistent_step.
Qed.

(** Requests without an interaction that arrive during a render only set
    the pending flag. *)
Lemma run_calls_during_render N pending k :
  Panel.run (repeat (Panel.Call false) N) (Panel.State true pending 1 0 0 k)
  = Some (Panel.State true (match N with O => pending | S _ => true end) 1 0 0 k).
Proof.
  revert pending. induction N as [|N IH]; intros pending; [reflexivity|].
  simpl. unfold Panel.enter. simpl. rewrite IH. by destruct N.
Qed.

(** C3, as stated, does not hold for a request that carries an
    interaction: one such request ([N = 1]) arrives during a render, its
    100 ms wait ends while the render is still in progress, and it is
    skipped. When the render completes nothing is queued and no further
    render has started. *)
Lemma interaction_request_is_dropped :
  exists s,
    Panel.run [Panel.Call true; Panel.Wake; Panel.Finish] (Panel.in_progress 0)
    = Some s /\
    Panel.quiescent s = true /\
    Panel.pendingPanelUpdate s = false /\
    Panel.renders s = 0%nat /\
    Panel.additional_renders 3 [Panel.Call true] = Some 0%nat.
Proof. eexists. repeat split. Qed.

(** A request with an interaction whose wait ends after the render has
    completed starts a render of its own, besides the queued one: two
    requests, one of each kind, can lead to two further renders. *)
Lemma interaction_request_renders_besides_queue :
  exists s,
    Panel.run [Panel.Call true; Panel.Call false; Panel.Finish; Panel.Wake;
               Panel.Fire; Panel.Finish; Panel.Fire; Panel.Finish]
              (Panel.in_progress 0)
    = Some s /\
    Panel.quiescent s = true /\
    Panel.renders s = 2%nat.
Proof. eexists. repeat split. Qed.

(** C3 (amended). For every N >= 1, if N requests without an interaction
    (the timer-driven [updatePanel()] calls) arrive while a render is in
    progress, exactly one more render runs after it, and then nothing is
    left under way; whatever the calls and their interleaving, at most
    one render runs at a time; and a request with an interaction that
    arrives during a render and whose 100 ms wait ends during it leaves
    the state as it was (it is skipped, not queued). *)
Theorem panel_updates_coalesce :
  (forall N fuel,
     (1 <= N)%nat -> (3 <= fuel)%nat ->
     Panel.additional_renders fuel (repeat (Panel.Call false) N) = Some 1%nat) /\
  (forall es s,
     Panel.run es Panel.initial = Some s -> (Panel.rendering s <= 1)%nat) /\
  (forall s,
     Panel.panelUpdateInProgress s = true ->
     Panel.run [Panel.Call true; Panel.Wake] s = Some s).
Proof.
  split; [|split].
  - intros N fuel HN Hfuel. unfold Panel.additional_renders, Panel.in_progress.
    rewrite run_calls_during_render.
    destruct N as [|N]; [lia|].
    destruct fuel as [|[|[|fuel]]]; try lia. destruct fuel; reflexivity.
  - intros es s Hrun.
    assert (H : lock_consistent s).
    { eapply lock_consistent_run; [|exact Hrun]. reflexivity. }
    unfold lock_consistent in H. destruct (Panel.panelUpdateInProgress s); lia.
  - intros [inProgress pending r w q n]. simpl. intros ->.
    unfold Panel.enter, Panel.resume. simpl. reflexivity.
Qed.

(* ===================================================================== *)
(** * The theorems at work on the sample worlds *)
(* ===================================================================== *)

(** Scenario B: the provider never reports the firewall group. *)
Lemma firewall_failure_destroys_instance_witness :
  let i := Sample.server "pending" "stopped" "0.0.0.0" None in
  let world := Sample.world_reporting i in
  let result :=
    createInstanceFromSnapshot world Sample.env Sample.snapshot "Test" "dfw"
                               Sample.start in
  exists e tr,
    fst result = Rejected e /\
    includes "SECURITY FAILURE" (message e) = true /\
    history (snd result) = (history Sample.start ++ tr)%list /\
    deletes tr = [DeleteInstance "i-1"].
Proof.
  intros i world result.
  destruct (firewall_failure_destroys_instance world Sample.env Sample.snapshot
              "Test" "dfw" Sample.start i Sample.firewall
              (snd (create_validated world Sample.env Sample.snapshot "Test" "dfw"
                      Sample.start))
              (snd (firewall_loop world (Z.to_nat maxRetries) "i-1" Sample.firewall
                      false 0
                      (snd (create_validated world Sample.env Sample.snapshot "Test"
                              "dfw" Sample.start)))))
    as (e & tr & He & _ & Hinc & Hh & _ & Hd & _).
  - vm_compute. reflexivity.
  - vm_compute. reflexivity.
  - exists e, tr. repeat split; assumption.
Defined.



(** Two timer-driven requests during a render: one more render. *)
Lemma panel_updates_coalesce_witness :
  Panel.additional_renders 3 [Panel.Call false; Panel.Call false] = Some 1%nat.
Proof.
  apply (proj1 panel_updates_coalesce 2%nat 3%nat); lia.
Defined.

(** Scenario A, the tick that finds the server ready. *)
Lemma status_poll_ready_iff_witness :
  let i := Sample.server "active" "running" "203.0.113.7" (Some Sample.firewall) in
  let world := Sample.world_reporting i in
  let result :=
    startInstanceStatusPolling_pollStatus world Sample.env "i-1" true 0
                                          Sample.start in
  exists tr,
    history (snd result)
    = (history (snd (getInstance world Sample.env "i-1" Sample.start)) ++ tr)%list /\
    ((exists ip mins, In (FollowUp (ServerReady ip mins)) tr) <-> ready_conditions i).
Proof.
  intros i world result.
  destruct (status_poll_ready_iff world Sample.env "i-1" true 0 Sample.start i
              (snd (getInstance world Sample.env "i-1" Sample.start)))
    as (tr & Hh & Hiff & _).
  - vm_compute. discriminate.
  - reflexivity.
  - exists tr. split; assumption.
Defined.

(** A tick that finds the server active and stopped. *)
Lemma status_poll_restoring_never_starts_witness :
  let i := Sample.server "active" "stopped" "203.0.113.7" (Some Sample.firewall) in
  let world := Sample.world_reporting i in
  let result :=
    startInstanceStatusPolling_pollStatus world Sample.env "i-1" true 0
                                          Sample.start in
  fst result = Resolved (Again 45000) /\
  exists tr,
    history (snd result) = (history Sample.start ++ tr)%list /\
    forall id, ~ In (StartInstance id) tr.
Proof.
  intros i world result.
  destruct (status_poll_restoring_never_starts world Sample.env "i-1" true 0
              Sample.start i
              (snd (getInstance world Sample.env "i-1" Sample.start)))
    as ((tr & Hh & _ & Hno) & _ & Hagain).
  - vm_compute. discriminate.
  - reflexivity.
  - reflexivity.
  - reflexivity.
  - split; [apply Hagain; vm_compute; reflexivity|].
    exists tr. split; assumption.
Defined.

(** A second initialization, four seconds into the timer. *)
Lemma initializeSelfDestructTimer_existing_timer_witness :
  initializeSelfDestructTimer Sample.env "i-1" (Sample.running 5000)
  = (Resolved tt, Sample.running 5000).
Proof.
  apply (initializeSelfDestructTimer_existing_timer Sample.env "i-1"
           (Sample.running 5000) Sample.tracked_with_timer Sample.sample_timer);
    reflexivity.
Defined.

(** A coin for the tracked server, and one for a server nobody tracks. *)
Lemma insert_coin_extends_timer_witness :
  let world := Sample.world_reporting
                 (Sample.server "active" "running" "203.0.113.7"
                                (Some Sample.firewall)) in
  coin_inserted Sample.env "i-1" Sample.sample_timer
    (instances (snd (coin_button world Sample.env "i-1" (Sample.running 500)))) /\
  instances (snd (insert_coin_server world Sample.env "i-2" (Sample.running 500)))
  = instances (Sample.running 500).
Proof.
  intros world.
  destruct (insert_coin_extends_timer world Sample.env "i-1" (Sample.running 500))
    as [Hcoin _].
  destruct (insert_coin_extends_timer world Sample.env "i-2" (Sample.running 500))
    as [_ Hnone].
  split.
  - apply (Hcoin Sample.tracked_with_timer Sample.sample_timer); reflexivity.
  - apply Hnone. reflexivity.
Defined.

(** Scenario D. *)
Lemma destruction_poll_confirms_witness :
  let result :=
    startInstanceDestructionPolling Sample.world_busy_then_gone Sample.env 3 "i-1"
                                    (Sample.running 0) in
  fst result = Resolved (Some 3%Z) /\
  recorded_destroyed "i-1" (instances (snd result)).
Proof.
  intros result.
  destruct (destruction_poll_confirms Sample.world_busy_then_gone Sample.env "i-1")
    as (_ & _ & _ & _ & _ & Hscenario).
  destruct (Hscenario (Sample.running 0) 3%nat) as (Hres & Hmarked & _).
  - lia.
  - reflexivity.
  - exists [GetInstance "i-1"], [FollowUp (Destroying 1 0)],
      (JsError "Bad Request" (Some 400%Z) None).
    split; [vm_compute; reflexivity|]. split; vm_compute; reflexivity.
  - exists [GetInstance "i-1"], [FollowUp (Destroying 2 0)],
      (JsError "Bad Request" (Some 400%Z) None).
    split; [vm_compute; reflexivity|]. split; vm_compute; reflexivity.
  - exists [ConsoleError "Error getting instance:"; FollowUp Destroyed],
      (JsError "Not Found" (Some 404%Z) None).
    split; [vm_compute; reflexivity|]. split; vm_compute; reflexivity.
  - split; [exact Hres|].
    apply (Hmarked Sample.tracked_with_timer). vm_compute. reflexivity.
Defined.

(** The bot's own host, excluded by id: not returned and not listed. *)

(* ===================================================================== *)
(** * The registry: lookups and distinct ids *)
(* ===================================================================== *)
Lemma has_id_id_of instanceId (r : record) :
  has_id instanceId r = true -> id_of r = instanceId /\ has_string_id r.
Proof.
  unfold has_id, id_of, prop, has_string_id.
  destruct (r !! "id") as [[]|] eqn:E; try discriminate.
  intros H%String.eqb_eq. simpl. split; [done|eauto].
Qed.

Lemma has_string_id_has_id instanceId (r : record) :
  has_string_id r -> has_id instanceId r = bool_decide (id_of r = instanceId).
Proof.
  intros [x Hx]. unfold has_id, id_of, prop. rewrite Hx. simpl.
  destruct (String.eqb_spec x instanceId) as [->|Hne]; symmetry;
    [by apply bool_decide_eq_true_2|by apply bool_decide_eq_false_2].
Qed.

Lemma find_None_findIndex {A} (p : A -> bool) l :
  find p l = None -> findIndex p l = None /\ Forall (fun x => p x = false) l.
Proof.
  induction l as [|a l IH]; simpl; [by auto|].
  destruct (p a) eqn:Hp; [discriminate|].
  intros H. destruct (IH H) as [-> HF]. simpl. auto.
Qed.

Lemma findIndex_None_Forall {A} (p : A -> bool) l :
  findIndex p l = None -> Forall (fun x => p x = false) l.
Proof.
  intros H. apply find_None_findIndex. by apply findIndex_None.
Qed.

Lemma find_app_miss {A} (p : A -> bool) l x :
  p x = false -> find p (l ++ [x]) = find p l.
Proof.
  intros Hx. induction l as [|a l IH]; simpl; [by rewrite Hx|].
  by destruct (p a).
Qed.

Lemma find_app_hit {A} (p : A -> bool) l x :
  find p l = None -> p x = true -> find p (l ++ [x]) = Some x.
Proof.
  intros Hl Hx. induction l as [|a l IH]; simpl in *; [by rewrite Hx|].
  destruct (p a); [discriminate|auto].
Qed.

Lemma instanceData_has_id now instanceId userId username status metadata :
  has_id instanceId
    (instanceState.instanceData now instanceId userId username status metadata)
  = true.
Proof.
  unfold has_id, instanceState.instanceData. rewrite lookup_insert_eq.
  apply String.eqb_refl.
Qed.

Lemma instanceData_has_id_other now instanceId userId username status metadata other :
  other <> instanceId ->
  has_id other
    (instanceState.instanceData now instanceId userId username status metadata)
  = false.
Proof.
  intros Hne. unfold has_id, instanceState.instanceData. rewrite lookup_insert_eq.
  apply String.eqb_neq. congruence.
Qed.

(** X1. [trackInstance] on an id that is not tracked yet pushes the new
    record at the end of the registry: [getInstance] finds it from then
    on, under the creator given and with no timer, and the lookup of every
    other id is as before. *)
Theorem trackInstance_new_instance now instanceId userId username status
    (metadata : record) (instances : list record) :
  instanceState.getInstance instanceId instances = None ->
  let data :=
    instanceState.instanceData now instanceId userId username status metadata in
  instanceState.trackInstance now instanceId userId username status metadata
                              instances
  = (data, (instances ++ [data])%list) /\
  instanceState.getInstance instanceId (instances ++ [data]) = Some data /\
  (forall other, other <> instanceId ->
     instanceState.getInstance other (instances ++ [data])
     = instanceState.getInstance other instances) /\
  creator_id data = Some userId /\
  timer_of data = None.
Proof.
  intros Hnone data. unfold instanceState.getInstance in *.
  destruct (find_None_findIndex _ _ Hnone) as [Hidx _].
  split; [|split; [|split; [|split]]].
  - unfold instanceState.trackInstance. by rewrite Hidx.
  - apply find_app_hit; [done|apply instanceData_has_id].
  - intros other Hne. apply find_app_miss. by apply instanceData_has_id_other.
  - reflexivity.
  - reflexivity.
Qed.

Lemma trackInstance_new_instance_witness :
  instanceState.getInstance "i-1"
    (snd (instanceState.trackInstance 5 "i-1" "42" "alice" VUndefined ∅ []))
  = Some (instanceState.instanceData 5 "i-1" "42" "alice" VUndefined ∅).
Proof.
  destruct (trackInstance_new_instance 5 "i-1" "42" "alice" VUndefined ∅ []
              eq_refl) as (-> & H & _).
  exact H.
Defined.

Lemma id_of_spread_data (old : record) now instanceId userId username status metadata :
  id_of (spread old (instanceState.instanceData now instanceId userId username
                       status metadata)) = instanceId /\
  has_string_id (spread old (instanceState.instanceData now instanceId userId
                               username status metadata)).
Proof.
  apply has_id_id_of. unfold has_id. rewrite lookup_spread.
  unfold instanceState.instanceData. rewrite lookup_insert_eq.
  apply String.eqb_refl.
Qed.

Lemma update_keeps_id (old metadata : record) status now :
  metadata !! "id" = None ->
  spread (<["lastUpdated" := VDate now]> (<["status" := status]> old)) metadata
    !! "id" = old !! "id".
Proof.
  intros Hm. rewrite lookup_spread, Hm.
  by rewrite !lookup_insert_ne.
Qed.

Lemma distinct_ids_insert (instances : list record) idx (old new : record) :
  instances !! idx = Some old ->
  id_of new = id_of old ->
  has_string_id new ->
  distinct_ids instances ->
  distinct_ids (<[idx := new]> instances).
Proof.
  intros Hold Hid Hnew [HF HN]. split.
  - apply Forall_insert; auto.
  - rewrite list_fmap_insert, Hid.
    rewrite list_insert_id; [done|]. by rewrite list_lookup_fmap, Hold.
Qed.

(** X2. The registry never holds two records for one instance id: a
    registry whose records have distinct string ids stays so under
    [trackInstance], and under [updateInstance] with metadata that does
    not set [id] (every caller passes [ip], [name], [region] or
    [selfDestructTimer] only). *)
Theorem registry_ids_stay_distinct now instanceId userId username status
    (metadata : record) (instances : list record) :
  distinct_ids instances ->
  distinct_ids
    (snd (instanceState.trackInstance now instanceId userId username status
            metadata instances)) /\
  (metadata !! "id" = None ->
   distinct_ids
     (snd (instanceState.updateInstance now instanceId status metadata
             instances))).
Proof.
  intros Hd. split.
  - unfold instanceState.trackInstance.
    destruct (findIndex (has_id instanceId) instances) as [idx|] eqn:Hidx; simpl.
    + destruct (findIndex_Some _ _ _ Hidx) as (old & Hold & Hp & _).
      rewrite Hold. simpl.
      destruct (has_id_id_of _ _ Hp) as [Hid _].
      destruct (id_of_spread_data old now instanceId userId username status
                  metadata) as [Hid' Hs].
      eapply distinct_ids_insert; eauto. congruence.
    + destruct Hd as [HF HN].
      pose proof (findIndex_None_Forall _ _ Hidx) as Hmiss.
      pose proof (has_id_id_of _ _
                    (instanceData_has_id now instanceId userId username status
                       metadata)) as [Hid Hs].
      split.
      * apply Forall_app. split; [done|]. by constructor.
      * rewrite fmap_app. simpl. apply NoDup_app. split; [done|]. split.
        -- intros x Hx Hx'. apply list_elem_of_singleton in Hx'. subst x.
           apply list_elem_of_fmap in Hx as (r & Hr & Hin).
           rewrite Forall_forall in HF, Hmiss.
           specialize (HF r Hin). specialize (Hmiss r Hin).
           rewrite (has_string_id_has_id instanceId r HF) in Hmiss.
           apply bool_decide_eq_false in Hmiss. congruence.
        -- apply NoDup_singleton.
  - intros Hm. unfold instanceState.updateInstance.
    destruct (findIndex (has_id instanceId) instances) as [idx|] eqn:Hidx; simpl;
      [|done].
    destruct (findIndex_Some _ _ _ Hidx) as (old & Hold & Hp & _).
    rewrite Hold. simpl.
    pose proof (update_keeps_id old metadata status now Hm) as Hk.
    destruct (has_id_id_of _ _ Hp) as [Hid [x Hx]].
    eapply distinct_ids_insert; eauto.
    + unfold id_of, prop. by rewrite Hk.
    + exists x. by rewrite Hk.
Qed.

Lemma registry_ids_stay_distinct_witness :
  distinct_ids
    (snd (instanceState.trackInstance 7 "i-2" "43" "bob" (VStr "running") ∅
            [Sample.tracked])).
Proof.
  apply (registry_ids_stay_distinct 7 "i-2" "43" "bob" (VStr "running") ∅
           [Sample.tracked]).
  split.
  - constructor; [|constructor]. exists "i-1". reflexivity.
  - apply NoDup_singleton.
Defined.

(** X3. After [updateInstance(id, 'destroyed', { selfDestructTimer: null })]
    on a registry with distinct ids, [getActiveInstances()] holds no record
    of that id any more, and exactly the records of the other ids that it
    held before: the timer sweep and the list sync will not visit the
    instance again. *)
Theorem destroyed_leaves_active_list now instanceId (instances : list record) :
  distinct_ids instances ->
  let instances' := marked_destroyed now instanceId instances in
  (forall r, In r (instanceState.getActiveInstances instances') ->
             id_of r <> instanceId) /\
  (forall r, id_of r <> instanceId ->
             (In r (instanceState.getActiveInstances instances') <->
              In r (instanceState.getActiveInstances instances))).
Proof.
  intros [HF HN] instances'. subst instances'.
  unfold marked_destroyed, instanceState.updateInstance.
  destruct (findIndex (has_id instanceId) instances) as [idx|] eqn:Hidx; simpl.
  - destruct (findIndex_Some _ _ _ Hidx) as (old & Hold & Hp & _).
    rewrite Hold. simpl.
    destruct (has_id_id_of _ _ Hp) as [Hid _].
    set (new := spread _ _).
    assert (Hnew : status_is "destroyed" new = true).
    { unfold status_is, new. rewrite lookup_spread.
      rewrite lookup_singleton_ne by done.
      rewrite lookup_insert_ne by done. by rewrite lookup_insert_eq. }
    assert (Hother : forall j r, instances !! j = Some r -> j <> idx ->
                                 id_of r <> instanceId).
    { intros j r Hj Hne Heq. apply Hne.
      apply (NoDup_lookup _ j idx instanceId HN);
        rewrite list_lookup_fmap; [rewrite Hj|rewrite Hold]; simpl; congruence. }
    unfold instanceState.getActiveInstances. split.
    + intros r Hr. apply filter_In in Hr as [Hin Hact].
      apply list_elem_of_In, list_elem_of_lookup in Hin as [j Hj].
      destruct (decide (j = idx)) as [->|Hne].
      * rewrite list_lookup_insert_eq in Hj
          by (by apply lookup_lt_Some in Hold).
        injection Hj as <-. rewrite Hnew in Hact.
        rewrite andb_false_r in Hact. discriminate.
      * rewrite list_lookup_insert_ne in Hj by done. eauto.
    + intros r Hr. rewrite !filter_In.
      assert (In r (<[idx := new]> instances) <-> In r instances) as ->; [|done].
      rewrite <- !list_elem_of_In, !list_elem_of_lookup. split; intros [j Hj].
      * destruct (decide (j = idx)) as [->|Hne].
        -- rewrite list_lookup_insert_eq in Hj
             by (by apply lookup_lt_Some in Hold).
           injection Hj as <-. exfalso. apply Hr.
           destruct (has_id_id_of instanceId new) as [H _]; [|done].
           unfold new. apply has_id_update; [|done].
           by rewrite lookup_singleton_ne.
        -- rewrite list_lookup_insert_ne in Hj by done. eauto.
      * destruct (decide (j = idx)) as [->|Hne].
        -- exfalso. apply Hr. rewrite Hold in Hj. by injection Hj as <-.
        -- exists j. by rewrite list_lookup_insert_ne.
  - pose proof (findIndex_None_Forall _ _ Hidx) as Hmiss.
    split; [|done].
    intros r Hr. unfold instanceState.getActiveInstances in Hr.
    apply filter_In in Hr as [Hin _].
    rewrite Forall_forall in HF, Hmiss.
    apply list_elem_of_In in Hin.
    specialize (HF r Hin). specialize (Hmiss r Hin).
    rewrite (has_string_id_has_id instanceId r HF) in Hmiss.
    by apply bool_decide_eq_false in Hmiss.
Qed.

Lemma destroyed_leaves_active_list_witness :
  distinct_ids [Sample.tracked_with_timer] /\
  (forall r, In r (instanceState.getActiveInstances
                     (marked_destroyed 9 "i-1" [Sample.tracked_with_timer])) ->
             id_of r <> "i-1").
Proof.
  assert (H : distinct_ids [Sample.tracked_with_timer]).
  { split.
    - constructor; [|constructor]. exists "i-1". reflexivity.
    - apply NoDup_singleton. }
  split; [exact H|].
  apply (destroyed_leaves_active_list 9 "i-1" [Sample.tracked_with_timer] H).
Defined.

(* ===================================================================== *)
(** * Remaining time and the snapshot list *)
(* ===================================================================== *)
Lemma padStart_two_digits (n : Z) :
  (0 <= n < 60)%Z -> String.length (padStart 2 (pretty n)) = 2%nat.
Proof.
  intros Hn.
  assert (H : exists k : nat, (k < 60)%nat /\ n = Z.of_nat k).
  { exists (Z.to_nat n). lia. }
  destruct H as (k & Hk & ->). clear Hn.
  do 60 (destruct k as [|k]; [vm_compute; reflexivity|]). lia.
Qed.

(** X4. [formatRemainingTime] shows ["0:00"] once the timer has expired.
    Before that it shows hours, minutes and seconds that add up to the
    whole seconds remaining, minutes and seconds below 60; seconds always
    take two digits, and so do minutes when hours are shown; the hours are
    left out when they are zero. *)
Theorem formatRemainingTime_fields (expiresAt now : Z) :
  ((expiresAt <= now)%Z -> formatRemainingTime expiresAt now = "0:00") /\
  ((now < expiresAt)%Z ->
   exists h m s mm ss,
     (h * 3600 + m * 60 + s = (expiresAt - now) / 1000)%Z /\
     (0 <= h)%Z /\ (0 <= m < 60)%Z /\ (0 <= s < 60)%Z /\
     mm = padStart 2 (pretty m) /\ String.length mm = 2%nat /\
     ss = padStart 2 (pretty s) /\ String.length ss = 2%nat /\
     formatRemainingTime expiresAt now =
       if (0 <? h)%Z then pretty h ++ ":" ++ mm ++ ":" ++ ss
       else pretty m ++ ":" ++ ss).
Proof.
  unfold formatRemainingTime. split; intros H.
  - destruct (Z.leb_spec (expiresAt - now) 0); [done|lia].
  - destruct (Z.leb_spec (expiresAt - now) 0); [lia|].
    set (t := ((expiresAt - now) / 1000)%Z).
    assert (Ht : (0 <= t)%Z) by (apply Z.div_pos; lia).
    assert (Hm : (0 <= t mod 3600 / 60 < 60)%Z).
    { pose proof (Z.mod_pos_bound t 3600 ltac:(lia)).
      split; [apply Z.div_pos; lia|apply Z.div_lt_upper_bound; lia]. }
    assert (Hs : (0 <= t mod 60 < 60)%Z) by (apply Z.mod_pos_bound; lia).
    exists (t / 3600)%Z, (t mod 3600 / 60)%Z, (t mod 60)%Z.
    eexists _, _. repeat split; try reflexivity; try lia.
    + pose proof (Z.div_mod t 3600 ltac:(lia)).
      pose proof (Z.div_mod (t mod 3600) 60 ltac:(lia)).
      assert ((t mod 3600) mod 60 = t mod 60)%Z.
      { apply Z.mod_mod_divide. exists 60%Z. lia. }
      lia.
    + apply Z.div_pos; lia.
    + by apply padStart_two_digits.
    + by apply padStart_two_digits.
    + rewrite Z.gtb_ltb. reflexivity.
Qed.

Lemma insert_newest_first_Permutation x l :
  insert_newest_first x l ≡ₚ x :: l.
Proof.
  induction l as [|y l IH]; simpl; [done|].
  destruct (Vultr.date_created y <=? Vultr.date_created x)%Z; [done|].
  rewrite IH. apply Permutation_swap.
Qed.

Lemma sort_newest_first_Permutation l : sort_newest_first l ≡ₚ l.
Proof.
  induction l as [|x l IH]; simpl; [done|].
  unfold sort_newest_first in *. simpl.
  rewrite insert_newest_first_Permutation. by rewrite IH.
Qed.

Lemma insert_newest_first_sorted x l :
  newest_first l -> newest_first (insert_newest_first x l).
Proof.
  induction l as [|y l IH]; simpl; [by auto|].
  intros [Hy Hl].
  destruct (Z.leb_spec (Vultr.date_created y) (Vultr.date_created x)).
  - simpl. repeat split; [|done|done].
    constructor; [done|].
    eapply Forall_impl; [exact Hy|]. simpl. intros; lia.
  - simpl. split; [|auto].
    rewrite insert_newest_first_Permutation. constructor; [lia|done].
Qed.

Lemma sort_newest_first_sorted l : newest_first (sort_newest_first l).
Proof.
  induction l as [|x l IH]; simpl; [done|].
  by apply insert_newest_first_sorted.
Qed.

(** X5. [getSnapshots] returns the snapshots the provider lists, all of
    them and nothing else, newest first, after this one call. When the
    provider rejects the call the same error is thrown again, after
    [console.error] lines only, and the registry is not touched. *)
Theorem getSnapshots_newest_first world s :
  (forall l,
     listSnapshots_reply world (history s) = Resolved l ->
     exists out,
       getSnapshots world s = (Resolved out, after world ListSnapshots 0 s) /\
       out ≡ₚ l /\ newest_first out) /\
  (forall e,
     listSnapshots_reply world (history s) = Rejected e ->
     exists tr,
       fst (getSnapshots world s) = Rejected e /\
       history (snd (getSnapshots world s))
       = (history s ++ ListSnapshots :: tr)%list /\
       Forall (fun c => exists line, c = ConsoleError line) tr /\
       instances (snd (getSnapshots world s)) = instances s).
Proof.
  split.
  - intros l Hl. exists (sort_newest_first l). split; [|split].
    + unfold getSnapshots. cbn [try_catch bind]. rewrite await_eq, Hl.
      reflexivity.
    + apply sort_newest_first_Permutation.
    + apply sort_newest_first_sorted.
  - intros e He. unfold getSnapshots. cbn [try_catch bind].
    rewrite await_eq, He. run.
    destruct (status_eq e 401); [|destruct (status_eq e 403)]; run;
      cbn [fst snd history noted after instances];
      eexists; (split; [reflexivity|split; [|split; [|reflexivity]]]);
      try (rewrite <- !app_assoc; simpl; reflexivity);
      repeat constructor; eauto.
Qed.

(* ===================================================================== *)
(** * The provisioning pipeline: failing before anything is created *)
(* ===================================================================== *)
Lemma includes_prefix needle hay :
  String.prefix needle hay = true -> includes needle hay = true.
Proof. intros H. destruct hay; cbn [includes]; rewrite H; reflexivity. Qed.

(** X6. [createInstanceFromSnapshot] validates before it calls anyone: with
    [VULTR_FIREWALL_GROUP_ID] unset or empty, with a firewall group id that
    is not a UUID, or with a snapshot id that is not a UUID, it throws the
    matching error unchanged, and all it has done by then is the
    [console.error] of its outer [catch]; the provider has not been
    called. *)
Theorem createInstanceFromSnapshot_validates_first world env snapshotId label
    region s :
  let result := createInstanceFromSnapshot world env snapshotId label region s in
  (or_null (VULTR_FIREWALL_GROUP_ID env) = None ->
   result
   = (Rejected (js_Error "VULTR_FIREWALL_GROUP_ID is required but not set in environment variables. Firewall is mandatory."),
      creation_failed s)) /\
  (forall g,
     or_null (VULTR_FIREWALL_GROUP_ID env) = Some g ->
     uuidRegex_test g = false ->
     result
     = (Rejected (js_Error ("Invalid firewall_group_id format: " ++ dquote ++ g ++
                         dquote ++ ". Expected UUID format (e.g., " ++ dquote ++
                         "1c4c6504-5094-4de1-a0bc-f7e885580921" ++ dquote ++
                         ")")),
        creation_failed s)) /\
  (forall g,
     or_null (VULTR_FIREWALL_GROUP_ID env) = Some g ->
     uuidRegex_test g = true ->
     uuidRegex_test snapshotId = false ->
     result
     = (Rejected (js_Error ("Invalid snapshot_id format: " ++ dquote ++ snapshotId ++
                         dquote ++ ". Expected UUID format.")),
        creation_failed s)).
Proof.
  intros result. subst result.
  unfold createInstanceFromSnapshot, create_validated, creation_failed, js_Error.
  split; [|split].
  - intros ->. run. reflexivity.
  - intros g -> ->. run. cbn [message].
    rewrite (includes_prefix "Invalid") by reflexivity.
    rewrite orb_true_r. reflexivity.
  - intros g -> -> ->. rewrite orb_true_r. run. cbn [message].
    rewrite (includes_prefix "Invalid") by reflexivity.
    rewrite orb_true_r. reflexivity.
Qed.

Lemma createInstanceFromSnapshot_validates_first_witness :
  uuidRegex_test Sample.firewall = true /\
  uuidRegex_test "snapshot-7" = false /\
  createInstanceFromSnapshot (Sample.world_reporting (Sample.server "active" "running" "203.0.113.7" None))
    Sample.env "snapshot-7" "Test" "" Sample.start
  = (Rejected (js_Error ("Invalid snapshot_id format: " ++ dquote ++ "snapshot-7" ++
                      dquote ++ ". Expected UUID format.")),
     creation_failed Sample.start).
Proof.
  split; [reflexivity|]. split; [reflexivity|].
  apply (createInstanceFromSnapshot_validates_first
           (Sample.world_reporting (Sample.server "active" "running" "203.0.113.7" None))
           Sample.env "snapshot-7" "Test" "" Sample.start)
    with (g := Sample.firewall); reflexivity.
Defined.

Lemma existsb_Permutation {A} (p : A -> bool) l l' :
  l ≡ₚ l' -> existsb p l = existsb p l'.
Proof.
  induction 1; simpl; try congruence.
  - destruct (p x), (p y); reflexivity.
Qed.

Lemma getSnapshots_resolved world s l :
  listSnapshots_reply world (history s) = Resolved l ->
  getSnapshots world s = (Resolved (sort_newest_first l), after world ListSnapshots 0 s).
Proof.
  intros Hl. unfold getSnapshots. cbn [try_catch bind]. rewrite await_eq, Hl.
  reflexivity.
Qed.

(** X7. When the provider's list does not hold the snapshot asked for,
    [createInstanceFromSnapshot] throws "Snapshot ... not found. Available
    snapshots: ..." ("none" for an empty list) after the single
    [listSnapshots] call: no instance is created. *)
Theorem createInstanceFromSnapshot_unknown_snapshot world env snapshotId label
    region s g l :
  or_null (VULTR_FIREWALL_GROUP_ID env) = Some g ->
  uuidRegex_test g = true ->
  uuidRegex_test snapshotId = true ->
  listSnapshots_reply world (history s) = Resolved l ->
  (forall snap, In snap l -> Vultr.snapshot_ident snap <> snapshotId) ->
  exists available,
    createInstanceFromSnapshot world env snapshotId label region s
    = (Rejected (js_Error ("Snapshot " ++ snapshotId ++
                        " not found. Available snapshots: " ++ available)),
       creation_failed (after world ListSnapshots 0 s)) /\
    (l = [] -> available = "none").
Proof.
  intros Hg Hgu Hsu Hl Hmiss.
  assert (Hex : existsb (fun snap => String.eqb (Vultr.snapshot_ident snap) snapshotId)
                        (sort_newest_first l) = false).
  { rewrite (existsb_Permutation _ _ _ (sort_newest_first_Permutation l)).
    apply not_true_is_false. intros (snap & Hin & Heq%String.eqb_eq)%existsb_exists.
    by apply (Hmiss snap). }
  eexists. split.
  - unfold createInstanceFromSnapshot, create_validated, creation_failed, js_Error.
    rewrite Hg, Hgu, Hsu.
    assert (Hne : String.eqb snapshotId "" = false).
    { destruct snapshotId; [discriminate Hsu|reflexivity]. }
    rewrite Hne. cbn [negb orb]. cbn [bind try_catch].
    rewrite (getSnapshots_resolved _ _ _ Hl). rewrite Hex.
    run. cbn [message].
    rewrite (includes_prefix "Snapshot") by reflexivity.
    rewrite orb_true_r. reflexivity.
  - intros ->. reflexivity.
Qed.

Lemma createInstanceFromSnapshot_unknown_snapshot_witness :
  exists available,
    createInstanceFromSnapshot
      (Sample.world_reporting (Sample.server "active" "running" "203.0.113.7" None))
      Sample.env "11111111-2222-3333-4444-555555555555" "Test" "" Sample.start
    = (Rejected (js_Error ("Snapshot 11111111-2222-3333-4444-555555555555" ++
                        " not found. Available snapshots: " ++ available)),
       creation_failed
         (after (Sample.world_reporting
                   (Sample.server "active" "running" "203.0.113.7" None))
                ListSnapshots 0 Sample.start)).
Proof.
  destruct (createInstanceFromSnapshot_unknown_snapshot
              (Sample.world_reporting (Sample.server "active" "running" "203.0.113.7" None))
              Sample.env "11111111-2222-3333-4444-555555555555" "Test" ""
              Sample.start Sample.firewall
              [Vultr.Snapshot Sample.snapshot None 0]
              eq_refl eq_refl eq_refl eq_refl) as (available & H & _).
  - intros snap [<-|[]]. discriminate.
  - exists available. exact H.
Defined.

Lemma createInstance_error_message_prefix env apiError snapshotId region :
  String.prefix "Vultr API"
    (createInstance_error_message env apiError snapshotId region) = true.
Proof.
  unfold createInstance_error_message.
  repeat match goal with
         | |- context [if ?b then _ else _] => destruct b
         end; reflexivity.
Qed.

(** X8. When the provider rejects [createInstance], the pipeline throws a
    new error with the classified "Vultr API ..." message (for status 401:
    "authentication failed"), unchanged by the outer [catch]; it has called
    [listSnapshots] and [createInstance] and logged, and has neither
    updated nor deleted anything. *)
Theorem createInstanceFromSnapshot_api_error world env snapshotId label region
    s g l apiError :
  or_null (VULTR_FIREWALL_GROUP_ID env) = Some g ->
  uuidRegex_test g = true ->
  uuidRegex_test snapshotId = true ->
  listSnapshots_reply world (history s) = Resolved l ->
  (exists snap, In snap l /\ Vultr.snapshot_ident snap = snapshotId) ->
  createInstance_reply world (history s ++ [ListSnapshots]) = Rejected apiError ->
  let result := createInstanceFromSnapshot world env snapshotId label region s in
  fst result
  = Rejected (js_Error (createInstance_error_message env apiError snapshotId region)) /\
  history (snd result)
  = (history s ++
     [ListSnapshots;
      CreateInstance snapshotId label (region_or_default env region)
                     (or_string (VULTR_PLAN env) "vc2-1c-1gb")] ++
     api_error_details ++
     [ConsoleError "Error creating instance from snapshot:"])%list /\
  (response_status apiError = Some 401%Z ->
   message (js_Error (createInstance_error_message env apiError snapshotId region))
   = "Vultr API authentication failed (401). Check your VULTR_API_KEY is correct and has proper permissions.").
Proof.
  intros Hg Hgu Hsu Hl (snap & Hin & Hid) Hapi result. subst result.
  assert (Hex : existsb (fun snap => String.eqb (Vultr.snapshot_ident snap) snapshotId)
                        (sort_newest_first l) = true).
  { rewrite (existsb_Permutation _ _ _ (sort_newest_first_Permutation l)).
    apply existsb_exists. exists snap. split; [done|]. by apply String.eqb_eq. }
  assert (Hne : String.eqb snapshotId "" = false).
  { destruct snapshotId; [discriminate Hsu|reflexivity]. }
  unfold createInstanceFromSnapshot, create_validated, js_Error.
  rewrite Hg, Hgu, Hsu, Hne. cbn [negb orb]. cbn [bind try_catch].
  rewrite (getSnapshots_resolved _ _ _ Hl). rewrite Hex.
  cbn [negb bind try_catch]. rewrite await_eq. cbn [history after].
  rewrite Hapi.
  run. cbn [message].
  rewrite (includes_prefix "Vultr API")
    by apply createInstance_error_message_prefix.
  rewrite orb_true_r. cbn [orb]. run. cbn [fst snd history noted after].
  split; [reflexivity|]. split.
  - rewrite <- !app_assoc. reflexivity.
  - intros H401. unfold createInstance_error_message, status_eq.
    rewrite H401.
    rewrite (bool_decide_eq_false_2 (Some 401%Z = Some 400%Z)) by discriminate.
    rewrite (bool_decide_eq_true_2 (Some 401%Z = Some 401%Z)) by reflexivity.
    reflexivity.
Qed.

Lemma createInstanceFromSnapshot_api_error_witness :
  fst (createInstanceFromSnapshot Scenario.world_unauthorized Sample.env
         Sample.snapshot "Test" "" Sample.start)
  = Rejected (js_Error "Vultr API authentication failed (401). Check your VULTR_API_KEY is correct and has proper permissions.").
Proof.
  destruct (createInstanceFromSnapshot_api_error Scenario.world_unauthorized
              Sample.env Sample.snapshot "Test" "" Sample.start
              Sample.firewall [Vultr.Snapshot Sample.snapshot None 0]
              (JsError "Unauthorized" (Some 401%Z) None)
              eq_refl eq_refl eq_refl eq_refl
              (ex_intro _ (Vultr.Snapshot Sample.snapshot None 0)
                        (conj (or_introl eq_refl) eq_refl))
              eq_refl) as (Hfst & _ & Hmsg).
  rewrite Hfst. unfold js_Error in *. cbn [message] in Hmsg.
  rewrite (Hmsg eq_refl). reflexivity.
Defined.

(** The loop never makes more requests than retries are left, and a
    verified attachment takes at least one. *)
Lemma firewall_loop_requests world instanceId firewallGroupId fuel retryCount s :
  (0 <= retryCount)%Z ->
  (retryCount + Z.of_nat fuel = maxRetries)%Z ->
  exists b s' tr n,
    firewall_loop world fuel instanceId firewallGroupId false retryCount s
    = (Resolved b, s') /\
    history s' = (history s ++ tr)%list /\
    deletes tr = [] /\
    firewall_requests tr
    = repeat (UpdateInstance instanceId (firewall_group_id firewallGroupId)) n /\
    (n <= fuel)%nat /\
    (b = true -> (1 <= n)%nat) /\
    (b = false -> n = fuel).
Proof.
  revert retryCount s. induction fuel as [|fuel IH]; intros retryCount s H0 Hsum.
  - simpl. destruct (Z.ltb_spec retryCount maxRetries); [lia|].
    exists false, s, [], 0%nat. rewrite app_nil_r. repeat split; done.
  - cbn [firewall_loop negb andb].
    destruct (Z.ltb_spec retryCount maxRetries); [|lia].
    destruct (firewall_attempt_trace world instanceId firewallGroupId
                (retryCount + 1) s) as (b & s1 & tr1 & Hatt & Hh1 & Hd1 & Hf1).
    cbn [bind]. rewrite Hatt.
    destruct b.
    + rewrite firewall_loop_attached.
      exists true, s1, tr1, 1%nat. repeat split; try done; lia.
    + destruct (IH (retryCount + 1)%Z s1 ltac:(lia) ltac:(lia))
        as (b & s2 & tr2 & n & Hloop & Hh2 & Hd2 & Hf2 & Hn & Ht & Hf).
      exists b, s2, (tr1 ++ tr2)%list, (S n). split; [exact Hloop|].
      split; [by rewrite Hh2, Hh1, app_assoc|].
      split; [by rewrite deletes_app, Hd1, Hd2|].
      split; [by rewrite firewall_requests_app, Hf1, Hf2|].
      split; [lia|]. split; [lia|]. intros Hb. by rewrite (Hf Hb).
Qed.

(** X9. Whatever the outside world answers, one run of
    [createInstanceFromSnapshot] makes at most 10 firewall attachment
    requests and at most one delete. When it returns an instance it has
    deleted nothing, and it has made between 1 and 10 attachment requests,
    all for that instance and the configured firewall group. *)
Theorem createInstanceFromSnapshot_bounded_effects world env snapshotId label
    region s :
  let result := createInstanceFromSnapshot world env snapshotId label region s in
  exists tr,
    history (snd result) = (history s ++ tr)%list /\
    (length (firewall_requests tr) <= 10)%nat /\
    (length (deletes tr) <= 1)%nat /\
    (forall i,
       fst result = Resolved i ->
       deletes tr = [] /\
       exists firewallGroupId n,
         or_null (VULTR_FIREWALL_GROUP_ID env) = Some firewallGroupId /\
         (1 <= n <= 10)%nat /\
         firewall_requests tr
         = repeat (UpdateInstance (Vultr.id i) (firewall_group_id firewallGroupId))
                  n).
Proof.
  intros result. subst result.
  destruct (calls_only_create_validated world env snapshotId label region s)
    as (tr0 & Hh0 & HF0 & _).
  destruct (creation_calls_no_delete tr0 HF0) as [Hd0 Hf0].
  unfold createInstanceFromSnapshot. cbn [bind try_catch].
  destruct (create_validated world env snapshotId label region s)
    as [[[i' fw]|e] s1] eqn:Hcreate; cbn [snd] in Hh0.
  - assert (Hfw : or_null (VULTR_FIREWALL_GROUP_ID env) = Some fw).
    { revert Hcreate. unfold create_validated.
      destruct (or_null (VULTR_FIREWALL_GROUP_ID env)) as [g|];
        [|discriminate].
      destruct (negb (uuidRegex_test g)); [discriminate|].
      destruct (_ || _); [discriminate|].
      cbn [bind].
      destruct (getSnapshots world s) as [[snaps|?] ?]; [|discriminate].
      destruct (negb _); [discriminate|].
      cbn [bind try_catch]. rewrite await_eq.
      destruct (createInstance_reply world _) as [[| |]|]; run;
        try discriminate.
      - destruct (directCreate_reply world _) as [[[[] ?] ?]|]; run; discriminate.
      - destruct (String.eqb _ _); run; [discriminate|]. by intros [= _ ->]. }
    unfold secure_instance. cbn [bind try_catch fst snd].
    destruct (firewall_loop_requests world (Vultr.id i') fw (Z.to_nat maxRetries)
                0 s1 ltac:(lia) ltac:(reflexivity))
      as (b & s2 & tr1 & n & Hloop & Hh1 & Hd1 & Hf1 & Hn & Ht & Hf).
    rewrite Hloop. destruct b.
    + specialize (Ht eq_refl).
      cbn [bind try_catch negb ret]. rewrite await_eq.
      destruct (updateInstance_reply world _ _ _) as [[]|?];
        cbn [bind try_catch ret]; unfold sleep; rewrite ?await_eq;
        cbn [bind try_catch ret]; rewrite ?await_eq;
        try (destruct (getInstance_reply world _ _)); cbn [bind try_catch ret fst snd];
        exec_state; rewrite Hh1, Hh0; eexists;
        (split; [rewrite <- ?app_assoc; reflexivity|]);
        rewrite !firewall_requests_app, !deletes_app, Hd0, Hf0, Hd1, Hf1;
        cbn [app firewall_requests deletes List.filter length];
        rewrite ?app_nil_r, ?repeat_length;
        (split; [change (Z.to_nat maxRetries) with 10%nat in Hn; lia|]);
        (split; [lia|]); intros i [= <-]; (split; [reflexivity|]);
        exists fw, n; (split; [exact Hfw|]);
        (split; [change (Z.to_nat maxRetries) with 10%nat in Hn; lia|reflexivity]).
    + specialize (Hf eq_refl). subst n.
      cbn [bind try_catch negb]. rewrite !emit_eq.
      cbn [bind try_catch]. rewrite await_eq.
      destruct (deleteInstance_reply world _ _) as [[]|err];
        cbn [bind try_catch throw throw_Error ret]; rewrite ?emit_eq;
        cbn [bind try_catch throw throw_Error ret message];
        rewrite security_failure_is_wrapped;
        cbn [bind try_catch throw throw_Error ret fst snd];
        exec_state; rewrite Hh1, Hh0; eexists;
        (split; [rewrite <- ?app_assoc; reflexivity|]);
        rewrite !firewall_requests_app, !deletes_app, Hd0, Hf0, Hd1, Hf1;
        cbn [app firewall_requests deletes List.filter length];
        rewrite ?app_nil_r, ?repeat_length;
        (split; [reflexivity|]); (split; [lia|]); discriminate.
  - cbn [bind try_catch]. rewrite emit_eq. cbn [bind].
    exists (tr0 ++ [ConsoleError "Error creating instance from snapshot:"])%list.
    assert (Hsnd : forall b : bool,
               history (snd ((if b then throw e else throw_Error ("Failed to create instance: " ++ message e) : M Vultr.instance)
                               (noted (ConsoleError "Error creating instance from snapshot:") s1)))
               = (history s ++ tr0 ++ [ConsoleError "Error creating instance from snapshot:"])%list).
    { intros []; cbn [throw throw_Error snd noted history]; rewrite Hh0;
        by rewrite app_assoc. }
    split; [apply Hsnd|].
    rewrite !firewall_requests_app, !deletes_app, Hd0, Hf0. simpl.
    split; [lia|]. split; [lia|].
    intros i. destruct (_ || _); cbn [throw throw_Error fst]; discriminate.
Qed.

(* ===================================================================== *)
(** * Detection of the current server, and the status poller tick by tick *)
(* ===================================================================== *)
(** X10. The current server is detected once. When [isCurrentServer] has
    found an id (the answer of the metadata service, else
    [EXCLUDE_INSTANCE_ID]) it caches it: a later call makes no request and
    answers by that id and [EXCLUDE_INSTANCE_ID]. When it has found none
    (no metadata service and no [EXCLUDE_INSTANCE_ID], or an empty answer),
    nothing usable is cached and the next call asks the metadata service
    again. *)
Theorem isCurrentServer_detects_once world env instanceId other s :
  let s1 := snd (isCurrentServer world env instanceId s) in
  (string_truthy (detected_server world env s) = true ->
   currentServerInstanceId s1 = detected_server world env s /\
   isCurrentServer world env other s1
   = (Resolved (bool_decide (detected_server world env s = Some other)
                || bool_decide (EXCLUDE_INSTANCE_ID env = Some other)),
      s1)) /\
  (string_truthy (detected_server world env s) = false ->
   currentServerInstanceId s1 = detected_server world env s /\
   history s1 = (history s ++ [MetadataInstanceId])%list /\
   history (snd (isCurrentServer world env other s1))
   = (history s ++ [MetadataInstanceId; MetadataInstanceId])%list).
Proof.
  intros s1. subst s1. rewrite !isCurrentServer_eq. cbn [snd].
  split; intros Hd.
  - assert (Hc : currentServerInstanceId (detect world env s)
                 = detected_server world env s).
    { unfold detect, detected_server in *.
      destruct (string_truthy (currentServerInstanceId s)); reflexivity. }
    split; [exact Hc|].
    assert (Ht : string_truthy (currentServerInstanceId (detect world env s))
                 = true) by (by rewrite Hc).
    rewrite (detect_cached _ _ _ Ht), (detected_server_cached _ _ _ Ht), Hc.
    reflexivity.
  - assert (Hs : string_truthy (currentServerInstanceId s) = false).
    { unfold detected_server in Hd.
      destruct (string_truthy (currentServerInstanceId s)) eqn:E; [|done].
      congruence. }
    assert (Hc : currentServerInstanceId (detect world env s)
                 = detected_server world env s).
    { unfold detect. by rewrite Hs. }
    split; [exact Hc|].
    assert (Hh : history (detect world env s)
                 = (history s ++ [MetadataInstanceId])%list).
    { unfold detect. by rewrite Hs. }
    split; [exact Hh|].
    unfold detect at 1. rewrite Hc, Hd. cbn [history]. rewrite Hh.
    by rewrite <- app_assoc.
Qed.

Lemma isCurrentServer_detects_once_witness :
  isCurrentServer (Sample.world_reporting (Sample.server "active" "running" "203.0.113.7" None))
    Sample.env_protecting_host "host"
    (snd (isCurrentServer
            (Sample.world_reporting (Sample.server "active" "running" "203.0.113.7" None))
            Sample.env_protecting_host "i-1" Sample.start))
  = (Resolved true,
     snd (isCurrentServer
            (Sample.world_reporting (Sample.server "active" "running" "203.0.113.7" None))
            Sample.env_protecting_host "i-1" Sample.start)).
Proof.
  apply (isCurrentServer_detects_once
           (Sample.world_reporting (Sample.server "active" "running" "203.0.113.7" None))
           Sample.env_protecting_host "i-1" "host" Sample.start).
  reflexivity.
Defined.

(** Every rescheduling of the status poller is 45 seconds away, and only a
    tick that began within the ceiling reschedules. *)
Lemma status_pollStatus_again world env instanceId sendDM startTime s ms :
  fst (startInstanceStatusPolling_pollStatus world env instanceId sendDM
         startTime s) = Resolved (Again ms) ->
  ms = 45000%Z /\ (clock s - startTime <= 30 * 60 * 1000)%Z.
Proof.
  unfold startInstanceStatusPolling_pollStatus.
  cbn [bind Date_now].
  destruct (Z.gtb_spec (clock s - startTime) (30 * 60 * 1000)).
  { exec; cbn [fst]; congruence. }
  cbn [bind try_catch].
  destruct (getInstance world env instanceId s) as [[[vi|]|e] s1].
  - exec. destruct (server_is_ready vi); [|destruct (server_is_restoring vi)].
    + destruct sendDM; exec; cbn [fst]; try congruence;
        intros [= <-]; (split; [done|lia]).
    + exec; cbn [fst]; try congruence; intros [= <-]; (split; [done|lia]).
    + exec; cbn [fst]; try congruence; intros [= <-]; (split; [done|lia]).
  - exec; cbn [fst]; try congruence; intros [= <-]; (split; [done|lia]).
  - exec; cbn [fst]; try congruence; intros [= <-]; (split; [done|lia]).
Qed.

(** X11. A tick of the status poller that gives up. Past the 30-minute
    ceiling it does not ask the provider: it sends the "exceeded 30-minute
    startup limit" message, never re-arms itself and leaves the registry
    alone. Within the ceiling, when [getInstance] answers [null] (the
    instance is excluded from management) it leaves the registry alone and,
    the message "This server is not available for management." delivered,
    stops. *)
Theorem status_poll_gives_up world env instanceId sendDM startTime s :
  let result :=
    startInstanceStatusPolling_pollStatus world env instanceId sendDM startTime s in
  ((clock s - startTime > 30 * 60 * 1000)%Z ->
   instances (snd result) = instances s /\
   (forall ms, fst result <> Resolved (Again ms)) /\
   (exists tr, history (snd result)
               = (history s ++ FollowUp StartupLimitExceeded :: tr)%list /\
               Forall (fun c => exists line, c = ConsoleError line) tr) /\
   (discord_reply world (history s) = Resolved tt ->
    result = (Resolved Stop, after world (FollowUp StartupLimitExceeded) 0 s))) /\
  (forall s1,
     (clock s - startTime <= 30 * 60 * 1000)%Z ->
     getInstance world env instanceId s = (Resolved None, s1) ->
     instances (snd result) = instances s /\
     (discord_reply world (history s1) = Resolved tt ->
      result
      = (Resolved Stop, after world (FollowUp NotAvailableForManagement) 0 s1))).
Proof.
  intros result. subst result. unfold startInstanceStatusPolling_pollStatus.
  cbn [bind Date_now]. split.
  - intros Hc.
    destruct (Z.gtb_spec (clock s - startTime) (30 * 60 * 1000)); [|lia].
    cbn [bind]. rewrite sendAutoCleanupFollowUp_eq.
    destruct (discord_reply world (history s)) as [[]|e]; cbn [bind ret fst snd];
      exec_state.
    + repeat split; try done. exists []. split; [done|constructor].
    + repeat split; try done.
      eexists [_]. rewrite <- app_assoc. split; [reflexivity|].
      repeat constructor. eauto.
  - intros s1 Hc Hget.
    pose proof (getInstance_instances world env instanceId s) as Hi.
    rewrite Hget in Hi. cbn [snd] in Hi.
    destruct (Z.gtb_spec (clock s - startTime) (30 * 60 * 1000)); [lia|].
    cbn [bind try_catch]. rewrite Hget. exec; exec_state; split; done.
Qed.

Lemma status_poll_gives_up_witness :
  startInstanceStatusPolling_pollStatus
    (Sample.world_reporting (Sample.server "active" "running" "203.0.113.7" None))
    Sample.env "i-1" true 0 (Sample.running 1800001)
  = (Resolved Stop,
     after (Sample.world_reporting (Sample.server "active" "running" "203.0.113.7" None))
           (FollowUp StartupLimitExceeded) 0 (Sample.running 1800001)).
Proof.
  apply (status_poll_gives_up
           (Sample.world_reporting (Sample.server "active" "running" "203.0.113.7" None))
           Sample.env "i-1" true 0 (Sample.running 1800001));
    [simpl; lia|reflexivity].
Defined.

(** The chain of the status poller: how many ticks it can take. *)
Lemma status_chain_bound world env instanceId sendDM startTime fuel attempts delay s :
  (0 <= delay)%Z ->
  let result :=
    poll_chain world fuel
      (fun _ => startInstanceStatusPolling_pollStatus world env instanceId sendDM
                  startTime)
      attempts delay s in
  ((30 * 60 * 1000 - (clock s + delay - startTime) < 45000 * (Z.of_nat fuel - 1))%Z ->
   (0 < fuel)%nat ->
   polling_stopped (fst result) = true) /\
  (forall n, fst result = Resolved (Some n) ->
             n = (attempts + 1)%Z \/
             ((attempts + 1 < n)%Z /\
              (clock s + delay - startTime <= 30 * 60 * 1000)%Z /\
              (45000 * (n - attempts - 1)
               <= 30 * 60 * 1000 - (clock s + delay - startTime) + 45000)%Z)).
Proof.
  revert attempts delay s.
  induction fuel as [|fuel IH]; intros attempts delay s Hd result; subst result.
  { split; [lia|]. cbn [poll_chain ret fst]. discriminate. }
  cbn [poll_chain bind]. rewrite await_eq. cbn [bind].
  set (s0 := after world (SetTimeoutPollStatus delay) delay s).
  assert (Hs0 : (clock s + delay <= clock s0)%Z) by (subst s0; simpl; lia).
  destruct (calls_only_status_pollStatus world env instanceId sendDM startTime s0)
    as (tr & _ & _ & Hclock).
  pose proof (status_pollStatus_again world env instanceId sendDM startTime s0)
    as Hms.
  destruct (startInstanceStatusPolling_pollStatus world env instanceId sendDM
              startTime s0) as [[[|ms]|e] s1]; cbn [fst snd] in *.
  - split; [done|]. intros n [= <-]. by left.
  - destruct (Hms ms eq_refl) as [-> Hunder].
    destruct (IH (attempts + 1)%Z 45000%Z s1 ltac:(lia)) as [IH1 IH2].
    split.
    + intros Hq Hf. apply IH1; lia.
    + intros n Hn. right. destruct (IH2 n Hn) as [->|(? & ? & ?)]; lia.
  - split; [done|]. discriminate.
Qed.

(** X12. Status polling ends: the chain of [setTimeout(pollStatus, ...)]
    calls that [startInstanceStatusPolling] starts stops within 41 ticks
    (the first after 10 s, the others 45 s apart, none re-armed past 30
    minutes), whatever the provider and Discord answer. *)
Theorem status_polling_ends world env instanceId sendDM fuel s :
  (41 <= fuel)%nat ->
  let result := startInstanceStatusPolling world env fuel instanceId sendDM s in
  polling_stopped (fst result) = true /\
  (forall n, fst result = Resolved (Some n) -> (1 <= n <= 41)%Z).
Proof.
  intros Hfuel result. subst result.
  unfold startInstanceStatusPolling. cbn [bind Date_now].
  destruct (status_chain_bound world env instanceId sendDM (clock s) fuel 0 10000 s
              ltac:(lia)) as [H1 H2].
  split.
  - apply H1; lia.
  - intros n Hn. destruct (H2 n Hn) as [->|(? & ? & ?)]; lia.
Qed.

Lemma status_polling_ends_witness :
  polling_stopped
    (fst (startInstanceStatusPolling
            (Sample.world_reporting (Sample.server "active" "stopped" "203.0.113.7" None))
            Sample.env 41 "i-1" true Sample.start)) = true.
Proof.
  apply (status_polling_ends
           (Sample.world_reporting (Sample.server "active" "stopped" "203.0.113.7" None))
           Sample.env "i-1" true 41 Sample.start).
  lia.
Defined.

Lemma updateInstance_tracked now instanceId status (metadata : record)
    (instances : list record) old :
  instanceState.getInstance instanceId instances = Some old ->
  metadata !! "id" = None ->
  let new :=
    spread (<["lastUpdated" := VDate now]> (<["status" := status]> old)) metadata in
  exists instances',
    instanceState.updateInstance now instanceId status metadata instances
    = (Some new, instances') /\
    instanceState.getInstance instanceId instances' = Some new /\
    length instances' = length instances.
Proof.
  intros Hold Hm new. unfold instanceState.getInstance in *.
  destruct (find_Some_findIndex _ _ _ Hold) as (idx & Hidx & Hlook).
  unfold instanceState.updateInstance. rewrite Hidx, Hlook. cbn [default].
  eexists. split; [reflexivity|]. split.
  - apply find_insert_first; [done|]. apply has_id_update; [done|].
    by apply find_has_id in Hold.
  - by rewrite length_insert.
Qed.

(** What [initializeSelfDestructTimer] writes for a tracked instance
    without a timer. *)
Lemma initializeSelfDestructTimer_arms env instanceId s r :
  instanceState.getInstance instanceId (instances s) = Some r ->
  truthy (prop r "selfDestructTimer") = false ->
  initializeSelfDestructTimer env instanceId s
  = (Resolved tt,
     State (snd (instanceState.updateInstance (clock s) instanceId (prop r "status")
                   {[ "selfDestructTimer" :=
                        VTimer (Timer (clock s + SELF_DESTRUCT_INITIAL_MINUTES env * 60 * 1000)
                                      (SELF_DESTRUCT_INITIAL_MINUTES env * 60 * 1000)
                                      0 []) ]}
                   (instances s)))
           (currentServerInstanceId s) (history s) (clock s)).
Proof.
  intros Hr Hnt. unfold initializeSelfDestructTimer. cbn [bind get_instances].
  rewrite Hr, Hnt. cbn [bind Date_now]. rewrite updateInstance_eq. reflexivity.
Qed.

(** The record of an instance after the ready tick has stored the
    provider's status and address and then armed the timer [t]. *)
Lemma armed_record now1 now2 instanceId status v t (instances : list record) r :
  instanceState.getInstance instanceId instances = Some r ->
  let l1 := snd (instanceState.updateInstance now1 instanceId status
                   {[ "ip" := v ]} instances) in
  exists r1,
    instanceState.getInstance instanceId l1 = Some r1 /\
    prop r1 "selfDestructTimer" = prop r "selfDestructTimer" /\
    exists r',
      instanceState.getInstance instanceId
        (snd (instanceState.updateInstance now2 instanceId (prop r1 "status")
                {[ "selfDestructTimer" := VTimer t ]} l1)) = Some r' /\
      timer_of r' = Some t /\
      r' !! "status" = Some status /\
      r' !! "ip" = Some v /\
      creator_id r' = creator_id r.
Proof.
  intros Hr l1. subst l1.
  destruct (updateInstance_tracked now1 instanceId status {[ "ip" := v ]}
              instances r Hr ltac:(done)) as (l1 & Hupd & Hr1 & _).
  rewrite Hupd. cbn [snd]. eexists. split; [exact Hr1|].
  set (r1 := spread _ _) in *.
  assert (H1 : forall k, k <> "ip" -> k <> "status" -> k <> "lastUpdated" ->
                         r1 !! k = r !! k).
  { intros k ? ? ?. unfold r1.
    rewrite lookup_spread, lookup_singleton_ne by done.
    by rewrite !lookup_insert_ne. }
  assert (Hst : r1 !! "status" = Some status).
  { unfold r1. rewrite lookup_spread, lookup_singleton_ne by done.
    rewrite lookup_insert_ne by done. by rewrite lookup_insert_eq. }
  assert (Hip : r1 !! "ip" = Some v).
  { unfold r1. by rewrite lookup_spread, lookup_singleton_eq. }
  split; [unfold prop; by rewrite H1|].
  destruct (updateInstance_tracked now2 instanceId (prop r1 "status")
              {[ "selfDestructTimer" := VTimer t ]} l1 r1 Hr1 ltac:(done))
    as (l2 & Hupd2 & Hr2 & _).
  rewrite Hupd2. cbn [snd]. eexists. split; [exact Hr2|].
  unfold timer_of, creator_id, prop.
  rewrite !lookup_spread, lookup_singleton_eq.
  rewrite !lookup_singleton_ne by done.
  rewrite !(lookup_insert_ne _ "lastUpdated") by done.
  rewrite lookup_insert_eq, !lookup_insert_ne by done.
  rewrite Hst, Hip, H1 by done. done.
Qed.

(** X13. The tick that finds the server ready arms its self-destruct
    timer: for a tracked instance without a timer, the registry record
    afterwards has status ['running'], the provider's address, its creator
    as before, and a timer that expires [SELF_DESTRUCT_INITIAL_MINUTES]
    after a moment [now] of that tick, with no extension and no warning
    sent. For an instance that is not tracked the registry stays as it is:
    no timer is created. *)
Theorem status_poll_ready_arms_timer world env instanceId sendDM startTime s i s1 :
  (clock s - startTime <= 30 * 60 * 1000)%Z ->
  getInstance world env instanceId s = (Resolved (Some i), s1) ->
  server_is_ready i = true ->
  let result :=
    startInstanceStatusPolling_pollStatus world env instanceId sendDM startTime s in
  let duration := (SELF_DESTRUCT_INITIAL_MINUTES env * 60 * 1000)%Z in
  (forall r,
     instanceState.getInstance instanceId (instances s) = Some r ->
     truthy (prop r "selfDestructTimer") = false ->
     exists r' now,
       (clock s1 <= now <= clock (snd result))%Z /\
       instanceState.getInstance instanceId (instances (snd result)) = Some r' /\
       timer_of r' = Some (Timer (now + duration) duration 0 []) /\
       r' !! "status" = Some (VStr "running") /\
       r' !! "ip" = Some (opt_value (Vultr.main_ip i)) /\
       creator_id r' = creator_id r) /\
  (instanceState.getInstance instanceId (instances s) = None ->
   instances (snd result) = instances s).
Proof.
  intros Hc Hget Hready result duration. subst result duration.
  pose proof (getInstance_instances world env instanceId s) as Hi.
  rewrite Hget in Hi. cbn [snd] in Hi.
  assert (Hrun : Vultr.power_status i = Some "running").
  { apply server_is_ready_spec in Hready. apply Hready. }
  unfold startInstanceStatusPolling_pollStatus.
  cbn [bind Date_now].
  destruct (Z.gtb_spec (clock s - startTime) (30 * 60 * 1000)); [lia|].
  cbn [bind try_catch]. rewrite Hget. cbn [bind try_catch].
  rewrite updateInstance_eq, Hready, Hi, Hrun. cbn [bind opt_value fst snd].
  split.
  - intros r Hr Hnt.
    assert (Harm : forall now2,
               exists r1,
                 instanceState.getInstance instanceId
                   (snd (instanceState.updateInstance (clock s1) instanceId
                           (VStr "running")
                           {[ "ip" := opt_value (Vultr.main_ip i) ]} (instances s)))
                 = Some r1 /\
                 truthy (prop r1 "selfDestructTimer") = false /\
                 exists r',
                   instanceState.getInstance instanceId
                     (snd (instanceState.updateInstance now2 instanceId
                             (prop r1 "status")
                             {[ "selfDestructTimer" :=
                                  VTimer (Timer (now2 + SELF_DESTRUCT_INITIAL_MINUTES env * 60 * 1000)
                                                (SELF_DESTRUCT_INITIAL_MINUTES env * 60 * 1000)
                                                0 []) ]}
                             (snd (instanceState.updateInstance (clock s1) instanceId
                                     (VStr "running")
                                     {[ "ip" := opt_value (Vultr.main_ip i) ]}
                                     (instances s)))))
                   = Some r' /\
                   timer_of r'
                   = Some (Timer (now2 + SELF_DESTRUCT_INITIAL_MINUTES env * 60 * 1000)
                                 (SELF_DESTRUCT_INITIAL_MINUTES env * 60 * 1000) 0 []) /\
                   r' !! "status" = Some (VStr "running") /\
                   r' !! "ip" = Some (opt_value (Vultr.main_ip i)) /\
                   creator_id r' = creator_id r).
    { intros now2.
      destruct (armed_record (clock s1) now2 instanceId (VStr "running")
                  (opt_value (Vultr.main_ip i))
                  (Timer (now2 + SELF_DESTRUCT_INITIAL_MINUTES env * 60 * 1000)
                         (SELF_DESTRUCT_INITIAL_MINUTES env * 60 * 1000) 0 [])
                  (instances s) r Hr) as (r1 & Hr1 & Hp & r' & H').
      exists r1. split; [exact Hr1|]. split; [by rewrite Hp|]. by exists r'. }
    destruct sendDM;
      repeat first
        [ rewrite sendServerCreationDM_eq
        | rewrite sendAutoCleanupFollowUp_eq
        | rewrite emit_eq
        | progress cbn [history clock after noted instances currentServerInstanceId]
        | progress cbn [bind try_catch ret Date_now fst snd]
        | match goal with
          | |- context [initializeSelfDestructTimer env instanceId ?st] =>
              destruct (Harm (clock st)) as (r1 & Hr1 & Hnt1 & r' & Hr' & Hrest);
              rewrite (initializeSelfDestructTimer_arms env instanceId st r1 Hr1 Hnt1)
          | |- context [match discord_reply ?w ?h with _ => _ end] =>
              destruct (discord_reply w h) as [[]|?]
          | |- context [if (?a <? ?b)%Z then _ else _] => destruct (Z.ltb_spec a b)
          end ];
      eexists r', _; (split; [|split; [exact Hr'|exact Hrest]]); exec_state; lia.
  - intros Hnone.
    rewrite (updateInstance_untracked _ _ _ _ _ Hnone). cbn [fst snd].
    destruct sendDM;
      repeat first
        [ rewrite sendServerCreationDM_eq
        | rewrite sendAutoCleanupFollowUp_eq
        | rewrite emit_eq
        | progress cbn [history clock after noted instances currentServerInstanceId]
        | progress cbn [bind try_catch ret Date_now fst snd]
        | rewrite initializeSelfDestructTimer_untracked by exact Hnone
        | match goal with
          | |- context [match discord_reply ?w ?h with _ => _ end] =>
              destruct (discord_reply w h) as [[]|?]
          | |- context [if (?a <? ?b)%Z then _ else _] => destruct (Z.ltb_spec a b)
          end ];
      reflexivity.
Qed.

Lemma status_poll_ready_arms_timer_witness :
  exists r' now,
    instanceState.getInstance "i-1"
      (instances
         (snd (startInstanceStatusPolling_pollStatus
                 (Sample.world_reporting
                    (Sample.server "active" "running" "203.0.113.7" None))
                 Sample.env "i-1" true 0
                 (State [Sample.tracked] (Some "host") [] 60000))))
    = Some r' /\
    timer_of r' = Some (Timer (now + 10800000) 10800000 0 []) /\
    r' !! "status" = Some (VStr "running").
Proof.
  destruct (status_poll_ready_arms_timer
              (Sample.world_reporting
                 (Sample.server "active" "running" "203.0.113.7" None))
              Sample.env "i-1" true 0
              (State [Sample.tracked] (Some "host") [] 60000)
              (Sample.server "active" "running" "203.0.113.7" None)
              (State [Sample.tracked] (Some "host") [GetInstance "i-1"] 60000)
              ltac:(simpl; lia) eq_refl eq_refl) as [H _].
  destruct (H Sample.tracked eq_refl eq_refl)
    as (r' & now & _ & Hr' & Ht & Hs & _).
  exists r', now. auto.
Defined.

(** X14. A failed lookup is retried. When [getInstance] throws in a tick of
    the status poller, the registry is left alone; the error is logged
    and, the ceiling of 30 minutes not reached, the tick re-arms itself for
    45 s later and does nothing else; at or past the ceiling it does not
    re-arm, and sends "Unable to monitor server". *)
Theorem status_poll_retries_on_error world env instanceId sendDM startTime s e s1 :
  (clock s - startTime <= 30 * 60 * 1000)%Z ->
  getInstance world env instanceId s = (Rejected e, s1) ->
  let result :=
    startInstanceStatusPolling_pollStatus world env instanceId sendDM startTime s in
  let logged := noted (ConsoleError "Error polling instance:") s1 in
  instances (snd result) = instances s /\
  ((clock s1 - startTime < 30 * 60 * 1000)%Z ->
   result = (Resolved (Again 45000), logged)) /\
  ((30 * 60 * 1000 <= clock s1 - startTime)%Z ->
   (forall ms, fst result <> Resolved (Again ms)) /\
   (discord_reply world (history logged) = Resolved tt ->
    result = (Resolved Stop, after world (FollowUp UnableToMonitor) 0 logged))).
Proof.
  intros Hc Hget result logged. subst result logged.
  pose proof (getInstance_instances world env instanceId s) as Hi.
  rewrite Hget in Hi. cbn [snd] in Hi.
  unfold startInstanceStatusPolling_pollStatus.
  cbn [bind Date_now].
  destruct (Z.gtb_spec (clock s - startTime) (30 * 60 * 1000)); [lia|].
  cbn [bind try_catch]. rewrite Hget. cbn [bind try_catch].
  rewrite emit_eq. cbn [bind Date_now]. cbn [clock noted].
  destruct (Z.ltb_spec (clock s1 - startTime) (30 * 60 * 1000)).
  - cbn [ret fst snd]. exec_state. split; [done|]. split; [done|lia].
  - cbn [bind]. rewrite sendAutoCleanupFollowUp_eq.
    destruct (discord_reply world _) as [[]|?]; cbn [bind ret fst snd];
      exec_state; (split; [done|]); (split; [lia|]); intros _; split;
      try done.
Qed.

Lemma status_poll_retries_on_error_witness :
  fst (startInstanceStatusPolling_pollStatus Sample.world_busy_then_gone
         Sample.env "i-1" true 0 Scenario.after_two_deletes)
  = Resolved (Again 45000).
Proof.
  destruct (status_poll_retries_on_error Sample.world_busy_then_gone Sample.env
              "i-1" true 0 Scenario.after_two_deletes
              (JsError "Not Found" (Some 404%Z) None)
              (snd (getInstance Sample.world_busy_then_gone Sample.env "i-1"
                      Scenario.after_two_deletes)))
    as (_ & Hagain & _).
  - vm_compute. discriminate.
  - vm_compute. reflexivity.
  - rewrite Hagain; [reflexivity|]. vm_compute. reflexivity.
Defined.

(* ===================================================================== *)
(** * The self-destruct timer engine: warnings *)
(* ===================================================================== *)
Lemma warningsSent_includes w sent :
  existsb (String.eqb w) sent = true <-> In w sent.
Proof.
  rewrite existsb_exists. split.
  - intros (x & Hx & ->%String.eqb_eq). done.
  - intros H. exists w. split; [done|apply String.eqb_refl].
Qed.

Lemma warningsSent_excludes w sent :
  ~ In w sent -> existsb (String.eqb w) sent = false.
Proof.
  intros H. apply not_true_is_false. by rewrite warningsSent_includes.
Qed.

(** A warning only fetches the user and sends the message; the registry
    is left alone. *)
Lemma sendSelfDestructWarning_trace world instanceId minutesRemaining creatorId s :
  exists s' tr,
    sendSelfDestructWarning world instanceId minutesRemaining creatorId s
    = (Resolved tt, s') /\
    instances s' = instances s /\
    currentServerInstanceId s' = currentServerInstanceId s /\
    history s' = (history s ++ UsersFetch creatorId :: tr)%list /\
    Forall warning_call tr /\
    (clock s <= clock s')%Z.
Proof.
  unfold sendSelfDestructWarning. cbn [bind try_catch]. rewrite await_eq.
  destruct (usersFetch_reply world (history s)) as [[|]|e];
    cbn [bind try_catch negb ret get_instances]; cbn [instances after];
    try destruct (instanceState.getInstance instanceId (instances s) ≫= timer_of);
    rewrite ?await_eq;
    try (destruct (discord_reply world _) as [[]|?]);
    cbn [bind try_catch ret]; rewrite ?emit_eq;
    eexists _, _; (split; [reflexivity|]); exec_state;
    (split; [reflexivity|]); (split; [reflexivity|]);
    (split; [rewrite <- ?app_assoc; reflexivity|]);
    (split; [repeat constructor|lia]).
Qed.

(** The warning branches of the sweep for one instance. *)
Lemma checkTimers_instance_warns world r t creatorId w minutes s :
  let warned :=
    (sendSelfDestructWarning world (id_of r) minutes creatorId ;;;
     updateInstance (id_of r) (prop r "status")
       {[ "selfDestructTimer" :=
            VTimer (Timer (expiresAt t) (initialDuration t) (extendedCount t)
                          (warningsSent t ++ [w])) ]} ;;;
     ret tt) s in
  fst warned = Resolved tt /\
  instances (snd warned) = warning_recorded (clock (snd warned)) r t w (instances s) /\
  exists tr,
    history (snd warned) = (history s ++ UsersFetch creatorId :: tr)%list /\
    Forall warning_call tr.
Proof.
  intros warned. subst warned. cbn [bind].
  destruct (sendSelfDestructWarning_trace world (id_of r) minutes creatorId s)
    as (s1 & tr & Hw & Hi & _ & Hh & HF & _).
  rewrite Hw. rewrite updateInstance_eq. cbn [bind ret fst snd].
  exec_state. unfold warning_recorded. rewrite Hi. eauto.
Qed.

(** X15. The sweep does not touch the provider before a timer has expired:
    for an instance whose timer is still running, all that
    [checkTimers] does is fetch the creator, send a warning and log (no
    [getInstance], no [deleteInstance]), and the registry is as before or
    differs by the record of one warning, status and expiry unchanged. *)
Theorem checkTimers_spares_running_timer world env r t s :
  timer_of r = Some t ->
  (clock s < expiresAt t)%Z ->
  let result := checkTimers_instance world env r s in
  (exists tr,
     history (snd result) = (history s ++ tr)%list /\
     Forall warning_call tr /\
     deletes tr = []) /\
  (instances (snd result) = instances s \/
   exists w,
     instances (snd result)
     = warning_recorded (clock (snd result)) r t w (instances s)).
Proof.
  intros Ht Hrun result. subst result.
  assert (Hnd : forall tr, Forall warning_call tr -> deletes tr = []).
  { induction 1 as [|c tr Hc _ IH]; [done|].
    unfold deletes in *. simpl. by destruct c. }
  unfold checkTimers_instance. rewrite Ht. cbn [bind Date_now].
  destruct (Z.leb_spec (expiresAt t - clock s) 0); [lia|].
  assert (Hquiet : forall A (o : outcome A),
             (exists tr, history (snd (o, s)) = (history s ++ tr)%list /\
                         Forall warning_call tr /\ deletes tr = []) /\
             (instances (snd (o, s)) = instances s \/
              exists w, instances (snd (o, s))
                        = warning_recorded (clock (snd (o, s))) r t w (instances s))).
  { intros A o. split; [|by left]. exists []. by rewrite app_nil_r. }
  destruct (_ && _).
  - destruct (creator_id r) as [creatorId|] eqn:Hc; [|apply Hquiet].
    destruct (checkTimers_instance_warns world r t creatorId "10min" 10 s)
      as (_ & Hi & tr & Hh & HF).
    split.
    + exists (UsersFetch creatorId :: tr). split; [exact Hh|].
      split; [by constructor|]. apply Hnd. by constructor.
    + right. exists "10min". exact Hi.
  - destruct (_ && _); [|apply Hquiet].
    destruct (creator_id r) as [creatorId|] eqn:Hc; [|apply Hquiet].
    destruct (checkTimers_instance_warns world r t creatorId "5min" 5 s)
      as (_ & Hi & tr & Hh & HF).
    split.
    + exists (UsersFetch creatorId :: tr). split; [exact Hh|].
      split; [by constructor|]. apply Hnd. by constructor.
    + right. exists "5min". exact Hi.
Qed.

Lemma checkTimers_spares_running_timer_witness :
  exists tr,
    history (snd (checkTimers_instance Scenario.world_serving Sample.env
                    Scenario.tracked_ending Scenario.ending))
    = (history Scenario.ending ++ tr)%list /\
    deletes tr = [].
Proof.
  destruct (checkTimers_spares_running_timer Scenario.world_serving Sample.env
              Scenario.tracked_ending (Timer 600000 10800000 0 [])
              Scenario.ending eq_refl eq_refl)
    as ((tr & Hh & _ & Hd) & _).
  exists tr. split; assumption.
Defined.

(** X16. Warnings are sent once. With more than 10 minutes left the sweep
    does nothing for the instance. With 10 to 6 whole minutes left it does
    nothing if ["10min"] is on the timer's list of warnings sent, and
    otherwise fetches the creator and records ["10min"] on that list,
    whether or not the message could be delivered. With 5 or fewer whole
    minutes left it is the same for ["5min"], the 10-minute warning being
    skipped. *)
Theorem warning_recorded_once world env r t creatorId s :
  timer_of r = Some t ->
  creator_id r = Some creatorId ->
  (clock s < expiresAt t)%Z ->
  let remainingMinutes := ((expiresAt t - clock s) / 60000)%Z in
  let result := checkTimers_instance world env r s in
  let warned w :=
    fst result = Resolved tt /\
    instances (snd result)
    = warning_recorded (clock (snd result)) r t w (instances s) /\
    exists tr,
      history (snd result) = (history s ++ UsersFetch creatorId :: tr)%list /\
      Forall warning_call tr in
  ((10 < remainingMinutes)%Z -> result = (Resolved tt, s)) /\
  ((5 < remainingMinutes <= 10)%Z ->
   (In "10min" (warningsSent t) -> result = (Resolved tt, s)) /\
   (~ In "10min" (warningsSent t) -> warned "10min")) /\
  ((remainingMinutes <= 5)%Z ->
   (In "5min" (warningsSent t) -> result = (Resolved tt, s)) /\
   (~ In "5min" (warningsSent t) -> warned "5min")).
Proof.
  intros Ht Hc Hrun remainingMinutes result warned.
  subst remainingMinutes result warned.
  unfold checkTimers_instance. rewrite Ht, Hc. cbn [bind Date_now].
  destruct (Z.leb_spec (expiresAt t - clock s) 0); [lia|].
  set (m := ((expiresAt t - clock s) / 60000)%Z).
  split; [|split].
  - intros Hm.
    destruct (Z.leb_spec m 10); [lia|]. cbn [andb].
    destruct (Z.leb_spec m 5); [lia|]. reflexivity.
  - intros Hm.
    destruct (Z.leb_spec m 10); [|lia].
    destruct (Z.gtb_spec m 5); [|lia]. cbn [andb].
    destruct (Z.leb_spec m 5); [lia|]. cbn [andb].
    split.
    + intros Hin%warningsSent_includes. rewrite Hin. reflexivity.
    + intros Hout%warningsSent_excludes. rewrite Hout. cbn [negb].
      apply (checkTimers_instance_warns world r t creatorId "10min" 10 s).
  - intros Hm.
    destruct (Z.gtb_spec m 5); [lia|]. rewrite andb_false_r. cbn [andb].
    destruct (Z.leb_spec m 5); [|lia]. cbn [andb].
    split.
    + intros Hin%warningsSent_includes. rewrite Hin. reflexivity.
    + intros Hout%warningsSent_excludes. rewrite Hout. cbn [negb].
      apply (checkTimers_instance_warns world r t creatorId "5min" 5 s).
Qed.

Lemma warning_recorded_once_witness :
  fst (checkTimers_instance Scenario.world_serving Sample.env
         Sample.tracked_with_timer (Sample.running 0)) = Resolved tt /\
  instances (snd (checkTimers_instance Scenario.world_serving Sample.env
                    Sample.tracked_with_timer (Sample.running 0)))
  = warning_recorded 0 Sample.tracked_with_timer Sample.sample_timer "5min"
      [Sample.tracked_with_timer].
Proof.
  destruct (warning_recorded_once Scenario.world_serving Sample.env
              Sample.tracked_with_timer Sample.sample_timer "42"
              (Sample.running 0) eq_refl eq_refl eq_refl)
    as (_ & _ & Hfive).
  destruct Hfive as (_ & Hwarn).
  - vm_compute. discriminate.
  - destruct Hwarn as (Hfst & Hinst & _).
    + intros [H|[]]. discriminate H.
    + split; [exact Hfst|]. rewrite Hinst. reflexivity.
Defined.

Lemma updateInstance_warnings_stay_sent world env now coinInstanceId status
    (instances : list record) r t :
  instanceState.getInstance coinInstanceId instances = Some r ->
  warnings_stay_sent world env coinInstanceId t
    (snd (instanceState.updateInstance now coinInstanceId status
            {[ "selfDestructTimer" := VTimer (insert_coin env t) ]} instances)).
Proof.
  intros Hr.
  destruct (updateInstance_timer now coinInstanceId status
              (VTimer (insert_coin env t)) instances r Hr)
    as (new & l' & Hupd & Hget & _ & Htimer & _).
  rewrite Hupd. cbn [snd].
  destruct (insert_coin_fields env t) as (He & _ & Hw & _).
  assert (Ht1 : timer_of new = Some (insert_coin env t)).
  { unfold timer_of, prop. by rewrite Htimer. }
  exists new, (insert_coin env t). split; [exact Hget|]. split; [exact Ht1|].
  split; [exact He|]. split; [exact Hw|].
  intros s2 Hrun. unfold checkTimers_instance. rewrite Ht1. cbn [bind Date_now].
  destruct (Z.leb_spec (expiresAt (insert_coin env t) - clock s2) 0); [lia|].
  set (m := ((expiresAt (insert_coin env t) - clock s2) / 60000)%Z).
  rewrite Hw. split.
  - intros Hm Hin%warningsSent_includes. rewrite Hin.
    rewrite andb_false_r. cbn [andb].
    destruct (Z.leb_spec m 5); [lia|]. reflexivity.
  - intros Hm Hin%warningsSent_includes. rewrite Hin.
    destruct (Z.gtb_spec m 5); [lia|]. rewrite !andb_false_r. reflexivity.
Qed.

(** X17. A coin does not re-arm the warnings. After either coin handler
    has extended a timer, the timer still lists the warnings sent before:
    when the extended timer comes down to the 10-minute (5-minute) window
    again, a sweep sends no second 10-minute (5-minute) warning and changes
    nothing. *)
Theorem coin_keeps_warnings_sent world env coinInstanceId s r t :
  instanceState.getInstance coinInstanceId (instances s) = Some r ->
  timer_of r = Some t ->
  warnings_stay_sent world env coinInstanceId t
    (instances (snd (insert_coin_server world env coinInstanceId s))) /\
  warnings_stay_sent world env coinInstanceId t
    (instances (snd (coin_button world env coinInstanceId s))).
Proof.
  intros Hr Ht. split.
  - rewrite (insert_coin_server_registry world env coinInstanceId s r t Hr Ht).
    eapply updateInstance_warnings_stay_sent; exact Hr.
  - rewrite (coin_button_registry world env coinInstanceId s r t Hr Ht).
    eapply updateInstance_warnings_stay_sent; exact Hr.
Qed.

Lemma coin_keeps_warnings_sent_witness :
  warnings_stay_sent Scenario.world_serving Sample.env "i-1" Sample.sample_timer
    (instances (snd (insert_coin_server Scenario.world_serving Sample.env "i-1"
                       (Sample.running 0)))).
Proof.
  exact (proj1 (coin_keeps_warnings_sent Scenario.world_serving Sample.env "i-1"
                  (Sample.running 0) Sample.tracked_with_timer
                  Sample.sample_timer eq_refl eq_refl)).
Defined.

(* ===================================================================== *)
(** * Waiting for a power status *)
(* ===================================================================== *)
Lemma getInstance_reports world env instanceId s i s1 :
  getInstance world env instanceId s = (Resolved (Some i), s1) ->
  getInstance_reply world (history s) instanceId = Resolved (Some i).
Proof.
  rewrite getInstance_eq. cbv zeta.
  destruct (getInstance_reply world (history s) instanceId) as [[vi|]|e];
    [|try discriminate..].
  - destruct (_ || _); [discriminate|].
    destruct (string_truthy _); [|by intros [= -> _]].
    destruct (bool_decide _); [discriminate|by intros [= -> _]].
  - destruct (_ || _); [discriminate|].
    destruct (string_truthy _); discriminate.
Qed.

Lemma waitForInstanceStatus_check_spec world env instanceId target s :
  exists o s' tr,
    waitForInstanceStatus_check world env instanceId target s = (Resolved o, s') /\
    instances s' = instances s /\
    history s' = (history s ++ GetInstance instanceId :: tr)%list /\
    (clock s <= clock s')%Z /\
    (o = Some true ->
     exists i, getInstance_reply world (history s) instanceId = Resolved (Some i) /\
               Vultr.power_status i = Some target) /\
    (forall s1, getInstance world env instanceId s = (Resolved None, s1) ->
                o = Some false /\ s' = s1).
Proof.
  unfold waitForInstanceStatus_check. cbn [bind try_catch].
  pose proof (getInstance_instances world env instanceId s) as Hi.
  destruct (getInstance_first_call world env instanceId s) as (tr & Hh).
  destruct (calls_only_getInstance (fun _ => True) world env instanceId I I I s)
    as (_ & _ & _ & Hcl).
  pose proof (getInstance_reports world env instanceId s) as Hrep.
  destruct (getInstance world env instanceId s) as [[[vi|]|e] s1];
    cbn [snd] in *; cbn [bind try_catch ret].
  - destruct (bool_decide_reflect (Vultr.power_status vi = Some target));
      cbn [ret]; eexists _, _, tr; (split; [reflexivity|]);
      (split; [done|]); (split; [done|]); (split; [done|]);
      (split; [|discriminate]).
    + intros _. exists vi. split; [by eapply Hrep|done].
    + discriminate.
  - eexists _, _, tr. split; [reflexivity|].
    split; [done|]. split; [done|]. split; [done|]. split; [discriminate|].
    by intros s2 [= <-].
  - rewrite emit_eq. cbn [bind ret].
    eexists _, _, (tr ++ [_])%list. split; [reflexivity|]. exec_state.
    rewrite Hh, <- app_assoc. repeat split; try done; discriminate.
Qed.

Lemma waitForInstanceStatus_loop_spec world env fuel instanceId target timeout
    startTime s :
  let result :=
    waitForInstanceStatus_loop world env fuel instanceId target timeout startTime s in
  exists o tr,
    fst result = Resolved o /\
    instances (snd result) = instances s /\
    history (snd result) = (history s ++ tr)%list /\
    (o = Some true -> reported_power_status world instanceId target (history s) tr) /\
    ((timeout - (clock s - startTime) <= 15000 * Z.of_nat fuel)%Z -> o <> None).
Proof.
  revert s. induction fuel as [|fuel IH]; intros s result; subst result.
  - cbn [waitForInstanceStatus_loop bind Date_now].
    destruct (Z.ltb_spec (clock s - startTime) timeout); cbn [ret fst snd].
    + exists None, []. rewrite app_nil_r. repeat split; try done. lia.
    + exists (Some false), []. rewrite app_nil_r. repeat split; done.
  - cbn [waitForInstanceStatus_loop bind Date_now].
    destruct (Z.ltb_spec (clock s - startTime) timeout); cbn [ret fst snd].
    2:{ exists (Some false), []. rewrite app_nil_r. repeat split; done. }
    destruct (waitForInstanceStatus_check_spec world env instanceId target s)
      as (o & s1 & tr1 & Hcheck & Hi1 & Hh1 & Hc1 & Htrue & _).
    cbn [bind]. rewrite Hcheck.
    destruct o as [b|].
    + cbn [ret fst snd]. exists (Some b), (GetInstance instanceId :: tr1).
      repeat split; try done.
      intros [= ->]. destruct (Htrue eq_refl) as (i & Hrep & Hp).
      exists [], tr1, i. by rewrite app_nil_r.
    + unfold sleep. cbn [bind]. rewrite await_eq. cbn [bind].
      set (s2 := after world (Sleep 15000) 15000 s1).
      destruct (IH s2) as (o & tr2 & Ho & Hi2 & Hh2 & Htrue2 & Hfuel).
      exists o, (GetInstance instanceId :: tr1 ++ Sleep 15000 :: tr2)%list.
      split; [exact Ho|]. split; [by rewrite Hi2|].
      split.
      { rewrite Hh2. subst s2. cbn [history after]. rewrite Hh1.
        rewrite <- !app_assoc. reflexivity. }
      split.
      * intros Hb. destruct (Htrue2 Hb) as (tr3 & tr4 & i & -> & Hrep & Hp).
        exists (GetInstance instanceId :: tr1 ++ Sleep 15000 :: tr3)%list, tr4, i.
        split; [cbn [app]; rewrite <- ?app_assoc; reflexivity|]. split; [|done].
        rewrite <- Hrep. f_equal. subst s2. cbn [history after]. rewrite Hh1.
        cbn [app]. rewrite <- ?app_assoc. reflexivity.
      * intros Hq. apply Hfuel. subst s2. cbn [clock after]. lia.
Qed.

(** X18. [waitForInstanceStatus] never throws and never touches the
    registry; it answers [true] only after the provider has reported the
    instance with the power status waited for; it comes to its end within
    one turn per 15 s of timeout (60 for the default 15 minutes); and for
    an instance that [getInstance] hides it answers [false] at once,
    without waiting. *)
Theorem waitForInstanceStatus_confirms world env fuel instanceId target timeout s :
  let result := waitForInstanceStatus world env fuel instanceId target timeout s in
  (exists o tr,
     fst result = Resolved o /\
     instances (snd result) = instances s /\
     history (snd result) = (history s ++ tr)%list /\
     (o = Some true ->
      reported_power_status world instanceId target (history s) tr)) /\
  ((timeout <= 15000 * Z.of_nat fuel)%Z ->
   exists b, fst result = Resolved (Some b)) /\
  (forall s1,
     (0 < timeout)%Z -> (0 < fuel)%nat ->
     getInstance world env instanceId s = (Resolved None, s1) ->
     result = (Resolved (Some false), s1)).
Proof.
  intros result. subst result. unfold waitForInstanceStatus.
  cbn [bind Date_now].
  destruct (waitForInstanceStatus_loop_spec world env fuel instanceId target
              timeout (clock s) s) as (o & tr & Ho & Hi & Hh & Htrue & Hfuel).
  split; [|split].
  - exists o, tr. auto.
  - intros Hq. destruct o as [b|]; [by exists b|].
    exfalso. apply Hfuel; [lia|done].
  - intros s1 Ht Hf Hget. destruct fuel as [|fuel]; [lia|].
    cbn [waitForInstanceStatus_loop bind Date_now].
    destruct (Z.ltb_spec (clock s - clock s) timeout); [|lia].
    destruct (waitForInstanceStatus_check_spec world env instanceId target s)
      as (o' & s' & tr' & Hcheck & _ & _ & _ & _ & Hnone).
    cbn [bind]. rewrite Hcheck. destruct (Hnone s1 Hget) as [-> ->].
    reflexivity.
Qed.

Lemma waitForInstanceStatus_confirms_witness :
  exists b,
    fst (waitForInstanceStatus
           (Sample.world_reporting (Sample.server "active" "stopped" "203.0.113.7" None))
           Sample.env 60 "i-1" "running" (15 * 60 * 1000) (Sample.running 0))
    = Resolved (Some b).
Proof.
  apply (waitForInstanceStatus_confirms
           (Sample.world_reporting (Sample.server "active" "stopped" "203.0.113.7" None))
           Sample.env 60 "i-1" "running" (15 * 60 * 1000) (Sample.running 0)).
  lia.
Defined.

(* ===================================================================== *)
(** * The registry sync of the list command *)
(* ===================================================================== *)
Lemma forEach_syncInstance active out s :
  forEach (listCommand_syncInstance active) out s
  = (Resolved tt,
     State (fold_left (fun l vi => synced (clock s) active vi l) out (instances s))
           (currentServerInstanceId s) (history s) (clock s)).
Proof.
  revert s. induction out as [|vi out IH]; intros s.
  - by destruct s.
  - cbn [forEach bind fold_left]. unfold listCommand_syncInstance at 1.
    unfold synced at 2.
    destruct (find (has_id (Vultr.id vi)) active).
    + cbn [bind]. rewrite updateInstance_eq. cbn [bind ret]. rewrite IH.
      reflexivity.
    + cbn [bind]. unfold trackInstance at 1.
      destruct (instanceState.trackInstance _ _ _ _ _ _ _) as [data l] eqn:E.
      cbn [bind ret]. rewrite IH. reflexivity.
Qed.

Lemma forEach_markMissing out active s :
  forEach (listCommand_markMissing out) active s
  = (Resolved tt,
     State (fold_left (fun l r => marked_missing (clock s) out r l) active
                      (instances s))
           (currentServerInstanceId s) (history s) (clock s)).
Proof.
  revert s. induction active as [|r active IH]; intros s.
  - by destruct s.
  - cbn [forEach bind fold_left]. unfold listCommand_markMissing at 1.
    unfold marked_missing at 2.
    destruct (find _ out).
    + cbn [bind ret]. by rewrite IH.
    + cbn [bind]. rewrite updateInstance_eq. cbn [bind ret]. rewrite IH.
      reflexivity.
Qed.

(** What the sync does, in one equation. *)
Lemma listCommand_sync_eq world env s :
  listCommand_sync world env s =
  match listInstances world env s with
  | (Resolved vultrInstances, s1) =>
      (Resolved tt,
       State (reconciled (clock s1) vultrInstances (instances s1))
             (currentServerInstanceId s1) (history s1) (clock s1))
  | (Rejected e, s1) =>
      (Resolved tt, noted (ConsoleError "Error syncing with Vultr API:") s1)
  end.
Proof.
  unfold listCommand_sync. cbn [bind try_catch].
  destruct (listInstances world env s) as [[out|e] s1].
  - cbn [bind get_instances]. rewrite forEach_syncInstance. cbn [bind].
    rewrite forEach_markMissing. reflexivity.
  - by rewrite emit_eq.
Qed.

Lemma find_insert_miss {A} (p : A -> bool) l idx old new :
  l !! idx = Some old -> p old = false -> p new = false ->
  find p (<[idx := new]> l) = find p l.
Proof.
  revert idx. induction l as [|a l IH]; intros idx; [done|].
  destruct idx as [|idx]; simpl.
  - intros [= ->] -> ->. done.
  - intros Hl Ho Hn. destruct (p a); [done|]. by apply IH.
Qed.


Lemma find_Some_In {A} (p : A -> bool) l x :
  find p l = Some x -> In x l /\ p x = true.
Proof.
  induction l as [|a l IH]; simpl; [done|].
  destruct (p a) eqn:Hp.
  - intros [= ->]. auto.
  - intros H. destruct (IH H). auto.
Qed.

Lemma has_id_inj instanceId other (r : record) :
  has_id instanceId r = true -> other <> instanceId -> has_id other r = false.
Proof.
  unfold has_id. destruct (r !! "id") as [[]|]; try discriminate.
  intros ->%String.eqb_eq Hne. apply String.eqb_neq. congruence.
Qed.

(** Updating one instance leaves the lookup of every other id alone. *)
Lemma updateInstance_other now instanceId other status (metadata : record)
    (instances : list record) :
  other <> instanceId ->
  metadata !! "id" = None ->
  instanceState.getInstance other
    (snd (instanceState.updateInstance now instanceId status metadata instances))
  = instanceState.getInstance other instances.
Proof.
  intros Hne Hm. unfold instanceState.updateInstance, instanceState.getInstance.
  destruct (findIndex (has_id instanceId) instances) as [idx|] eqn:Hidx; [|done].
  destruct (findIndex_Some _ _ _ Hidx) as (old & Hold & Hp & _).
  rewrite Hold. cbn [default snd].
  apply (find_insert_miss _ _ _ old); [done|by eapply has_id_inj|].
  eapply has_id_inj; [|done]. by apply has_id_update.
Qed.

(** So does tracking one. *)
Lemma trackInstance_other now instanceId other userId username status
    (metadata : record) (instances : list record) :
  other <> instanceId ->
  instanceState.getInstance other
    (snd (instanceState.trackInstance now instanceId userId username status
            metadata instances))
  = instanceState.getInstance other instances.
Proof.
  intros Hne. unfold instanceState.trackInstance, instanceState.getInstance.
  assert (Hd : has_id instanceId
                 (instanceState.instanceData now instanceId userId username
                    status metadata) = true).
  { unfold has_id, instanceState.instanceData. rewrite lookup_insert_eq.
    apply String.eqb_refl. }
  destruct (findIndex (has_id instanceId) instances) as [idx|] eqn:Hidx;
    cbn [snd].
  - destruct (findIndex_Some _ _ _ Hidx) as (old & Hold & Hp & _).
    rewrite Hold. cbn [default].
    apply (find_insert_miss _ _ _ old); [done|by eapply has_id_inj|].
    eapply has_id_inj; [|done].
    unfold has_id in *. rewrite lookup_spread.
    by destruct (instanceState.instanceData _ _ _ _ _ _ !! "id").
  - induction instances as [|a l IH]; simpl.
    + by rewrite (has_id_inj _ _ _ Hd Hne).
    + simpl in Hidx. destruct (has_id instanceId a); [discriminate|].
      destruct (findIndex (has_id instanceId) l); [discriminate|].
      destruct (has_id other a); [done|]. by apply IH.
Qed.

(** After [trackInstance] the instance is tracked, by its new data. *)
Lemma trackInstance_tracks now instanceId userId username status
    (metadata : record) (instances : list record) :
  exists r,
    instanceState.getInstance instanceId
      (snd (instanceState.trackInstance now instanceId userId username status
              metadata instances)) = Some r /\
    creator_id r = Some userId /\
    r !! "status" = Some (js_or status (VStr "creating")).
Proof.
  unfold instanceState.trackInstance, instanceState.getInstance.
  set (data := instanceState.instanceData now instanceId userId username status
                 metadata).
  assert (Hd : has_id instanceId data = true).
  { unfold has_id, data, instanceState.instanceData. rewrite lookup_insert_eq.
    apply String.eqb_refl. }
  destruct (findIndex (has_id instanceId) instances) as [idx|] eqn:Hidx;
    cbn [snd].
  - destruct (findIndex_Some _ _ _ Hidx) as (old & Hold & Hp & _).
    rewrite Hold. cbn [default]. eexists. split.
    + apply find_insert_first; [done|].
      unfold has_id in *. rewrite lookup_spread.
      by destruct (data !! "id").
    + unfold creator_id, prop. rewrite !lookup_spread. split; reflexivity.
  - exists data. split; [|split; reflexivity].
    apply findIndex_None in Hidx.
    induction instances as [|a l IH]; simpl in *; [by rewrite Hd|].
    destruct (has_id instanceId a); [discriminate|auto].
Qed.











Lemma listInstances_filterCurrent_instances world env l s :
  instances (snd (listInstances_filterCurrent world env l s)) = instances s.
Proof.
  revert s. induction l as [|i l IH]; intros s; [done|].
  cbn [listInstances_filterCurrent bind]. rewrite isCurrentServer_eq.
  specialize (IH (detect world env s)).
  destruct (listInstances_filterCurrent world env l (detect world env s))
    as [[out|e] s1]; cbn [snd ret] in *; by rewrite IH, detect_instances.
Qed.

(** [listInstances] never touches the registry. *)
Lemma listInstances_instances world env s :
  instances (snd (listInstances world env s)) = instances s.
Proof.
  unfold listInstances. cbn [bind try_catch]. rewrite await_eq.
  destruct (listInstances_reply world (history s)) as [l|e].
  - cbn [bind].
    pose proof (listInstances_filterCurrent_instances world env l
                  (after world ListInstances 0 s)) as Hi.
    destruct (listInstances_filterCurrent world env l _) as [[out|e] s1];
      cbn [snd] in *.
    + destruct (string_truthy _); exact Hi.
    + rewrite emit_eq. exact Hi.
  - cbn [bind]. rewrite emit_eq. reflexivity.
Qed.

(** X19. The sync of [/list] never throws. When [listInstances] fails, the
    failure is logged as "Error syncing with Vultr API:" and the registry
    is what it was: the command goes on with the local data. *)
Theorem listCommand_sync_survives_failure world env s :
  let result := listCommand_sync world env s in
  fst result = Resolved tt /\
  (forall e s1,
     listInstances world env s = (Rejected e, s1) ->
     result = (Resolved tt, noted (ConsoleError "Error syncing with Vultr API:") s1) /\
     instances (snd result) = instances s).
Proof.
  intros result. subst result. rewrite listCommand_sync_eq.
  pose proof (listInstances_instances world env s) as Hi.
  destruct (listInstances world env s) as [[out|e] s1]; cbn [snd] in Hi.
  - split; [done|]. discriminate.
  - split; [done|]. intros e' s1' [= <- <-]. by split.
Qed.



Lemma distinct_ids_inj (instances : list record) x y :
  distinct_ids instances ->
  In x instances -> In y instances -> id_of x = id_of y -> x = y.
Proof.
  intros [_ HN] Hx Hy Heq.
  apply list_elem_of_In, list_elem_of_lookup in Hx as [i Hi].
  apply list_elem_of_In, list_elem_of_lookup in Hy as [j Hj].
  assert (i = j) as ->.
  { apply (NoDup_lookup _ i j (id_of x) HN);
      rewrite list_lookup_fmap; [rewrite Hi|rewrite Hj]; simpl; congruence. }
  congruence.
Qed.

Lemma active_other_id (instances : list record) r x :
  distinct_ids instances ->
  In r instances -> inactive r ->
  In x (instanceState.getActiveInstances instances) ->
  id_of x <> id_of r.
Proof.
  intros Hd Hr Hinact Hx Heq.
  unfold instanceState.getActiveInstances in Hx. apply filter_In in Hx as [Hx Hact].
  assert (x = r) as -> by (by eapply distinct_ids_inj).
  destruct Hinact as [H|H]; rewrite H in Hact; simpl in Hact;
    [discriminate|by rewrite andb_false_r in Hact].
Qed.

Lemma tracked_as_unknown_synced now active vi id (instances : list record) :
  (Vultr.id vi = id -> find (has_id id) active = None) ->
  tracked_as_unknown id instances \/ Vultr.id vi = id ->
  tracked_as_unknown id (synced now active vi instances).
Proof.
  intros Hnone H. unfold synced, tracked_as_unknown.
  destruct (decide (Vultr.id vi = id)) as [Heq|Hne].
  - rewrite Heq, (Hnone Heq).
    destruct (trackInstance_tracks now id "unknown" "Unknown"
                (opt_value (Vultr.power_status vi))
                (<["ip" := opt_value (Vultr.main_ip vi)]>
                   {[ "name" := VStr (or_string (Vultr.label vi) "Unknown Server") ]})
                instances) as (r & Hr & Hc & _).
    exists r. split; [exact Hr|].
    revert Hr. unfold instanceState.trackInstance, instanceState.getInstance.
    destruct (findIndex (has_id id) instances) as [idx|] eqn:Hidx; cbn [snd].
    + destruct (findIndex_Some _ _ _ Hidx) as (old & Hold & Hp & _).
      rewrite Hold. cbn [default].
      erewrite find_insert_first; [|done|].
      * intros [= <-]. unfold prop. by rewrite lookup_spread.
      * unfold has_id in *. rewrite lookup_spread.
        unfold instanceState.instanceData. rewrite lookup_insert_eq.
        apply String.eqb_refl.
    + apply findIndex_None in Hidx. intros Hf.
      assert (Hd : has_id id (instanceState.instanceData now id "unknown" "Unknown"
                                (opt_value (Vultr.power_status vi))
                                (<["ip" := opt_value (Vultr.main_ip vi)]>
                                   {[ "name" := VStr (or_string (Vultr.label vi) "Unknown Server") ]}))
                   = true).
      { unfold has_id, instanceState.instanceData. rewrite lookup_insert_eq.
        apply String.eqb_refl. }
      clear Hc. induction instances as [|a l IH]; simpl in *.
      * rewrite Hd in Hf. by injection Hf as <-.
      * destruct (has_id id a); [discriminate|auto].
  - destruct H as [(r & Hr & Hc)|Heq]; [|done].
    exists r. split; [|done].
    destruct (find (has_id (Vultr.id vi)) active).
    + by rewrite updateInstance_other.
    + by rewrite trackInstance_other.
Qed.

Lemma tracked_as_unknown_fold now active out id vi (instances : list record) :
  find (has_id id) active = None ->
  In vi out -> Vultr.id vi = id ->
  tracked_as_unknown id
    (fold_left (fun l vi => synced now active vi l) out instances).
Proof.
  intros Hnone Hin Heq.
  assert (Hkeep : forall xs l,
             tracked_as_unknown id l ->
             tracked_as_unknown id
               (fold_left (fun l vi => synced now active vi l) xs l)).
  { induction xs as [|x xs IH]; intros l Hl; [done|]. simpl. apply IH.
    apply tracked_as_unknown_synced; auto. }
  revert instances. induction out as [|x out IH]; intros instances; [done|].
  destruct Hin as [->|Hin]; simpl.
  - apply Hkeep. apply tracked_as_unknown_synced; auto.
  - by apply IH.
Qed.

Lemma tracked_as_unknown_marked now out active id (instances : list record) :
  Forall (fun x => id_of x <> id) active ->
  tracked_as_unknown id instances ->
  tracked_as_unknown id
    (fold_left (fun l x => marked_missing now out x l) active instances).
Proof.
  intros HF. revert instances.
  induction HF as [|x active Hx _ IH]; intros instances Hl; [done|].
  simpl. apply IH. unfold marked_missing. destruct (find _ out); [done|].
  destruct Hl as (r & Hr & Hc). exists r. split; [|done].
  rewrite updateInstance_other; [done|congruence|done].
Qed.

(** X21. An instance whose record is no longer active (destroyed or
    terminated) and which [listInstances] still returns (the provider
    lists it and self-protection does not hide it) is tracked anew by the
    sync of [/list], under the creator [unknown]: the record's creator is
    replaced. *)
Theorem listCommand_sync_retracks_as_unknown world env s out s1 r vi :
  listInstances world env s = (Resolved out, s1) ->
  distinct_ids (instances s) ->
  In r (instances s) ->
  inactive r ->
  In vi out ->
  Vultr.id vi = id_of r ->
  tracked_as_unknown (id_of r) (instances (snd (listCommand_sync world env s))).
Proof.
  intros Hlist Hd Hr Hinact Hvi Hid. rewrite listCommand_sync_eq.
  pose proof (listInstances_instances world env s) as Hi.
  rewrite Hlist in *. cbn [fst snd instances] in *. rewrite Hi.
  unfold reconciled.
  apply tracked_as_unknown_marked.
  - apply Forall_forall. intros x Hx%list_elem_of_In.
    by eapply active_other_id.
  - apply (tracked_as_unknown_fold _ _ _ _ vi); [|done|done].
    destruct (find _ _) as [x|] eqn:Hf; [|done].
    apply find_Some_In in Hf as [Hx Hp].
    destruct (has_id_id_of _ _ Hp) as [Hidx _].
    by destruct (active_other_id (instances s) r x).
Qed.

Lemma listCommand_sync_retracks_as_unknown_witness :
  tracked_as_unknown "i-1"
    (instances (snd (listCommand_sync Scenario.world_serving Sample.env
                       (State [Scenario.destroyed] (Some "host") [] 0)))).
Proof.
  apply (listCommand_sync_retracks_as_unknown Scenario.world_serving Sample.env
           (State [Scenario.destroyed] (Some "host") [] 0)
           [Sample.server "active" "running" "203.0.113.7" None]
           (snd (listInstances Scenario.world_serving Sample.env
                   (State [Scenario.destroyed] (Some "host") [] 0)))
           Scenario.destroyed
           (Sample.server "active" "running" "203.0.113.7" None)).
  - reflexivity.
  - split.
    + constructor; [|constructor]. exists "i-1". reflexivity.
    + vm_compute. constructor; [|constructor]. intros H. inversion H.
  - left. reflexivity.
  - right. reflexivity.
  - left. reflexivity.
  - reflexivity.
Defined.

(* ===================================================================== *)
(** * The panel-update lock: settling *)
(* ===================================================================== *)
Ltac panel_fields :=
  unfold panel_work, panel_renders_due, lock_consistent in *;
  cbn [Panel.waiting Panel.queued Panel.rendering Panel.pendingPanelUpdate
       Panel.panelUpdateInProgress Panel.renders Panel.acquire Panel.enter
       Panel.resume Panel.finally pred] in *.

Lemma settle_terminates fuel s :
  lock_consistent s ->
  (panel_work s <= fuel)%nat ->
  exists s',
    Panel.settle fuel s = Some s' /\
    Panel.quiescent s' = true /\
    Panel.panelUpdateInProgress s' = false /\
    (Panel.renders s <= Panel.renders s' <= Panel.renders s + panel_renders_due s)%nat.
Proof.
  revert s. induction fuel as [|fuel IH]; intros s Hs Hw.
  - destruct s as [inProgress pending r w q n].
    assert (w = 0 /\ q = 0 /\ r = 0)%nat as (-> & -> & ->).
    { panel_fields. destruct pending; lia. }
    destruct inProgress; [discriminate|].
    eexists. split; [reflexivity|]. panel_fields. repeat split; lia.
  - destruct s as [inProgress pending r w q n].
    assert (Hs' := Hs). unfold lock_consistent in Hs'. simpl in Hs'.
    destruct w as [|w].
    + destruct r as [|r].
      * destruct inProgress; [discriminate|].
        destruct q as [|q].
        -- eexists. split; [reflexivity|]. panel_fields. repeat split; lia.
        -- cbn [Panel.settle Panel.quiescent Panel.rendering Panel.waiting
                Panel.queued Nat.eqb andb negb Panel.step Panel.enter
                Panel.panelUpdateInProgress Panel.pendingPanelUpdate
                Panel.renders Panel.acquire pred].
           match goal with
           | |- context [Panel.settle fuel ?st] =>
               destruct (IH st) as (s' & Hset & Hq & Hl & Hr)
           end.
           { reflexivity. }
           { panel_fields. destruct pending; lia. }
           exists s'. split; [exact Hset|]. split; [exact Hq|]. split; [exact Hl|].
           panel_fields. destruct pending; lia.
      * destruct inProgress; [|discriminate]. injection Hs' as ->.
        cbn [Panel.settle Panel.quiescent Panel.rendering Panel.waiting
             Panel.queued Nat.eqb andb negb Panel.step Panel.finally
             Panel.panelUpdateInProgress Panel.pendingPanelUpdate
             Panel.renders pred].
        match goal with
        | |- context [Panel.settle fuel ?st] =>
            destruct (IH st) as (s' & Hset & Hq & Hl & Hr)
        end.
        { reflexivity. }
        { panel_fields. destruct pending; lia. }
        exists s'. split; [exact Hset|]. split; [exact Hq|]. split; [exact Hl|].
        panel_fields. destruct pending; lia.
    + cbn [Panel.settle Panel.quiescent Panel.rendering Panel.waiting
           Panel.queued Nat.eqb andb negb Panel.step Panel.resume
           Panel.panelUpdateInProgress Panel.pendingPanelUpdate
           Panel.renders Panel.acquire pred].
      unfold Panel.quiescent at 1.
      cbn [Panel.rendering Panel.waiting Panel.queued Nat.eqb].
      rewrite andb_false_r. cbn [andb Panel.resume Panel.panelUpdateInProgress].
      destruct inProgress.
      * match goal with
        | |- context [Panel.settle fuel ?st] =>
            destruct (IH st) as (s' & Hset & Hq & Hl & Hr)
        end.
        { exact Hs. }
        { panel_fields. destruct pending; lia. }
        exists s'. split; [exact Hset|]. split; [exact Hq|]. split; [exact Hl|].
        panel_fields. destruct pending; lia.
      * subst r.
        match goal with
        | |- context [Panel.settle fuel ?st] =>
            destruct (IH st) as (s' & Hset & Hq & Hl & Hr)
        end.
        { reflexivity. }
        { panel_fields. destruct pending; lia. }
        exists s'. split; [exact Hset|]. split; [exact Hq|]. split; [exact Hl|].
        panel_fields. destruct pending; lia.
Qed.

(** X22. The panel lock is always released. After any sequence of calls,
    waits, renders and timers from the start of the process, letting what
    is under way run to its end takes a bounded number of events (no
    endless re-queuing), ends with nothing under way and the lock free,
    and starts at most one render per waiting call and per queued timer,
    plus one if the render in progress has an update pending. *)
Theorem panel_always_settles es s :
  Panel.run es Panel.initial = Some s ->
  exists s',
    Panel.settle (panel_work s) s = Some s' /\
    Panel.quiescent s' = true /\
    Panel.panelUpdateInProgress s' = false /\
    (Panel.renders s' <= Panel.renders s + panel_renders_due s)%nat /\
    (panel_renders_due s <= Panel.waiting s + Panel.queued s + 1)%nat.
Proof.
  intros Hrun.
  assert (Hs : lock_consistent s).
  { eapply lock_consistent_run; [|exact Hrun]. reflexivity. }
  destruct (settle_terminates (panel_work s) s Hs ltac:(lia))
    as (s' & Hset & Hq & Hl & Hr).
  exists s'. split; [exact Hset|]. split; [exact Hq|]. split; [exact Hl|].
  split; [lia|].
  unfold panel_renders_due, lock_consistent in *.
  destruct (Panel.pendingPanelUpdate s), (Panel.panelUpdateInProgress s); lia.
Qed.

Lemma panel_always_settles_witness :
  exists s s',
    Panel.run [Panel.Call false; Panel.Call true; Panel.Call false] Panel.initial
    = Some s /\
    Panel.settle (panel_work s) s = Some s' /\
    Panel.quiescent s' = true /\
    Panel.panelUpdateInProgress s' = false.
Proof.
  eexists.
  destruct (panel_always_settles
              [Panel.Call false; Panel.Call true; Panel.Call false] _ eq_refl)
    as (s' & H1 & H2 & H3 & _).
  exists s'. repeat split; assumption.
Defined.

(* ===================================================================== *)
(** * Panel statistics, and the idle sweep *)
(* ===================================================================== *)
Lemma filter_disjoint_length {A} (p q : A -> bool) l :
  (forall x, p x = true -> q x = false) ->
  (length (List.filter p l) + length (List.filter q l) <= length l)%nat.
Proof.
  intros Hpq. induction l as [|a l IH]; simpl; [lia|].
  destruct (p a) eqn:Hp.
  - rewrite (Hpq a Hp). simpl. lia.
  - destruct (q a); simpl; lia.
Qed.

(** X23. [getServerStats] never throws; it counts the instances that
    [listInstances] returns, with [running + stopped <= total]; when
    [listInstances] fails it logs and answers all zeros. *)
Theorem getServerStats_counts world env s :
  exists st,
    fst (getServerStats world env s) = Resolved st /\
    (running st + stopped st <= total st)%nat /\
    (forall out,
       fst (listInstances world env s) = Resolved out ->
       total st = length out /\
       running st = length (List.filter (power_status_is "running") out) /\
       stopped st = length (List.filter (power_status_is "stopped") out)) /\
    (forall e,
       fst (listInstances world env s) = Rejected e ->
       st = Stats 0 0 0 /\
       exists tr,
         history (snd (getServerStats world env s))
         = (history s ++ tr ++ [ConsoleError "Error getting server stats:"])%list).
Proof.
  unfold getServerStats. cbn [bind try_catch].
  assert (Hh : exists tr, history (snd (listInstances world env s))
                          = (history s ++ tr)%list).
  { unfold listInstances. cbn [bind try_catch]. rewrite await_eq.
    destruct (listInstances_reply world (history s)) as [l|e]; cbn [bind].
    - destruct (listInstances_filterCurrent_keeps world env l
                  (after world ListInstances 0 s)) as (out & s' & Hf & _).
      assert (Hc : calls_only (fun _ => True)
                     (listInstances_filterCurrent world env l)).
      { clear. induction l as [|i l IH]; [apply calls_only_ret|].
        cbn [listInstances_filterCurrent].
        apply calls_only_bind; [by apply calls_only_isCurrentServer|intros b].
        apply calls_only_bind; [exact IH|intros; apply calls_only_ret]. }
      destruct (Hc (after world ListInstances 0 s)) as (tr & Htr & _).
      rewrite Hf in *. cbn [snd] in Htr.
      destruct (string_truthy _); cbn [ret snd]; rewrite Htr; cbn [history after];
        rewrite <- app_assoc; eauto.
    - rewrite emit_eq. cbn [throw snd history noted after].
      rewrite <- app_assoc. eauto. }
  destruct (listInstances world env s) as [[out|e] s1]; cbn [bind ret fst snd] in *.
  - eexists. split; [reflexivity|]. cbn [running stopped total].
    split.
    { apply filter_disjoint_length. intros x Hx. unfold power_status_is in *.
      apply bool_decide_eq_true in Hx. apply bool_decide_eq_false.
      rewrite Hx. discriminate. }
    split; [|discriminate]. intros out' [= <-]. auto.
  - rewrite emit_eq. cbn [bind ret fst snd]. eexists. split; [reflexivity|].
    split; [simpl; lia|]. split; [discriminate|].
    intros e' _. split; [reflexivity|].
    destruct Hh as (tr & Htr). exists tr. cbn [history noted]. rewrite Htr.
    by rewrite <- app_assoc.
Qed.

(** X24. [getAllInstancesForCost] never throws; it returns every instance
    that [listInstances] returns in the same state; what it returns comes
    from the provider's list and never has the excluded id; when the
    provider's call fails it answers the empty list. *)
Theorem getAllInstancesForCost_covers_managed world env s :
  exists all,
    fst (getAllInstancesForCost world env s) = Resolved all /\
    (forall out i,
       fst (listInstances world env s) = Resolved out -> In i out -> In i all) /\
    (forall l i,
       listInstances_reply world (history s) = Resolved l ->
       In i all ->
       In i l /\ EXCLUDE_INSTANCE_ID env <> Some (Vultr.id i)) /\
    (forall e, listInstances_reply world (history s) = Rejected e -> all = []).
Proof.
  unfold getAllInstancesForCost, listInstances. cbn [bind try_catch].
  rewrite !await_eq.
  destruct (listInstances_reply world (history s)) as [l|e]; cbn [bind].
  - destruct (listInstances_filterCurrent_keeps world env l
                (after world ListInstances 0 s)) as (out & s' & Hf & Hout).
    rewrite Hf. cbn [fst]. exists out. split; [reflexivity|].
    split; [|split; [|discriminate]].
    + intros out' i.
      destruct (string_truthy (EXCLUDE_SNAPSHOT_ID env)); simpl;
        intros [= Heq]; subst out';
        [|done].
      by intros [Hi _]%filter_In.
    + intros l' i [= <-] Hi. destruct (Hout i Hi) as (? & ? & _). by split.
  - rewrite !emit_eq. cbn [bind ret throw fst]. exists []. split; [reflexivity|].
    split; [discriminate|]. split; [discriminate|done].
Qed.

Lemma checkTimers_loop_idle world env l s :
  Forall (fun r => forall t, timer_of r = Some t ->
                             (10 < (expiresAt t - clock s) / 60000)%Z) l ->
  checkTimers_loop world env l s = (Resolved tt, s).
Proof.
  induction 1 as [|r l Hr _ IH]; [reflexivity|].
  cbn [checkTimers_loop bind].
  assert (Hone : checkTimers_instance world env r s = (Resolved tt, s)).
  { unfold checkTimers_instance.
    destruct (timer_of r) as [t|]; [|reflexivity].
    specialize (Hr t eq_refl). cbn [bind Date_now].
    set (m := ((expiresAt t - clock s) / 60000)%Z) in *.
    assert (0 < expiresAt t - clock s)%Z.
    { destruct (Z_lt_le_dec 0 (expiresAt t - clock s)) as [|Hle]; [done|].
      assert (m <= 0)%Z; [|lia].
      subst m. apply Z.div_le_upper_bound; lia. }
    destruct (Z.leb_spec (expiresAt t - clock s) 0); [lia|].
    destruct (Z.leb_spec m 10); [lia|]. cbn [andb].
    destruct (Z.leb_spec m 5); [lia|]. reflexivity. }
  rewrite Hone. exact IH.
Qed.

(** X25. An idle sweep is silent: when every active instance with a timer
    has more than 10 whole minutes left, [checkTimers] makes no call at
    all and leaves the state as it is. *)
Theorem checkTimers_idle world env s :
  (forall r t,
     In r (instanceState.getActiveInstances (instances s)) ->
     timer_of r = Some t ->
     (10 < (expiresAt t - clock s) / 60000)%Z) ->
  checkTimers world env s = (Resolved tt, s).
Proof.
  intros H. unfold checkTimers. cbn [try_catch bind get_instances].
  rewrite checkTimers_loop_idle; [reflexivity|].
  apply Forall_forall. intros r Hr%list_elem_of_In t Ht. by apply (H r t).
Qed.

Lemma checkTimers_idle_witness :
  checkTimers (Sample.world_reporting (Sample.server "active" "running" "203.0.113.7" None))
    Sample.env
    (State [<["selfDestructTimer" := VTimer (Timer 10800000 10800000 0 [])]>
              Sample.tracked] (Some "host") [] 0)
  = (Resolved tt,
     State [<["selfDestructTimer" := VTimer (Timer 10800000 10800000 0 [])]>
              Sample.tracked] (Some "host") [] 0).
Proof.
  apply (checkTimers_idle
           (Sample.world_reporting (Sample.server "active" "running" "203.0.113.7" None))
           Sample.env).
  intros r t [<-|[]] [= <-]. vm_compute. reflexivity.
Defined.

(* ===================================================================== *)
(** * Self-protection through the management flows *)
(* ===================================================================== *)















